(** * Perception and decision pipeline of the autonomous car

    A shallow embedding of the Raspberry Pi side of the vehicle:
    - [NavigationAI]            core/navigation_ai.py
    - [NavigationVisionSystem]  core/vision_system.py
    - [MotorController]         core/motor_controller.py

    Python numbers that are compared against thresholds (distances,
    confidences, ratios) are rationals [Q]; integer quantities (pixel
    coordinates, speeds in percent of duty cycle, counters) are [Z] or [nat].
    Strings stay strings: the code compares and stores literal tags. *)

From Stdlib Require Import ZArith QArith Qround Qabs Bool List String Lia.
From Stdlib Require Import Permutation.
Import ListNotations.

Local Open Scope string_scope.
Local Open Scope Z_scope.

(** ** Python helpers shared by the three modules *)

Module Py.

(** [x < y] on numbers, as a boolean. *)
Definition Qlt_bool (x y : Q) : bool := negb (Qle_bool y x).

(** A [dict] whose values are counters.  Python dictionaries iterate in
    insertion order and [max] depends on it, so the dictionary is an
    association list with unique keys, oldest key first. *)
Definition counter := list (string * nat).

(** [d[k] = d.get(k, 0) + 1]: an existing key keeps its position, a new key is
    appended. *)
Fixpoint dict_incr (k : string) (d : counter) : counter :=
  match d with
  | [] => [(k, 1%nat)]
  | (k', n) :: d' =>
      if String.eqb k k' then (k', S n) :: d' else (k', n) :: dict_incr k d'
  end.

(** [for x in xs: d[x] = d.get(x, 0) + 1], starting from the empty dict. *)
Definition count_occurrences (xs : list string) : counter :=
  fold_left (fun d x => dict_incr x d) xs [].

(** [d[k]]; [None] is [KeyError]. *)
Fixpoint dict_get (d : counter) (k : string) : option nat :=
  match d with
  | [] => None
  | (k', n) :: d' => if String.eqb k k' then Some n else dict_get d' k
  end.

(** [max(d, key=d.get)]: the keys are visited in insertion order and the
    running maximum is replaced only by a strictly larger count, so the first
    key among those with the largest count wins.  [None] is the [ValueError]
    of [max] on an empty dictionary. *)
Definition max_key (d : counter) : option string :=
  match d with
  | [] => None
  | e :: d' =>
      Some (fst (fold_left
                   (fun best e' => if (snd best <? snd e')%nat then e' else best)
                   d' e))
  end.

(** [collections.deque(maxlen=n).append(x)]: when the deque is full the
    leftmost element is discarded. *)
Definition deque_append {A : Type} (maxlen : nat) (x : A) (l : list A) : list A :=
  let l' := (l ++ [x])%list in
  if (maxlen <? List.length l')%nat then tl l' else l'.

(** [round(q, ndigits)]: rounding to [ndigits] decimals, ties to the even
    neighbour. *)
Definition round_half_even (q : Q) : Z :=
  let f := Qfloor q in
  let r := (q - inject_Z f)%Q in
  if Qlt_bool r (1 # 2) then f
  else if Qlt_bool (1 # 2) r then f + 1
  else if Z.even f then f else f + 1.

Definition round (q : Q) (ndigits : nat) : Q :=
  let scale := inject_Z (10 ^ Z.of_nat ndigits) in
  (inject_Z (round_half_even (q * scale)) / scale)%Q.

(** [needle in haystack] on strings. *)
Fixpoint contains (needle haystack : string) : bool :=
  String.prefix needle haystack
  || match haystack with
     | EmptyString => false
     | String _ rest => contains needle rest
     end.

End Py.

(** ** core/navigation_ai.py *)

Module NavigationAI.

(** The [environment] dictionary built by [analyze_environment]. *)
Record environment := {
  lane_direction : string;
  traffic_light : string;
  traffic_light_confidence : Q;
  speed_limit_detected : bool;
  stop_sign_detected : bool;
  obstacle_distance : Q;
  obstacle_detected : bool
}.

(** A piece of a formatted string: literal text, or a number spliced in by an
    f-string (kept as the number; printing it is Python's business). *)
Inductive fragment :=
| Text (s : string)
| Num (q : Q).

(** The decision dictionary.  ['filtered'] is absent until
    [apply_temporal_filtering] sets it. *)
Record decision := {
  action : string;
  speed : Z;
  reason : list fragment;
  filtered : option bool
}.

(** The attributes of a [NavigationAI] object. *)
Record t := {
  current_state : string;
  previous_actions : list string;    (* deque(maxlen=10) *)
  decision_history : list string;    (* deque(maxlen=5) *)
  obstacle_stop_distance : Q;
  safe_distance : Q;
  turn_duration : Q;
  red_light_stop : bool;
  green_light_go : bool;
  default_speed : Z;
  reduced_speed : Z
}.

(** [__init__] *)
Definition init : t := {|
  current_state := "IDLE";
  previous_actions := [];
  decision_history := [];
  obstacle_stop_distance := 20;
  safe_distance := 30;
  turn_duration := 1;
  red_light_stop := true;
  green_light_go := true;
  default_speed := 75;
  reduced_speed := 50
|}.

Definition set_decision_history (h : list string) (self : t) : t := {|
  current_state := current_state self;
  previous_actions := previous_actions self;
  decision_history := h;
  obstacle_stop_distance := obstacle_stop_distance self;
  safe_distance := safe_distance self;
  turn_duration := turn_duration self;
  red_light_stop := red_light_stop self;
  green_light_go := green_light_go self;
  default_speed := default_speed self;
  reduced_speed := reduced_speed self
|}.

Definition mk_decision (a : string) (v : Z) (r : list fragment) : decision :=
  {| action := a; speed := v; reason := r; filtered := None |}.

(** [make_navigation_decision]: the rules are tried in order, the first one
    that applies returns. *)
Definition make_navigation_decision (self : t) (environment : environment) : decision :=
  (* 1. Emergency stop for obstacles *)
  if obstacle_detected environment
     && Py.Qlt_bool (obstacle_distance environment) (obstacle_stop_distance self)
  then mk_decision "EMERGENCY_STOP" 0
         [Text "Obstacle at "; Num (obstacle_distance environment); Text "cm"]
  (* 2. Stop for red traffic light *)
  else if String.eqb (traffic_light environment) "RED"
          && Py.Qlt_bool (7 # 10) (traffic_light_confidence environment)
  then mk_decision "TRAFFIC_STOP" 0 [Text "Red traffic light detected"]
  (* 3. Stop for stop sign *)
  else if stop_sign_detected environment
  then mk_decision "STOP_SIGN_STOP" 0 [Text "Stop sign detected"]
  (* 4. Determine movement based on lane direction *)
  else if String.eqb (lane_direction environment) "LEFT"
  then mk_decision "TURN_LEFT"
         (if speed_limit_detected environment
          then reduced_speed self else default_speed self)
         [Text "Following lane direction"]
  else if String.eqb (lane_direction environment) "RIGHT"
  then mk_decision "TURN_RIGHT"
         (if speed_limit_detected environment
          then reduced_speed self else default_speed self)
         [Text "Following lane direction"]
  else if String.eqb (lane_direction environment) "STRAIGHT"
  then mk_decision "MOVE_FORWARD"
         (if Py.Qlt_bool (obstacle_distance environment) (safe_distance self)
          then reduced_speed self
          else if speed_limit_detected environment
               then reduced_speed self else default_speed self)
         [Text "Following lane - straight path"]
  (* 5. Default behavior when lane direction is unknown *)
  else if Py.Qlt_bool (safe_distance self) (obstacle_distance environment)
  then mk_decision "MOVE_FORWARD" (reduced_speed self)
         [Text "Cautious forward movement"]
  else mk_decision "STOP" 0 [Text "Uncertain environment - safety stop"].

(** The guards of rules 1 to 3, the stop rules that precede the lane rules. *)
Definition stop_rule_fires (self : t) (environment : environment) : bool :=
  (obstacle_detected environment
   && Py.Qlt_bool (obstacle_distance environment) (obstacle_stop_distance self))
  || (String.eqb (traffic_light environment) "RED"
      && Py.Qlt_bool (7 # 10) (traffic_light_confidence environment))
  || stop_sign_detected environment.

(** [apply_temporal_filtering]: the decision dictionary is updated in place
    and returned; the object's [decision_history] grows by the raw action.
    The consensus test [most_common_count >= len(history) * 0.6] is taken over
    the rationals; for the lengths 1..5 that a deque of five can have, the
    floating-point products 0.6, 1.2, 1.8-, 2.4, 3.0 separate the same integer
    counts as the exact ones.  [None] stands for an exception ([ValueError]
    of [max], [KeyError] of the lookup). *)
Definition apply_temporal_filtering (self : t) (d : decision)
  : option (decision * t) :=
  let history := Py.deque_append 5 (action d) (decision_history self) in
  let self' := set_decision_history history self in
  let action_counts := Py.count_occurrences history in
  match Py.max_key action_counts with
  | None => None
  | Some most_common_action =>
      match Py.dict_get action_counts most_common_action with
      | None => None
      | Some most_common_count =>
          if Qle_bool (inject_Z (Z.of_nat (List.length history)) * (6 # 10))
                      (inject_Z (Z.of_nat most_common_count))
          then Some ({| action := most_common_action;
                        speed := speed d;
                        reason := reason d;
                        filtered := Some true |}, self')
          else Some ({| action := action d;
                        speed := speed d;
                        reason := reason d;
                        filtered := Some false |}, self')
      end
  end.

End NavigationAI.

(** ** core/vision_system.py *)

Module NavigationVisionSystem.

(** The [navigation_data] dictionary sent to the Android app. *)
Module NavigationData.
Record t := {
  lane_direction : string;
  lane_confidence : Q;
  obstacle_detected : bool;
  obstacle_distance_pixels : Z;
  path_clear : bool;
  fps : Q;
  camera_active : bool
}.
End NavigationData.

(** The attributes of a [NavigationVisionSystem] object that the temporal
    filters and the frame pacing read or write.  Images (the annotated output
    frame, [stream_frame]) and the colour bounds handed to OpenCV are left
    out. *)
Record t := {
  fps : Q;
  frame_count : Z;
  start_time : Q;
  history_length : nat;
  lane_direction_history : list string;
  current_direction : string;
  lane_confidence : Q;
  obstacle_history : list bool;
  obstacle_detected : bool;
  obstacle_confidence : Q;
  navigation_data : NavigationData.t;
  skip_frames : Z;
  frame_skip_counter : Z
}.

(** [__init__]; [now] is the value of [time.time()] at construction. *)
Definition init (now : Q) : t := {|
  fps := 0;
  frame_count := 0;
  start_time := now;
  history_length := 5;
  lane_direction_history := [];
  current_direction := "STRAIGHT";
  lane_confidence := 0;
  obstacle_history := [];
  obstacle_detected := false;
  obstacle_confidence := 0;
  navigation_data := {|
    NavigationData.lane_direction := "STRAIGHT";
    NavigationData.lane_confidence := 0;
    NavigationData.obstacle_detected := false;
    NavigationData.obstacle_distance_pixels := 0;
    NavigationData.path_clear := true;
    NavigationData.fps := 0;
    NavigationData.camera_active := true |};
  skip_frames := 2;
  frame_skip_counter := 0
|}.

(** What OpenCV reports about one frame: the inputs of the filters. *)
Record frame_analysis := {
  frame_width : Z;
    (* frame.shape[1] *)
  navigation_path : option (option (Z * Z));
    (* find_navigation_path(roi_mask): [None] is (None, None), [Some None] is
       (main_path, None), [Some (Some c)] is (main_path, c) *)
  path_obstacle_pixels : Z
    (* _detect_path_obstacles(frame, main_path) *)
}.

(** [get_navigation_direction]; the pixel coordinates are integers, the
    offset ratio is a true division compared with 0.3. *)
Definition get_navigation_direction (center_x image_center_x threshold : Z) : string :=
  let offset := center_x - image_center_x in
  let offset_ratio :=
    (inject_Z (Z.abs offset)
     / inject_Z (if image_center_x >? 0 then image_center_x else 1))%Q in
  if Z.abs offset <? threshold then "STRAIGHT"
  else if offset <? - threshold then
    (* More aggressive left turn detection *)
    if Py.Qlt_bool (3 # 10) offset_ratio then "SHARP_LEFT" else "LEFT"
  else
    (* More aggressive right turn detection *)
    if Py.Qlt_bool (3 # 10) offset_ratio then "SHARP_RIGHT" else "RIGHT".

(** [history.append(x)] followed by [if len(history) > history_length:
    history.pop(0)]. *)
Definition push_history {A : Type} (history_length : nat) (x : A) (history : list A)
  : list A :=
  let history' := (history ++ [x])%list in
  if (history_length <? List.length history')%nat then tl history' else history'.

(** [sum(history)] over booleans: the number of [True] entries. *)
Definition sum_bools (history : list bool) : nat :=
  List.length (filter (fun b => b) history).

(** [count / len(history)] as a true division.  The quotient of two small
    integers is compared with the literals 0.6 and 0.4 only: float division is
    correctly rounded, so 3/5 and 2/5 are the very doubles those literals
    denote, and the comparisons come out as on the exact rationals. *)
Definition ratio {A : Type} (count : nat) (history : list A) : Q :=
  (inject_Z (Z.of_nat count) / inject_Z (Z.of_nat (List.length history)))%Q.

Definition set_lane_direction_history (h : list string) (self : t) : t := {|
  fps := fps self;
  frame_count := frame_count self;
  start_time := start_time self;
  history_length := history_length self;
  lane_direction_history := h;
  current_direction := current_direction self;
  lane_confidence := lane_confidence self;
  obstacle_history := obstacle_history self;
  obstacle_detected := obstacle_detected self;
  obstacle_confidence := obstacle_confidence self;
  navigation_data := navigation_data self;
  skip_frames := skip_frames self;
  frame_skip_counter := frame_skip_counter self
|}.

Definition set_lane (confidence : Q) (direction : string) (self : t) : t := {|
  fps := fps self;
  frame_count := frame_count self;
  start_time := start_time self;
  history_length := history_length self;
  lane_direction_history := lane_direction_history self;
  current_direction := direction;
  lane_confidence := confidence;
  obstacle_history := obstacle_history self;
  obstacle_detected := obstacle_detected self;
  obstacle_confidence := obstacle_confidence self;
  navigation_data := navigation_data self;
  skip_frames := skip_frames self;
  frame_skip_counter := frame_skip_counter self
|}.

Definition set_frame_skip_counter (n : Z) (self : t) : t := {|
  fps := fps self;
  frame_count := frame_count self;
  start_time := start_time self;
  history_length := history_length self;
  lane_direction_history := lane_direction_history self;
  current_direction := current_direction self;
  lane_confidence := lane_confidence self;
  obstacle_history := obstacle_history self;
  obstacle_detected := obstacle_detected self;
  obstacle_confidence := obstacle_confidence self;
  navigation_data := navigation_data self;
  skip_frames := skip_frames self;
  frame_skip_counter := n
|}.

(** [_update_direction_with_confidence].  [None] stands for an exception
    ([max] of an empty dictionary, a missing key). *)
Definition _update_direction_with_confidence (self : t) : option t :=
  match lane_direction_history self with
  | [] => Some self
  | _ :: _ =>
      let direction_counts := Py.count_occurrences (lane_direction_history self) in
      match Py.max_key direction_counts with
      | None => None
      | Some most_common_direction =>
          match Py.dict_get direction_counts most_common_direction with
          | None => None
          | Some max_count =>
              let confidence := ratio max_count (lane_direction_history self) in
              Some (set_lane confidence
                      (if Qle_bool (6 # 10) confidence
                       then most_common_direction
                       else current_direction self)
                      self)
          end
      end
  end.

(** [_update_navigation_data]; [now] is what [time.time()] returns. *)
Definition _update_navigation_data
  (path_clear : bool) (obstacle_distance : Z) (now : Q) (self : t) : t :=
  let elapsed := (now - start_time self)%Q in
  let refresh := Qle_bool 1 elapsed in
  let fps' :=
    if refresh then (inject_Z (frame_count self) / elapsed)%Q else fps self in
  let frame_count' := (if refresh then 0 else frame_count self) + 1 in
  let start_time' := if refresh then now else start_time self in
  (* Update obstacle detection with temporal filtering *)
  let history :=
    push_history (history_length self) (negb path_clear) (obstacle_history self) in
  let obstacle_count := sum_bools history in
  let confidence :=
    match history with
    | [] => 0%Q
    | _ :: _ => ratio obstacle_count history
    end in
  let detected := Py.Qlt_bool (4 # 10) confidence in
  {| fps := fps';
     frame_count := frame_count';
     start_time := start_time';
     history_length := history_length self;
     lane_direction_history := lane_direction_history self;
     current_direction := current_direction self;
     lane_confidence := lane_confidence self;
     obstacle_history := history;
     obstacle_detected := detected;
     obstacle_confidence := confidence;
     navigation_data := {|
       NavigationData.lane_direction := current_direction self;
       NavigationData.lane_confidence := Py.round (lane_confidence self) 2;
       NavigationData.obstacle_detected := detected;
       NavigationData.obstacle_distance_pixels := obstacle_distance;
       NavigationData.path_clear := path_clear && negb detected;
       NavigationData.fps := Py.round fps' 1;
       NavigationData.camera_active := true |};
     skip_frames := skip_frames self;
     frame_skip_counter := frame_skip_counter self |}.

(** Lines 421-427 of [process_navigation_frame]: the raw direction enters the
    history and the stable direction is recomputed. *)
Definition filter_direction (detected_direction : string) (self : t) : option t :=
  _update_direction_with_confidence
    (set_lane_direction_history
       (push_history (history_length self) detected_direction
          (lane_direction_history self))
       self).

(** [process_navigation_frame], returning [navigation_data] and the updated
    object.  [None] stands for an exception; the only one within reach is the
    [ZeroDivisionError] of [% self.skip_frames]. *)
Definition process_navigation_frame (self : t) (frame : frame_analysis) (now : Q)
  : option (NavigationData.t * t) :=
  (* Skip processing for performance if needed *)
  let self := set_frame_skip_counter (frame_skip_counter self + 1) self in
  if skip_frames self =? 0 then None
  else if negb (frame_skip_counter self mod skip_frames self =? 0)
  then Some (navigation_data self, self)
  else
    let '(detected_direction, path_clear, obstacle_distance) :=
      match navigation_path frame with
      | Some (Some (cx, _)) =>
          let img_center_x := frame_width frame / 2 in
          let obstacle_distance := path_obstacle_pixels frame in
          (get_navigation_direction cx img_center_x 40,
           obstacle_distance =? 0,
           obstacle_distance)
      | _ => ("STRAIGHT", true, 0)
      end in
    match filter_direction detected_direction self with
    | None => None
    | Some self =>
        let self := _update_navigation_data path_clear obstacle_distance now self in
        Some (navigation_data self, self)
    end.

(** The attributes that [detect_speed_limit] filters with. *)
Record sign_filter := {
  speed_limit_history : list bool;
  speed_limit_confidence : Q;
  speed_limit_detected : bool
}.

(** The tail of [detect_speed_limit] (lines 274-291): [current_detection] is
    the outcome of the contour tests on this frame. *)
Definition detect_speed_limit
  (history_length : nat) (current_detection : bool) (self : sign_filter)
  : sign_filter :=
  let history :=
    push_history history_length current_detection (speed_limit_history self) in
  match history with
  | [] => {| speed_limit_history := history;
             speed_limit_confidence := speed_limit_confidence self;
             speed_limit_detected := speed_limit_detected self |}
  | _ :: _ =>
      let detection_count := sum_bools history in
      let confidence := ratio detection_count history in
      {| speed_limit_history := history;
         speed_limit_confidence := confidence;
         speed_limit_detected := Py.Qlt_bool (6 # 10) confidence |}
  end.

(** Folding a step that may raise over a list of inputs. *)
Fixpoint iterate {A S : Type} (step : A -> S -> option S) (xs : list A) (s : S)
  : option S :=
  match xs with
  | [] => Some s
  | x :: xs' =>
      match step x s with
      | None => None
      | Some s' => iterate step xs' s'
      end
  end.

End NavigationVisionSystem.

(** ** core/motor_controller.py *)

Module MotorController.

(** *** The hardware, seen through the calls made to RPi.GPIO *)

Inductive level := LOW | HIGH.

Inductive pwm := pwm1 | pwm2 | pwm3 | pwm4.

Inductive gpio_call :=
| Output (pin : Z) (value : level)          (* GPIO.output(pin, value) *)
| ChangeDutyCycle (channel : pwm) (duty : Z). (* pwm.ChangeDutyCycle(duty) *)

(** A call that can set a wheel in motion: raising a direction pin, or a
    duty cycle other than zero. *)
Definition drives (c : gpio_call) : bool :=
  match c with
  | Output _ HIGH => true
  | Output _ LOW => false
  | ChangeDutyCycle _ duty => negb (duty =? 0)
  end.

Definition IN1 : Z := 17.
Definition IN2 : Z := 22.
Definition IN3 : Z := 23.
Definition IN4 : Z := 24.
Definition IN5 : Z := 5.
Definition IN6 : Z := 6.
Definition IN7 : Z := 13.
Definition IN8 : Z := 19.

(** *** The object *)

Module Motor.
Record t := { speed : Z; direction : string }.
End Motor.

Module MotorState.
Record t := {
  front_left : Motor.t;
  front_right : Motor.t;
  rear_left : Motor.t;
  rear_right : Motor.t;
  current_action : string;
  target_speed : Z;
  actual_speed : Z
}.
End MotorState.

Module RuntimeStats.
Record t := {
  total_commands : Z;
  emergency_stops : Z;
  manual_overrides : Z;
  autonomous_commands : Z
}.
End RuntimeStats.

(** The attributes of a [MotorController], the log of GPIO calls it has made
    (most recent first) and the clock that [time.time()] reads and
    [time.sleep] advances. *)
Record t := {
  gpio : list gpio_call;
  clock : Q;
  default_speed : Z;
  current_speed : Z;
  max_speed : Z;
  min_speed : Z;
  acceleration_step : Z;
  acceleration_delay : Q;
  smooth_control : bool;
  motor_state : MotorState.t;
  emergency_stop_active : bool;
  last_command_time : Q;
  command_timeout : Q;
  total_distance : Z;
  runtime_stats : RuntimeStats.t
}.

Definition set_gpio (v : list gpio_call) (self : t) : t :=
  Build_t v (clock self) (default_speed self) (current_speed self)
    (max_speed self) (min_speed self) (acceleration_step self)
    (acceleration_delay self) (smooth_control self) (motor_state self)
    (emergency_stop_active self) (last_command_time self)
    (command_timeout self) (total_distance self) (runtime_stats self).

Definition set_clock (v : Q) (self : t) : t :=
  Build_t (gpio self) v (default_speed self) (current_speed self)
    (max_speed self) (min_speed self) (acceleration_step self)
    (acceleration_delay self) (smooth_control self) (motor_state self)
    (emergency_stop_active self) (last_command_time self)
    (command_timeout self) (total_distance self) (runtime_stats self).

Definition set_default_speed (v : Z) (self : t) : t :=
  Build_t (gpio self) (clock self) v (current_speed self) (max_speed self)
    (min_speed self) (acceleration_step self) (acceleration_delay self)
    (smooth_control self) (motor_state self) (emergency_stop_active self)
    (last_command_time self) (command_timeout self) (total_distance self)
    (runtime_stats self).

Definition set_current_speed (v : Z) (self : t) : t :=
  Build_t (gpio self) (clock self) (default_speed self) v (max_speed self)
    (min_speed self) (acceleration_step self) (acceleration_delay self)
    (smooth_control self) (motor_state self) (emergency_stop_active self)
    (last_command_time self) (command_timeout self) (total_distance self)
    (runtime_stats self).

Definition set_max_speed (v : Z) (self : t) : t :=
  Build_t (gpio self) (clock self) (default_speed self) (current_speed self) v
    (min_speed self) (acceleration_step self) (acceleration_delay self)
    (smooth_control self) (motor_state self) (emergency_stop_active self)
    (last_command_time self) (command_timeout self) (total_distance self)
    (runtime_stats self).

Definition set_min_speed (v : Z) (self : t) : t :=
  Build_t (gpio self) (clock self) (default_speed self) (current_speed self)
    (max_speed self) v (acceleration_step self) (acceleration_delay self)
    (smooth_control self) (motor_state self) (emergency_stop_active self)
    (last_command_time self) (command_timeout self) (total_distance self)
    (runtime_stats self).

Definition set_smooth_control (v : bool) (self : t) : t :=
  Build_t (gpio self) (clock self) (default_speed self) (current_speed self)
    (max_speed self) (min_speed self) (acceleration_step self)
    (acceleration_delay self) v (motor_state self)
    (emergency_stop_active self) (last_command_time self)
    (command_timeout self) (total_distance self) (runtime_stats self).

Definition set_motor_state (v : MotorState.t) (self : t) : t :=
  Build_t (gpio self) (clock self) (default_speed self) (current_speed self)
    (max_speed self) (min_speed self) (acceleration_step self)
    (acceleration_delay self) (smooth_control self) v
    (emergency_stop_active self) (last_command_time self)
    (command_timeout self) (total_distance self) (runtime_stats self).

Definition set_emergency_stop_active (v : bool) (self : t) : t :=
  Build_t (gpio self) (clock self) (default_speed self) (current_speed self)
    (max_speed self) (min_speed self) (acceleration_step self)
    (acceleration_delay self) (smooth_control self) (motor_state self) v
    (last_command_time self) (command_timeout self) (total_distance self)
    (runtime_stats self).

Definition set_last_command_time (v : Q) (self : t) : t :=
  Build_t (gpio self) (clock self) (default_speed self) (current_speed self)
    (max_speed self) (min_speed self) (acceleration_step self)
    (acceleration_delay self) (smooth_control self) (motor_state self)
    (emergency_stop_active self) v (command_timeout self)
    (total_distance self) (runtime_stats self).

Definition set_runtime_stats (v : RuntimeStats.t) (self : t) : t :=
  Build_t (gpio self) (clock self) (default_speed self) (current_speed self)
    (max_speed self) (min_speed self) (acceleration_step self)
    (acceleration_delay self) (smooth_control self) (motor_state self)
    (emergency_stop_active self) (last_command_time self)
    (command_timeout self) (total_distance self) v.

(** *** Methods as state transformers

    A method takes the object and returns a value and the updated object;
    [None] means that the method does not return (a [while] loop that never
    exits). *)

Definition M (A : Type) : Type := t -> option (A * t).

Definition ret {A : Type} (a : A) : M A := fun self => Some (a, self).

Definition bind {A B : Type} (c : M A) (k : A -> M B) : M B :=
  fun self =>
    match c self with
    | None => None
    | Some (a, self') => k a self'
    end.

Declare Scope method_scope.
Delimit Scope method_scope with method.
Bind Scope method_scope with M.

Notation "x <- c ;; k" := (bind c (fun x => k))
  (at level 61, c at next level, right associativity) : method_scope.
Notation "c ;; k" := (bind c (fun _ => k))
  (at level 61, right associativity) : method_scope.

Local Open Scope method_scope.

Definition gets {A : Type} (f : t -> A) : M A := fun self => Some (f self, self).

Definition modify (f : t -> t) : M unit := fun self => Some (tt, f self).

Definition GPIO_output (pin : Z) (value : level) : M unit :=
  modify (fun self => set_gpio (Output pin value :: gpio self) self).

Definition pwm_ChangeDutyCycle (channel : pwm) (duty : Z) : M unit :=
  modify (fun self => set_gpio (ChangeDutyCycle channel duty :: gpio self) self).

Definition time_time : M Q := gets clock.

Definition time_sleep (seconds : Q) : M unit :=
  modify (fun self => set_clock (clock self + seconds)%Q self).

(** [if speed is None: speed = self.default_speed] *)
Definition or_default_speed (speed : option Z) : M Z :=
  match speed with
  | Some v => ret v
  | None => gets default_speed
  end.

(** *** Motor control functions *)

Definition motor1_forward (speed : option Z) : M unit :=
  speed <- or_default_speed speed ;;
  GPIO_output IN1 HIGH ;; GPIO_output IN2 LOW ;; pwm_ChangeDutyCycle pwm1 speed.

Definition motor1_backward (speed : option Z) : M unit :=
  speed <- or_default_speed speed ;;
  GPIO_output IN1 LOW ;; GPIO_output IN2 HIGH ;; pwm_ChangeDutyCycle pwm1 speed.

Definition motor1_stop : M unit :=
  GPIO_output IN1 LOW ;; GPIO_output IN2 LOW ;; pwm_ChangeDutyCycle pwm1 0.

Definition motor2_forward (speed : option Z) : M unit :=
  speed <- or_default_speed speed ;;
  GPIO_output IN3 HIGH ;; GPIO_output IN4 LOW ;; pwm_ChangeDutyCycle pwm2 speed.

Definition motor2_backward (speed : option Z) : M unit :=
  speed <- or_default_speed speed ;;
  GPIO_output IN3 LOW ;; GPIO_output IN4 HIGH ;; pwm_ChangeDutyCycle pwm2 speed.

Definition motor2_stop : M unit :=
  GPIO_output IN3 LOW ;; GPIO_output IN4 LOW ;; pwm_ChangeDutyCycle pwm2 0.

Definition motor3_forward (speed : option Z) : M unit :=
  speed <- or_default_speed speed ;;
  GPIO_output IN5 HIGH ;; GPIO_output IN6 LOW ;; pwm_ChangeDutyCycle pwm3 speed.

Definition motor3_backward (speed : option Z) : M unit :=
  speed <- or_default_speed speed ;;
  GPIO_output IN5 LOW ;; GPIO_output IN6 HIGH ;; pwm_ChangeDutyCycle pwm3 speed.

Definition motor3_stop : M unit :=
  GPIO_output IN5 LOW ;; GPIO_output IN6 LOW ;; pwm_ChangeDutyCycle pwm3 0.

Definition motor4_forward (speed : option Z) : M unit :=
  speed <- or_default_speed speed ;;
  GPIO_output IN7 HIGH ;; GPIO_output IN8 LOW ;; pwm_ChangeDutyCycle pwm4 speed.

Definition motor4_backward (speed : option Z) : M unit :=
  speed <- or_default_speed speed ;;
  GPIO_output IN7 LOW ;; GPIO_output IN8 HIGH ;; pwm_ChangeDutyCycle pwm4 speed.

Definition motor4_stop : M unit :=
  GPIO_output IN7 LOW ;; GPIO_output IN8 LOW ;; pwm_ChangeDutyCycle pwm4 0.

(** *** Advanced motor control functions *)

Definition set_motor (direction : string) (speed : Z) : Motor.t :=
  {| Motor.speed := speed; Motor.direction := direction |}.

(** [_update_motor_state] *)
Definition _update_motor_state (action : string) (speed : Z) : M unit :=
  now <- time_time ;;
  modify (set_last_command_time now) ;;
  actual <- gets current_speed ;;
  (* Update individual motor states based on action *)
  let '(direction, motor_speed) :=
    if Py.contains "forward" action then ("forward", speed)
    else if Py.contains "backward" action then ("backward", speed)
    else if Py.contains "stop" action then ("stop", 0)
    else if Py.contains "turn_left" action then ("turn_left", speed)
    else if Py.contains "turn_right" action then ("turn_right", speed)
    else ("unknown", speed) in
  modify (set_motor_state
            {| MotorState.front_left := set_motor direction motor_speed;
               MotorState.front_right := set_motor direction motor_speed;
               MotorState.rear_left := set_motor direction motor_speed;
               MotorState.rear_right := set_motor direction motor_speed;
               MotorState.current_action := action;
               MotorState.target_speed := speed;
               MotorState.actual_speed := actual |}).

(** [self.runtime_stats['total_commands'] += 1] *)
Definition count_command : M unit :=
  modify (fun self =>
    let stats := runtime_stats self in
    set_runtime_stats
      {| RuntimeStats.total_commands := RuntimeStats.total_commands stats + 1;
         RuntimeStats.emergency_stops := RuntimeStats.emergency_stops stats;
         RuntimeStats.manual_overrides := RuntimeStats.manual_overrides stats;
         RuntimeStats.autonomous_commands := RuntimeStats.autonomous_commands stats |}
      self).

(** [_apply_speed_to_all_motors] *)
Definition _apply_speed_to_all_motors (speed : Z) (direction : string) : M unit :=
  if String.eqb direction "forward" then
    motor1_forward (Some speed) ;; motor2_forward (Some speed) ;;
    motor3_forward (Some speed) ;; motor4_forward (Some speed)
  else if String.eqb direction "backward" then
    motor1_backward (Some speed) ;; motor2_backward (Some speed) ;;
    motor3_backward (Some speed) ;; motor4_backward (Some speed)
  else ret tt.

(** [all_motors_stop(immediate=True)]: with [immediate] set, the test
    [immediate or not self.smooth_control] takes the first branch. *)
Definition all_motors_stop_immediate : M bool :=
  motor1_stop ;; motor2_stop ;; motor3_stop ;; motor4_stop ;;
  modify (set_current_speed 0) ;;
  _update_motor_state "stopped" 0 ;;
  count_command ;;
  ret true.

(** The deceleration loop of [_smooth_transition]:
    [while self.current_speed > 0: ...].  With [fuel] at least the current
    speed the loop is run to its end whenever [acceleration_step] is
    positive; otherwise the speed never decreases and the loop does not
    exit. *)
Fixpoint decelerate (fuel : nat) : M unit :=
  fun self =>
    if current_speed self >? 0 then
      match fuel with
      | O => None
      | S fuel' =>
          (modify (fun self =>
             set_current_speed
               (Z.max 0 (current_speed self - acceleration_step self)) self) ;;
           speed <- gets current_speed ;;
           _apply_speed_to_all_motors speed "forward" ;;
           delay <- gets acceleration_delay ;;
           time_sleep delay ;;
           decelerate fuel') self
      end
    else Some (tt, self).

(** The loop of [_smooth_transition] towards a target speed:
    [while abs(self.current_speed - target_speed) > self.acceleration_step].
    Each round brings the speed at least one unit closer to the target when
    [acceleration_step] is positive, so [fuel] at least the initial gap is
    enough then. *)
Fixpoint approach (fuel : nat) (target_action : string) (target_speed : Z) : M unit :=
  fun self =>
    if Z.abs (current_speed self - target_speed) >? acceleration_step self then
      match fuel with
      | O => None
      | S fuel' =>
          (modify (fun self =>
             set_current_speed
               (if current_speed self <? target_speed
                then Z.min target_speed (current_speed self + acceleration_step self)
                else Z.max target_speed (current_speed self - acceleration_step self))
               self) ;;
           speed <- gets current_speed ;;
           (if String.eqb target_action "forward"
            then _apply_speed_to_all_motors speed "forward"
            else if String.eqb target_action "backward"
            then _apply_speed_to_all_motors speed "backward"
            else ret tt) ;;
           delay <- gets acceleration_delay ;;
           time_sleep delay ;;
           approach fuel' target_action target_speed) self
      end
    else Some (tt, self).

(** [_smooth_transition] *)
Definition _smooth_transition (target_action : string) (target_speed : Z) : M bool :=
  if String.eqb target_action "stop" then
    (* Gradual deceleration *)
    speed <- gets current_speed ;;
    decelerate (Z.to_nat speed) ;;
    all_motors_stop_immediate ;;
    ret true
  else
    (* Gradual acceleration/deceleration to target speed *)
    speed <- gets current_speed ;;
    approach (Z.to_nat (Z.abs (speed - target_speed))) target_action target_speed ;;
    modify (set_current_speed target_speed) ;;
    ret true.

(** [all_motors_forward] *)
Definition all_motors_forward (speed : option Z) (smooth : option bool) : M bool :=
  active <- gets emergency_stop_active ;;
  if active : bool then ret false
  else
    speed <- or_default_speed speed ;;
    smooth_control <- gets smooth_control ;;
    let smooth := match smooth with Some b => b | None => smooth_control end in
    if smooth then _smooth_transition "forward" speed
    else
      motor1_forward (Some speed) ;; motor2_forward (Some speed) ;;
      motor3_forward (Some speed) ;; motor4_forward (Some speed) ;;
      _update_motor_state "forward" speed ;;
      count_command ;;
      ret true.

(** [all_motors_backward] *)
Definition all_motors_backward (speed : option Z) (smooth : option bool) : M bool :=
  active <- gets emergency_stop_active ;;
  if active : bool then ret false
  else
    speed <- or_default_speed speed ;;
    smooth_control <- gets smooth_control ;;
    let smooth := match smooth with Some b => b | None => smooth_control end in
    if smooth then _smooth_transition "backward" speed
    else
      motor1_backward (Some speed) ;; motor2_backward (Some speed) ;;
      motor3_backward (Some speed) ;; motor4_backward (Some speed) ;;
      _update_motor_state "backward" speed ;;
      count_command ;;
      ret true.

(** [all_motors_stop] *)
Definition all_motors_stop (immediate : bool) : M bool :=
  smooth_control <- gets smooth_control ;;
  (if immediate || negb smooth_control then
     motor1_stop ;; motor2_stop ;; motor3_stop ;; motor4_stop ;;
     modify (set_current_speed 0)
   else
     _smooth_transition "stop" 0 ;; ret tt) ;;
  _update_motor_state "stopped" 0 ;;
  count_command ;;
  ret true.

(** [turn_left] *)
Definition turn_left (speed : option Z) (turn_type : string) : M bool :=
  active <- gets emergency_stop_active ;;
  if active : bool then ret false
  else
    speed <- or_default_speed speed ;;
    (if String.eqb turn_type "sharp" then
       (* Sharp left turn - left motors backward, right motors forward *)
       motor1_backward (Some speed) ;; motor3_backward (Some speed) ;;
       motor2_forward (Some speed) ;; motor4_forward (Some speed)
     else if String.eqb turn_type "pivot" then
       max_speed <- gets max_speed ;;
       let pivot_speed := Z.min (speed + 20) max_speed in
       motor1_backward (Some pivot_speed) ;; motor3_backward (Some pivot_speed) ;;
       motor2_forward (Some pivot_speed) ;; motor4_forward (Some pivot_speed)
     else
       (* Gentle left turn - slow down left motors, maintain right motors *)
       min_speed <- gets min_speed ;;
       let left_speed := Z.max (speed - 30) min_speed in
       motor1_forward (Some left_speed) ;; motor3_forward (Some left_speed) ;;
       motor2_forward (Some speed) ;; motor4_forward (Some speed)) ;;
    _update_motor_state ("turn_left_" ++ turn_type) speed ;;
    count_command ;;
    ret true.

(** [turn_right] *)
Definition turn_right (speed : option Z) (turn_type : string) : M bool :=
  active <- gets emergency_stop_active ;;
  if active : bool then ret false
  else
    speed <- or_default_speed speed ;;
    (if String.eqb turn_type "sharp" then
       (* Sharp right turn - right motors backward, left motors forward *)
       motor2_backward (Some speed) ;; motor4_backward (Some speed) ;;
       motor1_forward (Some speed) ;; motor3_forward (Some speed)
     else if String.eqb turn_type "pivot" then
       max_speed <- gets max_speed ;;
       let pivot_speed := Z.min (speed + 20) max_speed in
       motor2_backward (Some pivot_speed) ;; motor4_backward (Some pivot_speed) ;;
       motor1_forward (Some pivot_speed) ;; motor3_forward (Some pivot_speed)
     else
       (* Gentle right turn - slow down right motors, maintain left motors *)
       min_speed <- gets min_speed ;;
       let right_speed := Z.max (speed - 30) min_speed in
       motor2_forward (Some right_speed) ;; motor4_forward (Some right_speed) ;;
       motor1_forward (Some speed) ;; motor3_forward (Some speed)) ;;
    _update_motor_state ("turn_right_" ++ turn_type) speed ;;
    count_command ;;
    ret true.

(** *** Safety lockout and the Android command interface *)

(** [emergency_stop] *)
Definition emergency_stop : M bool :=
  modify (set_emergency_stop_active true) ;;
  all_motors_stop true ;;
  modify (fun self =>
    let stats := runtime_stats self in
    set_runtime_stats
      {| RuntimeStats.total_commands := RuntimeStats.total_commands stats;
         RuntimeStats.emergency_stops := RuntimeStats.emergency_stops stats + 1;
         RuntimeStats.manual_overrides := RuntimeStats.manual_overrides stats;
         RuntimeStats.autonomous_commands := RuntimeStats.autonomous_commands stats |}
      self) ;;
  ret true.

(** [reset_emergency_stop] *)
Definition reset_emergency_stop : M bool :=
  modify (set_emergency_stop_active false) ;;
  ret true.

(** The [command_data] dictionary; an absent key is [None]. *)
Record command_data := {
  cmd_action : option string;
  cmd_speed : option Z;
  cmd_duration : option Q;
  cmd_turn_type : option string;
  cmd_source : option string
}.

(** [execute_android_command].  The [except] branch is never entered on a
    command of this type: no call of the body raises. *)
Definition execute_android_command (command : command_data) : M bool :=
  default_speed <- gets default_speed ;;
  let action := match cmd_action command with Some a => a | None => "stop" end in
  let speed := match cmd_speed command with Some v => v | None => default_speed end in
  let duration := match cmd_duration command with Some d => d | None => 0%Q end in
  let turn_type :=
    match cmd_turn_type command with Some k => k | None => "normal" end in
  let source := match cmd_source command with Some k => k | None => "unknown" end in
  (* Validate parameters *)
  min_speed <- gets min_speed ;;
  max_speed <- gets max_speed ;;
  let speed := Z.max min_speed (Z.min max_speed speed) in
  (* Update statistics *)
  modify (fun self =>
    let stats := runtime_stats self in
    if String.eqb source "manual" then
      set_runtime_stats
        {| RuntimeStats.total_commands := RuntimeStats.total_commands stats;
           RuntimeStats.emergency_stops := RuntimeStats.emergency_stops stats;
           RuntimeStats.manual_overrides := RuntimeStats.manual_overrides stats + 1;
           RuntimeStats.autonomous_commands := RuntimeStats.autonomous_commands stats |}
        self
    else if String.eqb source "autonomous" then
      set_runtime_stats
        {| RuntimeStats.total_commands := RuntimeStats.total_commands stats;
           RuntimeStats.emergency_stops := RuntimeStats.emergency_stops stats;
           RuntimeStats.manual_overrides := RuntimeStats.manual_overrides stats;
           RuntimeStats.autonomous_commands :=
             RuntimeStats.autonomous_commands stats + 1 |}
        self
    else self) ;;
  (* Execute command *)
  success <-
    (if String.eqb action "forward" then all_motors_forward (Some speed) None
     else if String.eqb action "backward" then all_motors_backward (Some speed) None
     else if String.eqb action "left" then turn_left (Some speed) turn_type
     else if String.eqb action "right" then turn_right (Some speed) turn_type
     else if String.eqb action "stop" then all_motors_stop false
     else if String.eqb action "emergency_stop" then emergency_stop
     else ret false) ;;
  (* Handle timed commands *)
  (if success && Py.Qlt_bool 0 duration && negb (String.eqb action "stop") then
     time_sleep duration ;; all_motors_stop false ;; ret tt
   else ret tt) ;;
  ret success.

(** What [get_motor_status] returns. *)
Record motor_status := {
  status_motor_state : MotorState.t;
  status_emergency_stop_active : bool;
  status_smooth_control_enabled : bool;
  status_time_since_last_command : Q;
  status_runtime_stats : RuntimeStats.t;
  status_speed_current : Z;
  status_speed_default : Z;
  status_speed_max : Z;
  status_speed_min : Z
}.

(** [get_motor_status] *)
Definition get_motor_status : M motor_status :=
  current_time <- time_time ;;
  last <- gets last_command_time ;;
  let time_since_command := (current_time - last)%Q in
  (* Auto-stop if no commands received for timeout period *)
  timeout <- gets command_timeout ;;
  active <- gets emergency_stop_active ;;
  state <- gets motor_state ;;
  (if Py.Qlt_bool timeout time_since_command && negb active then
     if negb (String.eqb (MotorState.current_action state) "stopped")
     then all_motors_stop false ;; ret tt
     else ret tt
   else ret tt) ;;
  gets (fun self =>
    {| status_motor_state := motor_state self;
       status_emergency_stop_active := emergency_stop_active self;
       status_smooth_control_enabled := smooth_control self;
       status_time_since_last_command := time_since_command;
       status_runtime_stats := runtime_stats self;
       status_speed_current := current_speed self;
       status_speed_default := default_speed self;
       status_speed_max := max_speed self;
       status_speed_min := min_speed self |}).

(** [set_speed_parameters] *)
Definition set_speed_parameters (default max_speed' min_speed' : option Z) : M bool :=
  match default with
  | Some v => modify (set_default_speed (Z.max 0 (Z.min 100 v)))
  | None => ret tt
  end ;;
  match max_speed' with
  | Some v =>
      modify (fun self => set_max_speed (Z.max (min_speed self) (Z.min 100 v)) self)
  | None => ret tt
  end ;;
  match min_speed' with
  | Some v =>
      modify (fun self => set_min_speed (Z.max 0 (Z.min (max_speed self) v)) self)
  | None => ret tt
  end ;;
  ret true.

(** [enable_smooth_control] *)
Definition enable_smooth_control (enabled : bool) : M bool :=
  modify (set_smooth_control enabled) ;;
  ret true.

(** *** Runs of the controller

    The public methods of the class (those whose name does not start with an
    underscore), and the passing of time between two calls.  The twelve
    per-motor functions come first; they are the building blocks of the
    others and carry no test of the lockout.  [cleanup], which ends the use
    of the object, is left out. *)
Inductive operation :=
| Motor1Forward (speed : option Z)
| Motor1Backward (speed : option Z)
| Motor1Stop
| Motor2Forward (speed : option Z)
| Motor2Backward (speed : option Z)
| Motor2Stop
| Motor3Forward (speed : option Z)
| Motor3Backward (speed : option Z)
| Motor3Stop
| Motor4Forward (speed : option Z)
| Motor4Backward (speed : option Z)
| Motor4Stop
| AllMotorsForward (speed : option Z) (smooth : option bool)
| AllMotorsBackward (speed : option Z) (smooth : option bool)
| AllMotorsStop (immediate : bool)
| TurnLeft (speed : option Z) (turn_type : string)
| TurnRight (speed : option Z) (turn_type : string)
| EmergencyStop
| ResetEmergencyStop
| ExecuteAndroidCommand (command : command_data)
| GetMotorStatus
| SetSpeedParameters (default max_speed' min_speed' : option Z)
| EnableSmoothControl (enabled : bool)
| Wait (seconds : Q).

Inductive outcome :=
| Returned (b : bool)
| Status (st : motor_status)
| ReturnedNone
| Elapsed.

Definition run (o : operation) : M outcome :=
  match o with
  | Motor1Forward speed => motor1_forward speed ;; ret ReturnedNone
  | Motor1Backward speed => motor1_backward speed ;; ret ReturnedNone
  | Motor1Stop => motor1_stop ;; ret ReturnedNone
  | Motor2Forward speed => motor2_forward speed ;; ret ReturnedNone
  | Motor2Backward speed => motor2_backward speed ;; ret ReturnedNone
  | Motor2Stop => motor2_stop ;; ret ReturnedNone
  | Motor3Forward speed => motor3_forward speed ;; ret ReturnedNone
  | Motor3Backward speed => motor3_backward speed ;; ret ReturnedNone
  | Motor3Stop => motor3_stop ;; ret ReturnedNone
  | Motor4Forward speed => motor4_forward speed ;; ret ReturnedNone
  | Motor4Backward speed => motor4_backward speed ;; ret ReturnedNone
  | Motor4Stop => motor4_stop ;; ret ReturnedNone
  | AllMotorsForward speed smooth =>
      b <- all_motors_forward speed smooth ;; ret (Returned b)
  | AllMotorsBackward speed smooth =>
      b <- all_motors_backward speed smooth ;; ret (Returned b)
  | AllMotorsStop immediate => b <- all_motors_stop immediate ;; ret (Returned b)
  | TurnLeft speed turn_type => b <- turn_left speed turn_type ;; ret (Returned b)
  | TurnRight speed turn_type => b <- turn_right speed turn_type ;; ret (Returned b)
  | EmergencyStop => b <- emergency_stop ;; ret (Returned b)
  | ResetEmergencyStop => b <- reset_emergency_stop ;; ret (Returned b)
  | ExecuteAndroidCommand command =>
      b <- execute_android_command command ;; ret (Returned b)
  | GetMotorStatus => st <- get_motor_status ;; ret (Status st)
  | SetSpeedParameters default max_speed' min_speed' =>
      b <- set_speed_parameters default max_speed' min_speed' ;; ret (Returned b)
  | EnableSmoothControl enabled =>
      b <- enable_smooth_control enabled ;; ret (Returned b)
  | Wait seconds => time_sleep seconds ;; ret Elapsed
  end.

Fixpoint run_all (ops : list operation) : M (list outcome) :=
  match ops with
  | [] => ret []
  | o :: ops' =>
      r <- run o ;;
      rs <- run_all ops' ;;
      ret (r :: rs)
  end.

(** The four movement operations. *)
Definition is_movement (o : operation) : bool :=
  match o with
  | AllMotorsForward _ _ | AllMotorsBackward _ _ | TurnLeft _ _ | TurnRight _ _ => true
  | _ => false
  end.

(** The per-motor functions that drive a motor. *)
Definition is_motor_drive (o : operation) : bool :=
  match o with
  | Motor1Forward _ | Motor1Backward _ | Motor2Forward _ | Motor2Backward _
  | Motor3Forward _ | Motor3Backward _ | Motor4Forward _ | Motor4Backward _ => true
  | _ => false
  end.

Definition is_reset (o : operation) : bool :=
  match o with
  | ResetEmergencyStop => true
  | _ => false
  end.

(** The outcomes of the movement operations of a run. *)
Fixpoint movement_outcomes (ops : list operation) (rs : list outcome) : list outcome :=
  match ops, rs with
  | o :: ops', r :: rs' =>
      if is_movement o then r :: movement_outcomes ops' rs'
      else movement_outcomes ops' rs'
  | _, _ => []
  end.

End MotorController.

(** ** Concrete inputs used below *)

Module Examples.

(** An obstacle 10 cm ahead while a red light is seen with confidence 0.9. *)
Definition obstacle_and_red_light : NavigationAI.environment := {|
  NavigationAI.lane_direction := "STRAIGHT";
  NavigationAI.traffic_light := "RED";
  NavigationAI.traffic_light_confidence := 9 # 10;
  NavigationAI.speed_limit_detected := false;
  NavigationAI.stop_sign_detected := false;
  NavigationAI.obstacle_distance := 10;
  NavigationAI.obstacle_detected := true
|}.

(** A sharp left bend with nothing in the way: no echo (400), no light, no
    sign. *)
Definition sharp_left_clear_path : NavigationAI.environment := {|
  NavigationAI.lane_direction := "SHARP_LEFT";
  NavigationAI.traffic_light := "UNKNOWN";
  NavigationAI.traffic_light_confidence := 0;
  NavigationAI.speed_limit_detected := false;
  NavigationAI.stop_sign_detected := false;
  NavigationAI.obstacle_distance := 400;
  NavigationAI.obstacle_detected := false
|}.

(** The ranging sensor timed out (400) although the obstacle flag is set. *)
Definition timeout_reading : NavigationAI.environment := {|
  NavigationAI.lane_direction := "UNKNOWN";
  NavigationAI.traffic_light := "GREEN";
  NavigationAI.traffic_light_confidence := 1;
  NavigationAI.speed_limit_detected := false;
  NavigationAI.stop_sign_detected := false;
  NavigationAI.obstacle_distance := 400;
  NavigationAI.obstacle_detected := true
|}.

(** A navigator that has just decided to stop twice. *)
Definition stopped_twice : NavigationAI.t :=
  NavigationAI.set_decision_history ["STOP"; "STOP"] NavigationAI.init.

(** A raw decision to drive on at full speed. *)
Definition drive_on : NavigationAI.decision :=
  NavigationAI.mk_decision "MOVE_FORWARD" 75
    [NavigationAI.Text "Following lane - straight path"].

(** A frame of a 640 pixel wide camera whose path centroid is at column 280. *)
Definition frame_centroid_280 : NavigationVisionSystem.frame_analysis := {|
  NavigationVisionSystem.frame_width := 640;
  NavigationVisionSystem.navigation_path := Some (Some (280, 400));
  NavigationVisionSystem.path_obstacle_pixels := 0
|}.

(** A speed-limit filter of capacity 5 after five frames without a sign. *)
Definition five_frames_without_sign : NavigationVisionSystem.sign_filter :=
  fold_left
    (fun signs seen => NavigationVisionSystem.detect_speed_limit 5 seen signs)
    [false; false; false; false; false]
    {| NavigationVisionSystem.speed_limit_history := [];
       NavigationVisionSystem.speed_limit_confidence := 0;
       NavigationVisionSystem.speed_limit_detected := false |}.

(** A controller at rest. *)
Definition idle_controller : MotorController.t := {|
  MotorController.gpio := [];
  MotorController.clock := 0;
  MotorController.default_speed := 75;
  MotorController.current_speed := 0;
  MotorController.max_speed := 100;
  MotorController.min_speed := 20;
  MotorController.acceleration_step := 5;
  MotorController.acceleration_delay := 5 # 100;
  MotorController.smooth_control := true;
  MotorController.motor_state := {|
    MotorController.MotorState.front_left := MotorController.set_motor "stop" 0;
    MotorController.MotorState.front_right := MotorController.set_motor "stop" 0;
    MotorController.MotorState.rear_left := MotorController.set_motor "stop" 0;
    MotorController.MotorState.rear_right := MotorController.set_motor "stop" 0;
    MotorController.MotorState.current_action := "stopped";
    MotorController.MotorState.target_speed := 0;
    MotorController.MotorState.actual_speed := 0 |};
  MotorController.emergency_stop_active := false;
  MotorController.last_command_time := 0;
  MotorController.command_timeout := 2;
  MotorController.total_distance := 0;
  MotorController.runtime_stats := {|
    MotorController.RuntimeStats.total_commands := 0;
    MotorController.RuntimeStats.emergency_stops := 0;
    MotorController.RuntimeStats.manual_overrides := 0;
    MotorController.RuntimeStats.autonomous_commands := 0 |}
|}.

(** The state in which [emergency_stop] leaves the idle controller. *)
Definition locked_controller : MotorController.t :=
  match MotorController.emergency_stop idle_controller with
  | Some (_, self) => self
  | None => idle_controller
  end.

(** What a client may try while the lockout is engaged. *)
Definition attempts : list MotorController.operation :=
  [ MotorController.AllMotorsForward (Some 80) (Some false);
    MotorController.Wait 3;
    MotorController.GetMotorStatus;
    MotorController.ExecuteAndroidCommand
      {| MotorController.cmd_action := Some "left";
         MotorController.cmd_speed := Some 60;
         MotorController.cmd_duration := Some 1%Q;
         MotorController.cmd_turn_type := Some "sharp";
         MotorController.cmd_source := Some "manual" |};
    MotorController.AllMotorsStop false;
    MotorController.TurnRight None "pivot";
    MotorController.Motor2Stop;
    MotorController.EmergencyStop;
    MotorController.AllMotorsBackward None None ].

(** An emergency stop followed by a direct call of [motor1_forward(50)]. *)
Definition bypass : list MotorController.operation :=
  [ MotorController.EmergencyStop; MotorController.Motor1Forward (Some 50) ].

End Examples.

(** ** core/navigation_ai.py, continued: from sensor data to the reported
    decision *)

Module NavigationProcess.
Import NavigationAI.

(** The keys of [vision_data] that [analyze_environment] looks up; a key that
    is absent from the dictionary is [None]. *)
Record vision_data := {
  vd_lane_direction : option string;
  vd_traffic_light_status : option string;
  vd_traffic_light_confidence : option Q;
  vd_speed_limit_detected : option bool;
  vd_stop_sign_detected : option bool
}.

(** The keys of [sensor_data] that [analyze_environment] looks up. *)
Record sensor_data := {
  sd_distance : option Q;
  sd_obstacle_detected : option bool
}.

(** The empty dictionary, [{}]. *)
Definition no_vision_data : vision_data := {|
  vd_lane_direction := None;
  vd_traffic_light_status := None;
  vd_traffic_light_confidence := None;
  vd_speed_limit_detected := None;
  vd_stop_sign_detected := None
|}.

Definition no_sensor_data : sensor_data := {|
  sd_distance := None;
  sd_obstacle_detected := None
|}.

(** [d.get(key, default)] *)
Definition get {A : Type} (entry : option A) (default : A) : A :=
  match entry with
  | Some v => v
  | None => default
  end.

(** [analyze_environment] *)
Definition analyze_environment (vision : vision_data) (sensor : sensor_data)
  : environment := {|
  lane_direction := get (vd_lane_direction vision) "UNKNOWN";
  traffic_light := get (vd_traffic_light_status vision) "UNKNOWN";
  traffic_light_confidence := get (vd_traffic_light_confidence vision) 0%Q;
  speed_limit_detected := get (vd_speed_limit_detected vision) false;
  stop_sign_detected := get (vd_stop_sign_detected vision) false;
  obstacle_distance := get (sd_distance sensor) 400%Q;
  obstacle_detected := get (sd_obstacle_detected sensor) false
|}.

(** [self.current_state = ...; self.previous_actions.append(...)] *)
Definition record_action (a : string) (self : t) : t := {|
  current_state := a;
  previous_actions := Py.deque_append 10 a (previous_actions self);
  decision_history := decision_history self;
  obstacle_stop_distance := obstacle_stop_distance self;
  safe_distance := safe_distance self;
  turn_duration := turn_duration self;
  red_light_stop := red_light_stop self;
  green_light_go := green_light_go self;
  default_speed := default_speed self;
  reduced_speed := reduced_speed self
|}.

(** [process_navigation] *)
Definition process_navigation (self : t) (vision : vision_data) (sensor : sensor_data)
  : option (decision * t) :=
  (* Analyze environment *)
  let environment := analyze_environment vision sensor in
  (* Make decision *)
  let decision := make_navigation_decision self environment in
  (* Apply temporal filtering *)
  match apply_temporal_filtering self decision with
  | None => None
  | Some (filtered_decision, self) =>
      (* Update state *)
      Some (filtered_decision, record_action (action filtered_decision) self)
  end.

(** The [navigation_data] of the vision system handed over as [vision_data],
    as the main loop does: it carries a lane direction and none of the
    traffic-light or sign keys. *)
Definition vision_data_of (data : NavigationVisionSystem.NavigationData.t)
  : vision_data := {|
  vd_lane_direction :=
    Some (NavigationVisionSystem.NavigationData.lane_direction data);
  vd_traffic_light_status := None;
  vd_traffic_light_confidence := None;
  vd_speed_limit_detected := None;
  vd_stop_sign_detected := None
|}.

(** Filtering a sequence of raw decisions, collecting what is returned. *)
Fixpoint filter_all (self : t) (ds : list decision) : option (list decision * t) :=
  match ds with
  | [] => Some ([], self)
  | d :: ds' =>
      match apply_temporal_filtering self d with
      | None => None
      | Some (d', self') =>
          match filter_all self' ds' with
          | None => None
          | Some (out, self'') => Some (d' :: out, self'')
          end
      end
  end.

End NavigationProcess.

(** ** core/sensor_manager.py *)

Module SensorManager.

Record t := { obstacle_threshold : Q }.

(** [__init__] *)
Definition init : t := {| obstacle_threshold := 20 |}.

(** What [read_sensor_data] returns. *)
Record reading := {
  distance : Q;
  obstacle_detected : bool;
  reported_threshold : Q
}.

(** [read_sensor_data]; [measured] is what [get_distance()] returned (the
    echo timing itself is not modelled). *)
Definition read_sensor_data (self : t) (measured : Q) : reading := {|
  distance := measured;
  obstacle_detected := Py.Qlt_bool measured (obstacle_threshold self);
  reported_threshold := obstacle_threshold self
|}.

(** The reading as the [sensor_data] dictionary that the navigator receives. *)
Definition sensor_data_of (r : reading) : NavigationProcess.sensor_data := {|
  NavigationProcess.sd_distance := Some (distance r);
  NavigationProcess.sd_obstacle_detected := Some (obstacle_detected r)
|}.

End SensorManager.

(** ** core/vision_system.py, continued: the stop-sign filter and the
    tracking of traffic lights *)

Module SignsAndLights.
Import NavigationVisionSystem.

(** The attributes that [detect_stop_sign] filters with. *)
Record stop_filter := {
  stop_detection_history : list bool;
  stop_detection_confidence : Q;
  stop_sign_detected : bool
}.

(** The tail of [detect_stop_sign] (lines 347-364): [current_detection] is
    the outcome of the contour tests on this frame. *)
Definition detect_stop_sign
  (history_length : nat) (current_detection : bool) (self : stop_filter)
  : stop_filter :=
  let history :=
    push_history history_length current_detection (stop_detection_history self) in
  match history with
  | [] => {| stop_detection_history := history;
             stop_detection_confidence := stop_detection_confidence self;
             stop_sign_detected := stop_sign_detected self |}
  | _ :: _ =>
      let detection_count := sum_bools history in
      let confidence := ratio detection_count history in
      {| stop_detection_history := history;
         stop_detection_confidence := confidence;
         stop_sign_detected := Py.Qlt_bool (6 # 10) confidence |}
  end.

(** A detected light: the bounding box [(x, y, w, h)], the intensity and the
    colour label. *)
Record light := {
  bbox : Z * Z * Z * Z;
  intensity : Q;
  color : string
}.

(** [(x + w // 2, y + h // 2)] *)
Definition center (l : light) : Z * Z :=
  let '(x, y, w, h) := bbox l in (x + w / 2, y + h / 2).

(** The square of the distance between two centres.  The code takes the
    square root and compares distances; on integers of pixel size the square
    root is strictly increasing, so the squares are compared instead. *)
Definition squared_distance (a b : Z * Z) : Z :=
  (fst a - fst b) * (fst a - fst b) + (snd a - snd b) * (snd a - snd b).

(** [enumerate(xs)] *)
Definition enumerate {A : Type} (xs : list A) : list (nat * A) :=
  combine (seq 0 (List.length xs)) xs.

(** The inner loop of [track_lights]: the index of the nearest unused new
    light of the same colour within [max_distance] of [prev], if any.
    [min_dist] starts at infinity, here [None]. *)
Definition best_match
  (prev : light) (new_lights : list light) (used_new : list nat) (max_distance : Z)
  : option nat :=
  snd (fold_left
         (fun (state : option Z * option nat) (entry : nat * light) =>
            let '(min_dist, best) := state in
            let '(i, new_light) := entry in
            if existsb (Nat.eqb i) used_new then state
            else
              let dist := squared_distance (center prev) (center new_light) in
              if match min_dist with None => true | Some m => dist <? m end
                 && ((0 <? max_distance) && (dist <? max_distance * max_distance))
                 && String.eqb (color prev) (color new_light)
              then (Some dist, Some i)
              else state)
         (enumerate new_lights) (None, None)).

(** The first loop of [track_lights] over the previous lights; [None] stands
    for the [IndexError] of [new_lights[best_match]]. *)
Fixpoint match_previous
  (prev_lights new_lights : list light) (max_distance : Z)
  (tracked_lights : list light) (used_new : list nat)
  : option (list light * list nat) :=
  match prev_lights with
  | [] => Some (tracked_lights, used_new)
  | prev :: rest =>
      match best_match prev new_lights used_new max_distance with
      | None => match_previous rest new_lights max_distance tracked_lights used_new
      | Some i =>
          match nth_error new_lights i with
          | None => None
          | Some l =>
              match_previous rest new_lights max_distance
                (tracked_lights ++ [l])%list (used_new ++ [i])%list
          end
      end
  end.

(** [track_lights] *)
Definition track_lights (prev_lights new_lights : list light) (max_distance : Z)
  : option (list light * list light) :=
  match prev_lights with
  | [] => Some (new_lights, new_lights)
  | _ :: _ =>
      match match_previous prev_lights new_lights max_distance [] [] with
      | None => None
      | Some (tracked_lights, used_new) =>
          (* Add new lights that weren't matched *)
          Some ((tracked_lights
                 ++ map snd
                      (filter (fun entry => negb (existsb (Nat.eqb (fst entry)) used_new))
                         (enumerate new_lights)))%list,
                new_lights)
      end
  end.

(** The directions that [get_navigation_direction] can return. *)
Definition is_direction (d : string) : bool :=
  String.eqb d "STRAIGHT" || String.eqb d "LEFT" || String.eqb d "RIGHT"
  || String.eqb d "SHARP_LEFT" || String.eqb d "SHARP_RIGHT".

(** A sequence of calls of [process_navigation_frame], one per frame and clock
    reading, collecting the [navigation_data] returned. *)
Fixpoint process_frames (self : t) (frames : list (frame_analysis * Q))
  : option (list NavigationData.t * t) :=
  match frames with
  | [] => Some ([], self)
  | (frame, now) :: frames' =>
      match process_navigation_frame self frame now with
      | None => None
      | Some (data, self') =>
          match process_frames self' frames' with
          | None => None
          | Some (out, self'') => Some (data :: out, self'')
          end
      end
  end.

End SignsAndLights.

(** ** The wheels, read off the log of GPIO calls *)

Module Wheels.
Import MotorController.

Definition pwm_eqb (a b : pwm) : bool :=
  match a, b with
  | pwm1, pwm1 | pwm2, pwm2 | pwm3, pwm3 | pwm4, pwm4 => true
  | _, _ => false
  end.

(** The level last written to [pin]; the log has the most recent call
    first. *)
Fixpoint pin_level (log : list gpio_call) (pin : Z) : option level :=
  match log with
  | [] => None
  | Output p v :: log' => if p =? pin then Some v else pin_level log' pin
  | ChangeDutyCycle _ _ :: log' => pin_level log' pin
  end.

(** The duty cycle last given to [channel]. *)
Fixpoint duty_cycle (log : list gpio_call) (channel : pwm) : option Z :=
  match log with
  | [] => None
  | ChangeDutyCycle c d :: log' =>
      if pwm_eqb c channel then Some d else duty_cycle log' channel
  | Output _ _ :: log' => duty_cycle log' channel
  end.

(** The duty cycles given to the four channels, in the order front left,
    front right, rear left, rear right. *)
Definition duties (log : list gpio_call) : list (option Z) :=
  [duty_cycle log pwm1; duty_cycle log pwm2; duty_cycle log pwm3; duty_cycle log pwm4].

(** The levels of the eight direction pins IN1 .. IN8. *)
Definition pins (log : list gpio_call) : list (option level) :=
  map (pin_level log) [IN1; IN2; IN3; IN4; IN5; IN6; IN7; IN8].

(** All motors stopped: every direction pin low, every duty cycle zero. *)
Definition all_stopped (log : list gpio_call) : Prop :=
  pins log = repeat (Some LOW) 8 /\ duties log = repeat (Some 0) 4.

(** All motors driven forward. *)
Definition all_forward (log : list gpio_call) : Prop :=
  pins log = [Some HIGH; Some LOW; Some HIGH; Some LOW;
              Some HIGH; Some LOW; Some HIGH; Some LOW].

(** The calls by which [_apply_speed_to_all_motors(speed, 'forward')] drives
    the four motors, most recent first. *)
Definition forward_calls (speed : Z) : list gpio_call :=
  [ ChangeDutyCycle pwm4 speed; Output IN8 LOW; Output IN7 HIGH;
    ChangeDutyCycle pwm3 speed; Output IN6 LOW; Output IN5 HIGH;
    ChangeDutyCycle pwm2 speed; Output IN4 LOW; Output IN3 HIGH;
    ChangeDutyCycle pwm1 speed; Output IN2 LOW; Output IN1 HIGH ].

(** The status record that [get_motor_status] builds from the object. *)
Definition status_of (time_since_command : Q) (self : t) : motor_status := {|
  status_motor_state := motor_state self;
  status_emergency_stop_active := emergency_stop_active self;
  status_smooth_control_enabled := smooth_control self;
  status_time_since_last_command := time_since_command;
  status_runtime_stats := runtime_stats self;
  status_speed_current := current_speed self;
  status_speed_default := default_speed self;
  status_speed_max := max_speed self;
  status_speed_min := min_speed self
|}.

End Wheels.

(** ** main.py: the vehicle, from the decision to the motor command *)

Module SmartVehicle.

(** The flags of the vehicle and its motor controller.  The other subsystems
    take no part in what is said to the motors. *)
Record t := {
  auto_mode : bool;
  manual_override : bool;
  emergency_stop : bool;
  motor_controller : MotorController.t
}.

Definition set_auto_mode (v : bool) (self : t) : t :=
  Build_t v (manual_override self) (emergency_stop self) (motor_controller self).

Definition set_manual_override (v : bool) (self : t) : t :=
  Build_t (auto_mode self) v (emergency_stop self) (motor_controller self).

Definition set_emergency_stop (v : bool) (self : t) : t :=
  Build_t (auto_mode self) (manual_override self) v (motor_controller self).

Definition set_motor_controller (v : MotorController.t) (self : t) : t :=
  Build_t (auto_mode self) (manual_override self) (emergency_stop self) v.

(** [__init__] followed by [initialize_subsystems], for a given controller. *)
Definition init (motors : MotorController.t) : t := {|
  auto_mode := false;
  manual_override := false;
  emergency_stop := false;
  motor_controller := motors
|}.

(** A call of a method of [self.motor_controller].  [None] stands for an
    exception of the controller. *)
Definition on_motors {A : Type} (call : MotorController.M A) (self : t)
  : option (A * t) :=
  match call (motor_controller self) with
  | Some (a, motors) => Some (a, set_motor_controller motors self)
  | None => None
  end.

(** [_map_navigation_to_motor_action]: [action_map.get(nav_action, 'stop')] *)
Definition _map_navigation_to_motor_action (nav_action : string) : string :=
  if String.eqb nav_action "MOVE_FORWARD" then "forward"
  else if String.eqb nav_action "TURN_LEFT" then "left"
  else if String.eqb nav_action "TURN_RIGHT" then "right"
  else if String.eqb nav_action "SHARP_LEFT" then "left"
  else if String.eqb nav_action "SHARP_RIGHT" then "right"
  else if String.eqb nav_action "STOP" then "stop"
  else if String.eqb nav_action "EMERGENCY_STOP" then "emergency_stop"
  else "stop".

(** [_determine_turn_type] *)
Definition _determine_turn_type (nav_action : string) : string :=
  if Py.contains "SHARP" nav_action then "sharp"
  else if Py.contains "TURN" nav_action then "normal"
  else "normal".

(** The [command_data] that [_execute_navigation_decision] prepares. *)
Definition navigation_command (decision : NavigationAI.decision)
  : MotorController.command_data := {|
  MotorController.cmd_action :=
    Some (_map_navigation_to_motor_action (NavigationAI.action decision));
  MotorController.cmd_speed := Some (NavigationAI.speed decision);
  MotorController.cmd_duration := None;
  MotorController.cmd_turn_type :=
    Some (_determine_turn_type (NavigationAI.action decision));
  MotorController.cmd_source := Some "autonomous"
|}.

(** [_execute_navigation_decision]; the value is the [success] that is
    logged, [None] when the method returns at once. *)
Definition _execute_navigation_decision
  (decision : NavigationAI.decision) (self : t) : option (option bool * t) :=
  if emergency_stop self then Some (None, self)
  else
    match on_motors (MotorController.execute_android_command
                       (navigation_command decision)) self with
    | Some (success, self) => Some (Some success, self)
    | None => None
    end.

(** The part of [_check_emergency_conditions] that looks at the obstacle:
    [sensor_data['obstacle_detected'] and sensor_data['distance'] < 15]. *)
Definition obstacle_too_close (sensor : SensorManager.reading) : bool :=
  SensorManager.obstacle_detected sensor
  && Py.Qlt_bool (SensorManager.distance sensor) 15.

(** [_handle_emergency_stop]: [all_motors_stop()] is called with its default
    [immediate=False]. *)
Definition _handle_emergency_stop (self : t) : option t :=
  if emergency_stop self then Some self
  else
    match on_motors (MotorController.all_motors_stop false)
                    (set_emergency_stop true self) with
    | Some (_, self) => Some self
    | None => None
    end.

(** The keys of the payload of a MANUAL_CONTROL message. *)
Record payload := {
  p_action : option string;
  p_speed : option Z;
  p_duration : option Q;
  p_turn_type : option string
}.

(** The [command_data] that [_handle_manual_control] prepares. *)
Definition manual_command (p : payload) : MotorController.command_data := {|
  MotorController.cmd_action := Some (NavigationProcess.get (p_action p) "stop");
  MotorController.cmd_speed := Some (NavigationProcess.get (p_speed p) 50);
  MotorController.cmd_duration := Some (NavigationProcess.get (p_duration p) (1 # 2));
  MotorController.cmd_turn_type :=
    Some (NavigationProcess.get (p_turn_type p) "normal");
  MotorController.cmd_source := Some "manual"
|}.

(** [_handle_manual_control] *)
Definition _handle_manual_control (p : payload) (self : t) : option t :=
  if negb (manual_override self) || emergency_stop self then Some self
  else
    match on_motors (MotorController.execute_android_command (manual_command p))
                    self with
    | Some (_, self) => Some self
    | None => None
    end.

(** [_send_system_status], as far as the vehicle is concerned: it asks the
    controller for its status. *)
Definition _send_system_status (self : t) : option t :=
  match on_motors MotorController.get_motor_status self with
  | Some (_, self) => Some self
  | None => None
  end.

(** The messages of the Android app by their [type].  [enabled] is
    [payload.get('enabled', False)].  A configuration update may or may not
    end with a status message; the types GET_LOGS and STREAM_CONTROL and the
    unknown ones touch neither the flags nor the motors. *)
Inductive message :=
| SET_AUTO_MODE (enabled : bool)
| MANUAL_OVERRIDE (enabled : bool)
| EMERGENCY_STOP
| RESET_EMERGENCY
| MANUAL_CONTROL (p : payload)
| GET_STATUS
| UPDATE_CONFIG (confirmed : bool)
| OTHER.

(** [_handle_app_command] *)
Definition _handle_app_command (m : message) (self : t) : option t :=
  match m with
  | SET_AUTO_MODE enabled => Some (set_auto_mode enabled self)
  | MANUAL_OVERRIDE enabled =>
      let self := set_manual_override enabled self in
      if manual_override self then
        match on_motors (MotorController.all_motors_stop false) self with
        | Some (_, self) => Some self
        | None => None
        end
      else Some self
  | EMERGENCY_STOP => _handle_emergency_stop self
  | RESET_EMERGENCY => Some (set_emergency_stop false self)
  | MANUAL_CONTROL p =>
      if manual_override self then _handle_manual_control p self else Some self
  | GET_STATUS => _send_system_status self
  | UPDATE_CONFIG confirmed =>
      if confirmed then _send_system_status self else Some self
  | OTHER => Some self
  end.

(** What one pass of [_main_loop] depends on from outside the vehicle: the
    time since the previous pass, whether the camera gave a frame, the verdict
    of [_check_emergency_conditions], the decision of the navigator and the
    message received from the app, if any. *)
Record pass := {
  elapsed : Q;
  frame_read : bool;
  emergency_condition : bool;
  decision : NavigationAI.decision;
  received : option message
}.

(** One pass of [_main_loop], as far as the flags and the motors are
    concerned.  Both [continue] statements skip the rest of the pass. *)
Definition loop_pass (p : pass) (self : t) : option t :=
  match on_motors (MotorController.time_sleep (elapsed p)) self with
  | None => None
  | Some (_, self) =>
      if negb (frame_read p) then Some self
      else if emergency_condition p then _handle_emergency_stop self
      else
        match (if auto_mode self && negb (manual_override self)
               then _execute_navigation_decision (decision p) self
               else Some (None, self)) with
        | None => None
        | Some (_, self) =>
            match on_motors MotorController.get_motor_status self with
            | None => None
            | Some (_, self) =>
                match received p with
                | Some m => _handle_app_command m self
                | None => Some self
                end
            end
        end
  end.

(** [_main_loop] over a sequence of passes. *)
Fixpoint main_loop (passes : list pass) (self : t) : option t :=
  match passes with
  | [] => Some self
  | p :: passes' =>
      match loop_pass p self with
      | Some self => main_loop passes' self
      | None => None
      end
  end.

(** The navigator over a sequence of inputs, collecting its decisions. *)
Fixpoint navigate
  (nav : NavigationAI.t)
  (inputs : list (NavigationProcess.vision_data * NavigationProcess.sensor_data))
  : option (list NavigationAI.decision * NavigationAI.t) :=
  match inputs with
  | [] => Some ([], nav)
  | (vision, sensor) :: inputs' =>
      match NavigationProcess.process_navigation nav vision sensor with
      | None => None
      | Some (d, nav) =>
          match navigate nav inputs' with
          | None => None
          | Some (ds, nav) => Some (d :: ds, nav)
          end
      end
  end.

(** The actions that [make_navigation_decision] can decide. *)
Definition decided_actions : list string :=
  ["EMERGENCY_STOP"; "TRAFFIC_STOP"; "STOP_SIGN_STOP"; "STOP";
   "TURN_LEFT"; "TURN_RIGHT"; "MOVE_FORWARD"].

End SmartVehicle.

(** ** Vocabulary for the properties of the vision system *)

Module VisionInvariants.
Import NavigationVisionSystem.

(** The mirror image of a direction. *)
Definition mirror (d : string) : string :=
  if String.eqb d "LEFT" then "RIGHT"
  else if String.eqb d "RIGHT" then "LEFT"
  else if String.eqb d "SHARP_LEFT" then "SHARP_RIGHT"
  else if String.eqb d "SHARP_RIGHT" then "SHARP_LEFT"
  else d.

(** What holds of a vision system made by [__init__] after [calls] calls of
    [process_navigation_frame]: the pacing and capacity are those of
    [__init__], every second call has been processed, the histories are as
    long as the number of processed frames up to the capacity, confidences
    are fractions and directions are among those that
    [get_navigation_direction] returns. *)
Definition after_calls (calls : nat) (self : t) : Prop :=
  skip_frames self = 2
  /\ history_length self = 5%nat
  /\ frame_skip_counter self = Z.of_nat calls
  /\ List.length (lane_direction_history self) = Nat.min (calls / 2) 5
  /\ List.length (obstacle_history self) = Nat.min (calls / 2) 5
  /\ (0 <= lane_confidence self <= 1)%Q
  /\ (0 <= obstacle_confidence self <= 1)%Q
  /\ SignsAndLights.is_direction (current_direction self) = true
  /\ forallb SignsAndLights.is_direction (lane_direction_history self) = true
  /\ SignsAndLights.is_direction
       (NavigationData.lane_direction (navigation_data self)) = true.

(** The light at an index of a list, as a list of at most one element. *)
Definition light_at (new_lights : list SignsAndLights.light) (i : nat)
  : list SignsAndLights.light :=
  match nth_error new_lights i with
  | Some l => [l]
  | None => []
  end.

(** The lights of [new_lights] at the indices [used], in the order of
    [used]. *)
Definition picked (new_lights : list SignsAndLights.light) (used : list nat)
  : list SignsAndLights.light :=
  flat_map (light_at new_lights) used.

(** The lights of [new_lights] whose index is not in [used], in their order
    in [new_lights]. *)
Definition unmatched (new_lights : list SignsAndLights.light) (used : list nat)
  : list SignsAndLights.light :=
  picked new_lights
    (filter (fun i => negb (existsb (Nat.eqb i) used))
       (seq 0 (List.length new_lights))).

(** The light [l] has the colour of one of [prev_lights] and its centre is
    less than [max_distance] away from the centre of that light. *)
Definition matches
  (prev_lights : list SignsAndLights.light) (max_distance : Z)
  (l : SignsAndLights.light) : Prop :=
  exists prev,
    In prev prev_lights
    /\ SignsAndLights.color prev = SignsAndLights.color l
    /\ 0 < max_distance
    /\ SignsAndLights.squared_distance (SignsAndLights.center prev)
         (SignsAndLights.center l)
       < max_distance * max_distance.

End VisionInvariants.

(** ** Vocabulary for the properties of the vehicle *)

Module VehicleInvariants.

(** The controller [after] is locked and at rest, and the GPIO calls made
    since [before] drive no wheel. *)
Definition stays_locked (before after : MotorController.t) : Prop :=
  MotorController.emergency_stop_active after = true
  /\ MotorController.current_speed after = 0
  /\ exists calls,
       MotorController.gpio after = (calls ++ MotorController.gpio before)%list
       /\ existsb MotorController.drives calls = false.

(** A handler of the vehicle that returns and brings a locked controller at
    rest to one that [stays_locked]. *)
Definition keeps_locked (handler : SmartVehicle.t -> option SmartVehicle.t) : Prop :=
  forall self,
    MotorController.emergency_stop_active (SmartVehicle.motor_controller self) = true ->
    MotorController.current_speed (SmartVehicle.motor_controller self) = 0 ->
    exists self',
      handler self = Some self'
      /\ stays_locked (SmartVehicle.motor_controller self)
                      (SmartVehicle.motor_controller self').

(** An action that [make_navigation_decision] can decide. *)
Definition decided (a : string) : Prop := In a SmartVehicle.decided_actions.

End VehicleInvariants.

(** ** More concrete inputs *)

Module MoreExamples.

(** A navigator that has reported MOVE_FORWARD for five cycles. *)
Definition cruising : NavigationAI.t :=
  NavigationAI.set_decision_history
    ["MOVE_FORWARD"; "MOVE_FORWARD"; "MOVE_FORWARD"; "MOVE_FORWARD"; "MOVE_FORWARD"]
    NavigationAI.init.

(** The raw decision taken when an obstacle is flagged 17 cm ahead. *)
Definition obstacle_ahead : NavigationAI.decision :=
  NavigationAI.make_navigation_decision NavigationAI.init
    {| NavigationAI.lane_direction := "STRAIGHT";
       NavigationAI.traffic_light := "UNKNOWN";
       NavigationAI.traffic_light_confidence := 0;
       NavigationAI.speed_limit_detected := false;
       NavigationAI.stop_sign_detected := false;
       NavigationAI.obstacle_distance := 17;
       NavigationAI.obstacle_detected := true |}.

(** A stop-sign filter before its first frame. *)
Definition no_stop_sign_yet : SignsAndLights.stop_filter := {|
  SignsAndLights.stop_detection_history := [];
  SignsAndLights.stop_detection_confidence := 0;
  SignsAndLights.stop_sign_detected := false
|}.

(** A vehicle in autonomous mode over the idle controller. *)
Definition autonomous_vehicle : SmartVehicle.t :=
  SmartVehicle.set_auto_mode true (SmartVehicle.init Examples.idle_controller).

(** Three passes of the main loop: the app resets the emergency, switches to
    manual override and asks to drive forward, while the navigator keeps
    deciding to drive on. *)
Definition reset_then_drive : list SmartVehicle.pass :=
  [ {| SmartVehicle.elapsed := 1 # 20;
       SmartVehicle.frame_read := true;
       SmartVehicle.emergency_condition := false;
       SmartVehicle.decision := Examples.drive_on;
       SmartVehicle.received := Some SmartVehicle.RESET_EMERGENCY |};
    {| SmartVehicle.elapsed := 1 # 20;
       SmartVehicle.frame_read := true;
       SmartVehicle.emergency_condition := false;
       SmartVehicle.decision := Examples.drive_on;
       SmartVehicle.received := Some (SmartVehicle.MANUAL_OVERRIDE true) |};
    {| SmartVehicle.elapsed := 1 # 20;
       SmartVehicle.frame_read := true;
       SmartVehicle.emergency_condition := false;
       SmartVehicle.decision := Examples.drive_on;
       SmartVehicle.received :=
         Some (SmartVehicle.MANUAL_CONTROL
                 {| SmartVehicle.p_action := Some "forward";
                    SmartVehicle.p_speed := Some 60;
                    SmartVehicle.p_duration := None;
                    SmartVehicle.p_turn_type := None |}) |} ].

End MoreExamples.
(** * Properties *)

(** ** Facts about the Python helpers *)

Module PyFacts.
Import Py.

Lemma Qlt_bool_true (x y : Q) : Qlt_bool x y = true <-> (x < y)%Q.
Proof.
  unfold Qlt_bool. rewrite negb_true_iff.
  split; intros H.
  - apply Qnot_le_lt. intros Hle. apply Qle_bool_iff in Hle. congruence.
  - destruct (Qle_bool y x) eqn:E; [|reflexivity].
    apply Qle_bool_iff in E. exfalso. exact (Qlt_not_le _ _ H E).
Qed.

Lemma Qlt_bool_false (x y : Q) : Qlt_bool x y = false <-> (y <= x)%Q.
Proof.
  unfold Qlt_bool. rewrite negb_false_iff. apply Qle_bool_iff.
Qed.

Lemma deque_append_not_nil {A : Type} (x : A) (l : list A) :
  deque_append 5 x l <> [].
Proof.
  unfold deque_append.
  destruct (5 <? List.length (l ++ [x]))%nat eqn:E.
  - apply Nat.ltb_lt in E. destruct (l ++ [x])%list as [|a [|b r]]; simpl in *; try lia.
    discriminate.
  - destruct l; discriminate.
Qed.

Lemma dict_incr_not_nil (k : string) (d : counter) : dict_incr k d <> [].
Proof.
  destruct d as [|[k' n] d]; simpl; [discriminate|].
  destruct (String.eqb k k'); discriminate.
Qed.

Lemma count_occurrences_snoc (xs : list string) (x : string) :
  count_occurrences (xs ++ [x]) = dict_incr x (count_occurrences xs).
Proof. unfold count_occurrences. now rewrite fold_left_app. Qed.

Lemma count_occurrences_not_nil (xs : list string) :
  xs <> [] -> count_occurrences xs <> [].
Proof.
  destruct xs as [|a xs _] using rev_ind; [congruence|].
  intros _. rewrite count_occurrences_snoc. apply dict_incr_not_nil.
Qed.

(** Keys of a counter. *)
Lemma keys_dict_incr (k : string) (d : counter) :
  map fst (dict_incr k d) =
  if in_dec string_dec k (map fst d) then map fst d else (map fst d ++ [k])%list.
Proof.
  induction d as [|[k' n] d IH]; simpl; [reflexivity|].
  destruct (String.eqb_spec k k') as [->|Hne]; simpl.
  - destruct (string_dec k' k'); [reflexivity|congruence].
  - rewrite IH. destruct (string_dec k' k); [congruence|].
    destruct (in_dec string_dec k (map fst d)); reflexivity.
Qed.

Lemma keys_count_occurrences_NoDup (xs : list string) :
  NoDup (map fst (count_occurrences xs)).
Proof.
  induction xs as [|x xs IH] using rev_ind; [constructor|].
  rewrite count_occurrences_snoc, keys_dict_incr.
  destruct (in_dec string_dec x (map fst (count_occurrences xs))) as [|Hn]; [exact IH|].
  apply NoDup_app; [exact IH | repeat constructor; intros [] | ].
  intros a Ha [<-|[]]. exact (Hn Ha).
Qed.

Lemma dict_get_incr (k k' : string) (d : counter) :
  dict_get (dict_incr k d) k' =
  if String.eqb k' k
  then Some (S (match dict_get d k with Some n => n | None => 0 end))
  else dict_get d k'.
Proof.
  induction d as [|[k0 n] d IH]; simpl.
  - destruct (String.eqb k' k); reflexivity.
  - destruct (String.eqb_spec k k0) as [->|Hne]; simpl.
    + destruct (String.eqb_spec k' k0); reflexivity.
    + rewrite IH. destruct (String.eqb_spec k' k0) as [->|]; [|reflexivity].
      destruct (String.eqb_spec k0 k); [congruence|reflexivity].
Qed.

(** The counter of a list holds, for every value that occurs in it, the number
    of its occurrences, and nothing else. *)
Lemma dict_get_count_occurrences (xs : list string) (k : string) :
  dict_get (count_occurrences xs) k =
  match count_occ string_dec xs k with
  | O => None
  | S n => Some (S n)
  end.
Proof.
  induction xs as [|x xs IH] using rev_ind; [reflexivity|].
  rewrite count_occurrences_snoc, dict_get_incr, count_occ_app. simpl.
  destruct (String.eqb_spec k x) as [->|Hne].
  - rewrite IH. destruct (string_dec x x); [|congruence].
    destruct (count_occ string_dec xs x); simpl; f_equal; lia.
  - rewrite IH. destruct (string_dec x k); [congruence|].
    now rewrite Nat.add_0_r.
Qed.

Lemma dict_get_In (d : counter) (k : string) (n : nat) :
  NoDup (map fst d) -> In (k, n) d -> dict_get d k = Some n.
Proof.
  induction d as [|[k' n'] d IH]; simpl; [intros _ []|].
  intros Hnd [Heq|Hin].
  - injection Heq as -> ->. now rewrite String.eqb_refl.
  - inversion Hnd as [|? ? Hk' Hnd']; subst.
    destruct (String.eqb_spec k k') as [->|]; [|auto].
    exfalso. apply Hk'. change k' with (fst (k', n)). now apply in_map.
Qed.

(** The running maximum of [max] is an entry of the dictionary and no entry
    has a larger count. *)
Lemma fold_max_spec (d : counter) (e : string * nat) :
  let best := fold_left
                (fun best e' => if (snd best <? snd e')%nat then e' else best) d e in
  In best (e :: d) /\ forall e', In e' (e :: d) -> (snd e' <= snd best)%nat.
Proof.
  revert e. induction d as [|a d IH]; intros e; simpl.
  - split; [now left|]. intros e' [<-|[]]. lia.
  - specialize (IH (if (snd e <? snd a)%nat then a else e)).
    simpl in IH. destruct IH as [Hin Hmax]. split.
    + destruct Hin as [Heq|Hin]; [|now right; right].
      rewrite <- Heq. destruct (snd e <? snd a)%nat; [right; now left | now left].
    + intros e' He'.
      assert (Hstep : (snd e' <= snd (if (snd e <? snd a)%nat then a else e))%nat
                      \/ In e' d).
      { destruct He' as [<-|[<-|He']]; [| |now right]; left;
          destruct (Nat.ltb_spec (snd e) (snd a)); simpl; lia. }
      destruct Hstep as [Hle|Hin'].
      * etransitivity; [exact Hle|]. apply Hmax. now left.
      * apply Hmax. now right.
Qed.

Lemma max_key_spec (d : counter) :
  d <> [] ->
  exists k n, max_key d = Some k /\ In (k, n) d
              /\ forall k' n', In (k', n') d -> (n' <= n)%nat.
Proof.
  destruct d as [|e d]; [congruence|]. intros _.
  destruct (fold_max_spec d e) as [Hin Hmax]. simpl in Hin, Hmax.
  set (best := fold_left _ d e) in *.
  exists (fst best), (snd best). split; [reflexivity|]. split.
  - now rewrite <- surjective_pairing.
  - intros k' n' H. exact (Hmax (k', n') H).
Qed.

(** [max(counts, key=counts.get)] followed by [counts[...]] on the counter of a
    non-empty list: the value found occurs in the list, the count is the
    number of its occurrences, and no value occurs more often. *)
Lemma most_common_spec (xs : list string) :
  xs <> [] ->
  exists k,
    max_key (count_occurrences xs) = Some k
    /\ dict_get (count_occurrences xs) k = Some (count_occ string_dec xs k)
    /\ In k xs
    /\ forall k', (count_occ string_dec xs k' <= count_occ string_dec xs k)%nat.
Proof.
  intros Hne.
  destruct (max_key_spec (count_occurrences xs) (count_occurrences_not_nil xs Hne))
    as (k & n & Hmax & Hin & Hle).
  pose proof (dict_get_In _ _ _ (keys_count_occurrences_NoDup xs) Hin) as Hget.
  assert (Hn : n = count_occ string_dec xs k /\ (0 < n)%nat).
  { rewrite dict_get_count_occurrences in Hget.
    destruct (count_occ string_dec xs k); [discriminate|].
    injection Hget as <-. split; [reflexivity|lia]. }
  destruct Hn as [-> Hpos].
  exists k. repeat split; try assumption.
  - now apply (count_occ_In string_dec).
  - intros k'. destruct (count_occ string_dec xs k') as [|m] eqn:E; [lia|].
    apply (Hle k' (S m)).
    assert (Hg : dict_get (count_occurrences xs) k' = Some (S m))
      by now rewrite dict_get_count_occurrences, E.
    clear - Hg. induction (count_occurrences xs) as [|[k0 n0] d IH]; simpl in *;
      [discriminate|].
    destruct (String.eqb_spec k' k0) as [->|]; [left; congruence | right; auto].
Qed.

End PyFacts.

(** ** The decision engine *)

Module NavigationAIFacts.
Import NavigationAI.

(** Destructs the guards of [make_navigation_decision] from the first. *)
Ltac walk_rules :=
  repeat match goal with
         | |- context [if ?b then _ else _] => destruct b eqn:?; simpl
         end.

(** C1. When an obstacle is flagged closer than the stop distance and a red
    light is seen with confidence above 0.7, the decision is EMERGENCY_STOP
    at speed 0 and not TRAFFIC_STOP: rule 1 is tried before rule 2. *)
Theorem obstacle_rule_precedes_red_light (self : t) (env : environment) :
  obstacle_detected env = true ->
  (obstacle_distance env < obstacle_stop_distance self)%Q ->
  traffic_light env = "RED" ->
  (7 # 10 < traffic_light_confidence env)%Q ->
  action (make_navigation_decision self env) = "EMERGENCY_STOP"
  /\ speed (make_navigation_decision self env) = 0
  /\ action (make_navigation_decision self env) <> "TRAFFIC_STOP".
Proof.
  intros Hflag Hnear _ _.
  apply PyFacts.Qlt_bool_true in Hnear.
  unfold make_navigation_decision. rewrite Hflag, Hnear. simpl.
  repeat split. discriminate.
Qed.

Lemma obstacle_rule_precedes_red_light_witness :
  action (make_navigation_decision init Examples.obstacle_and_red_light)
  = "EMERGENCY_STOP"
  /\ speed (make_navigation_decision init Examples.obstacle_and_red_light) = 0
  /\ action (make_navigation_decision init Examples.obstacle_and_red_light)
     <> "TRAFFIC_STOP".
Proof.
  apply (obstacle_rule_precedes_red_light init Examples.obstacle_and_red_light);
    reflexivity.
Defined.

(** C2.  The code departs from the claim: the last rule is written for an
    unknown lane direction, but every lane direction other than LEFT, RIGHT
    and STRAIGHT reaches it.  For such a direction, SHARP_LEFT and
    SHARP_RIGHT included, the decision is that of the first of the stop rules
    1-3 that fires (EMERGENCY_STOP, TRAFFIC_STOP or STOP_SIGN_STOP, each with
    speed 0); when none fires it is MOVE_FORWARD at the reduced speed if the
    obstacle distance exceeds the safe distance, whatever the direction is,
    and STOP at speed 0 if it does not.  So a sharp bend with a clear path
    is driven straight on, where the claim has STOP. *)
Theorem default_rule_ignores_lane_direction (self : t) (env : environment) :
  lane_direction env <> "LEFT" ->
  lane_direction env <> "RIGHT" ->
  lane_direction env <> "STRAIGHT" ->
  (obstacle_detected env
   && Py.Qlt_bool (obstacle_distance env) (obstacle_stop_distance self) = true ->
   action (make_navigation_decision self env) = "EMERGENCY_STOP"
   /\ speed (make_navigation_decision self env) = 0)
  /\ (obstacle_detected env
      && Py.Qlt_bool (obstacle_distance env) (obstacle_stop_distance self) = false ->
      String.eqb (traffic_light env) "RED"
      && Py.Qlt_bool (7 # 10) (traffic_light_confidence env) = true ->
      action (make_navigation_decision self env) = "TRAFFIC_STOP"
      /\ speed (make_navigation_decision self env) = 0)
  /\ (obstacle_detected env
      && Py.Qlt_bool (obstacle_distance env) (obstacle_stop_distance self) = false ->
      String.eqb (traffic_light env) "RED"
      && Py.Qlt_bool (7 # 10) (traffic_light_confidence env) = false ->
      stop_sign_detected env = true ->
      action (make_navigation_decision self env) = "STOP_SIGN_STOP"
      /\ speed (make_navigation_decision self env) = 0)
  /\ (stop_rule_fires self env = false ->
      (safe_distance self < obstacle_distance env)%Q ->
      action (make_navigation_decision self env) = "MOVE_FORWARD"
      /\ speed (make_navigation_decision self env) = reduced_speed self
      /\ reason (make_navigation_decision self env)
         = [Text "Cautious forward movement"])
  /\ (stop_rule_fires self env = false ->
      ~ (safe_distance self < obstacle_distance env)%Q ->
      action (make_navigation_decision self env) = "STOP"
      /\ speed (make_navigation_decision self env) = 0
      /\ reason (make_navigation_decision self env)
         = [Text "Uncertain environment - safety stop"])
  /\ (action (make_navigation_decision self env) = "MOVE_FORWARD" ->
      (safe_distance self < obstacle_distance env)%Q
      /\ speed (make_navigation_decision self env) = reduced_speed self).
Proof.
  intros HL HR HS.
  apply String.eqb_neq in HL, HR, HS.
  unfold make_navigation_decision, stop_rule_fires.
  rewrite HL, HR, HS.
  destruct (obstacle_detected env
            && Py.Qlt_bool (obstacle_distance env) (obstacle_stop_distance self));
    simpl; [repeat split; intros; try discriminate; auto|].
  destruct (String.eqb (traffic_light env) "RED"
            && Py.Qlt_bool (7 # 10) (traffic_light_confidence env));
    simpl; [repeat split; intros; try discriminate; auto|].
  destruct (stop_sign_detected env);
    simpl; [repeat split; intros; try discriminate; auto|].
  destruct (Py.Qlt_bool (safe_distance self) (obstacle_distance env)) eqn:E; simpl.
  - apply PyFacts.Qlt_bool_true in E.
    repeat split; intros; try assumption; try reflexivity; try discriminate;
      contradiction.
  - apply PyFacts.Qlt_bool_false in E.
    repeat split; intros; try discriminate; try reflexivity;
      exfalso; eapply Qlt_not_le; eassumption.
Qed.

(** The failing input of C2: lane direction SHARP_LEFT, no echo, no light, no
    sign.  The navigator of [__init__] decides MOVE_FORWARD at speed 50. *)
Lemma default_rule_ignores_lane_direction_witness :
  lane_direction Examples.sharp_left_clear_path = "SHARP_LEFT"
  /\ action (make_navigation_decision init Examples.sharp_left_clear_path)
     = "MOVE_FORWARD"
  /\ speed (make_navigation_decision init Examples.sharp_left_clear_path) = 50
  /\ action (make_navigation_decision init Examples.sharp_left_clear_path)
     <> "STOP".
Proof.
  destruct (default_rule_ignores_lane_direction init Examples.sharp_left_clear_path)
    as (_ & _ & _ & Hforward & _); [discriminate | discriminate | discriminate |].
  destruct Hforward as (Haction & Hspeed & _); [reflexivity | reflexivity |].
  split; [reflexivity|]. split; [exact Haction|]. split; [exact Hspeed|].
  rewrite Haction. discriminate.
Defined.

(** C7. With the timeout reading 400 as the obstacle distance, and a stop
    distance that does not exceed it (20 by default), the decision is never
    EMERGENCY_STOP, whatever the other fields hold. *)
Theorem timeout_reading_never_emergency_stop (self : t) (env : environment) :
  (obstacle_distance env == 400)%Q ->
  (obstacle_stop_distance self <= 400)%Q ->
  action (make_navigation_decision self env) <> "EMERGENCY_STOP".
Proof.
  intros Hd Hstop.
  assert (Hfar : Py.Qlt_bool (obstacle_distance env) (obstacle_stop_distance self)
                 = false).
  { apply PyFacts.Qlt_bool_false. now rewrite Hd. }
  unfold make_navigation_decision. rewrite Hfar, andb_false_r.
  walk_rules; discriminate.
Qed.

Lemma timeout_reading_never_emergency_stop_witness :
  action (make_navigation_decision init Examples.timeout_reading)
  <> "EMERGENCY_STOP".
Proof.
  apply (timeout_reading_never_emergency_stop init Examples.timeout_reading).
  - reflexivity.
  - discriminate.
Defined.

(** [apply_temporal_filtering] always returns. *)
Lemma apply_temporal_filtering_returns (self : t) (d : decision) :
  exists d' self', apply_temporal_filtering self d = Some (d', self').
Proof.
  unfold apply_temporal_filtering.
  destruct (PyFacts.most_common_spec
              (Py.deque_append 5 (action d) (decision_history self))
              (PyFacts.deque_append_not_nil _ _)) as (k & -> & -> & _).
  destruct (Qle_bool _ _); eauto.
Qed.

(** C10. [apply_temporal_filtering] returns for every decision and every
    history, and the decision it returns has the speed and the reason of the
    one it was given; only the history of the navigator changes.  In
    particular, after two STOP decisions a raw MOVE_FORWARD at speed 75 comes
    back as STOP, filtered, still with speed 75. *)
Theorem temporal_filtering_keeps_speed_and_reason :
  (forall (self : t) (d : decision),
      exists d' self',
        apply_temporal_filtering self d = Some (d', self')
        /\ speed d' = speed d
        /\ reason d' = reason d
        /\ filtered d' <> None
        /\ self' = set_decision_history (decision_history self') self)
  /\ (exists self',
        apply_temporal_filtering Examples.stopped_twice Examples.drive_on
        = Some ({| action := "STOP";
                   speed := 75;
                   reason := reason Examples.drive_on;
                   filtered := Some true |}, self')).
Proof.
  split.
  - intros self d.
    destruct (apply_temporal_filtering_returns self d) as (d' & self' & H).
    exists d', self'. split; [exact H|].
    unfold apply_temporal_filtering in H.
    destruct (Py.max_key _); [|discriminate].
    destruct (Py.dict_get _ _); [|discriminate].
    destruct (Qle_bool _ _); injection H as <- <-; repeat split; discriminate.
  - eexists. reflexivity.
Qed.

End NavigationAIFacts.

(** ** The vision system's filters *)

Module NavigationVisionSystemFacts.
Import NavigationVisionSystem.

(** C3: the code departs from the claim on the left boundary.  A centroid
    exactly [threshold] pixels left of the image centre is classified on the
    RIGHT side: [offset < -threshold] is strict, so the offset [-threshold]
    falls through to the [else] branch.  With the centre at 320 and the
    default threshold 40, column 280 gives RIGHT, like column 360, while
    column 279 gives LEFT and column 281 STRAIGHT.  A fresh vision system
    that is shown a 640 pixel wide frame with the centroid at column 280 twice
    (the first cycle is skipped) reports the lane direction RIGHT. *)
Theorem left_boundary_is_classified_right :
  (forall image_center_x threshold : Z,
      get_navigation_direction (image_center_x - threshold) image_center_x threshold
      = "RIGHT"
      \/ get_navigation_direction (image_center_x - threshold) image_center_x threshold
         = "SHARP_RIGHT")
  /\ get_navigation_direction 280 320 40 = "RIGHT"
  /\ get_navigation_direction 360 320 40 = "RIGHT"
  /\ get_navigation_direction 279 320 40 = "LEFT"
  /\ get_navigation_direction 281 320 40 = "STRAIGHT"
  /\ (exists data1 self1 data2 self2,
        process_navigation_frame (init 0) Examples.frame_centroid_280 0
        = Some (data1, self1)
        /\ process_navigation_frame self1 Examples.frame_centroid_280 0
           = Some (data2, self2)
        /\ lane_direction_history self2 = ["RIGHT"]
        /\ current_direction self2 = "RIGHT"
        /\ NavigationData.lane_direction data2 = "RIGHT").
Proof.
  split; [|repeat split; do 4 eexists; repeat split].
  intros c t. unfold get_navigation_direction.
  replace (c - t - c) with (- t) by lia.
  destruct (Z.ltb_spec (Z.abs (- t)) t); [lia|].
  rewrite Z.ltb_irrefl.
  destruct (Py.Qlt_bool _ _); auto.
Qed.

(** The history after a push: its length. *)
Lemma push_history_length {A : Type} (n : nat) (x : A) (h : list A) :
  (List.length h <= n)%nat ->
  List.length (push_history n x h) = Nat.min (S (List.length h)) n.
Proof.
  intros Hle. unfold push_history.
  assert (Hlen : List.length (h ++ [x]) = S (List.length h))
    by (rewrite length_app; simpl; lia).
  destruct (Nat.ltb_spec n (List.length (h ++ [x]))) as [Hlt|Hge].
  - destruct (h ++ [x])%list; cbn [tl List.length] in *; lia.
  - lia.
Qed.

Lemma push_history_not_nil {A : Type} (n : nat) (x : A) (h : list A) :
  (0 < n)%nat -> push_history n x h <> [].
Proof.
  intros Hn. unfold push_history.
  destruct (Nat.ltb_spec n (List.length (h ++ [x]))) as [Hlt|Hge].
  - destruct (h ++ [x])%list as [|a [|b r]]; simpl in *; try lia. discriminate.
  - destruct h; discriminate.
Qed.

Lemma sum_bools_count (h : list bool) :
  sum_bools h = count_occ bool_dec h true.
Proof.
  unfold sum_bools. induction h as [|[] h IH]; simpl; auto.
Qed.

(** [_update_direction_with_confidence] on a non-empty history: it returns,
    the confidence is the number of occurrences of a most frequent direction
    divided by the length of the history, and the stable direction is replaced
    by that direction exactly when the confidence is at least 0.6. *)
Lemma update_direction_spec (self : t) :
  lane_direction_history self <> [] ->
  exists k,
    In k (lane_direction_history self)
    /\ (forall k', (count_occ string_dec (lane_direction_history self) k'
                    <= count_occ string_dec (lane_direction_history self) k)%nat)
    /\ _update_direction_with_confidence self
       = Some (set_lane
                 (ratio (count_occ string_dec (lane_direction_history self) k)
                    (lane_direction_history self))
                 (if Qle_bool (6 # 10)
                       (ratio (count_occ string_dec (lane_direction_history self) k)
                          (lane_direction_history self))
                  then k else current_direction self)
                 self).
Proof.
  intros Hne.
  destruct (PyFacts.most_common_spec _ Hne) as (k & Hmax & Hget & Hin & Hle).
  exists k. repeat split; try assumption.
  unfold _update_direction_with_confidence.
  destruct (lane_direction_history self) eqn:E; [congruence|].
  rewrite Hmax, Hget. reflexivity.
Qed.

(** C4, as stated, fails: after one clear frame and one blocked frame the
    obstacle confidence is 1/2, which does not exceed 0.6, and the flag is
    set. *)
Lemma obstacle_flag_set_at_half_confidence :
  (obstacle_confidence
     (_update_navigation_data false 100 0
        (_update_navigation_data true 0 0 (init 0))) == 1 # 2)%Q
  /\ (1 # 2 <= 6 # 10)%Q
  /\ obstacle_detected
       (_update_navigation_data false 100 0
          (_update_navigation_data true 0 0 (init 0))) = true.
Proof. repeat split. discriminate. Qed.

(** C4, amended.  After every update the obstacle flag is true exactly when
    the obstacle confidence, the fraction of blocked frames among the stored
    ones, exceeds 0.4; at a confidence of 0.4 or less it is false.  The same
    flag is published in [navigation_data]. *)
Theorem obstacle_flag_threshold
  (path_clear : bool) (obstacle_distance : Z) (now : Q) (self : t) :
  (obstacle_detected (_update_navigation_data path_clear obstacle_distance now self)
   = true
   <-> (4 # 10
        < obstacle_confidence
            (_update_navigation_data path_clear obstacle_distance now self))%Q)
  /\ (obstacle_detected (_update_navigation_data path_clear obstacle_distance now self)
      = false
      <-> (obstacle_confidence
             (_update_navigation_data path_clear obstacle_distance now self)
           <= 4 # 10)%Q)
  /\ obstacle_confidence (_update_navigation_data path_clear obstacle_distance now self)
     = match obstacle_history
               (_update_navigation_data path_clear obstacle_distance now self) with
       | [] => 0%Q
       | stored =>
           (inject_Z (Z.of_nat (count_occ bool_dec stored true))
            / inject_Z (Z.of_nat (List.length stored)))%Q
       end
  /\ NavigationData.obstacle_detected
       (navigation_data (_update_navigation_data path_clear obstacle_distance now self))
     = obstacle_detected (_update_navigation_data path_clear obstacle_distance now self).
Proof.
  simpl. split; [apply PyFacts.Qlt_bool_true|].
  split; [apply PyFacts.Qlt_bool_false|].
  split; [|reflexivity].
  destruct (push_history _ _ _); [reflexivity|].
  now rewrite sum_bools_count.
Qed.

(** C5, as stated, fails on both kinds of filter.  After a single LEFT
    observation the lane confidence is 1 (one occurrence out of one stored
    observation), not 1/5; and after five frames without a speed-limit sign
    the confidence is 0 (no [True] among five), although the majority value
    [False] occurs five times out of five. *)
Lemma confidence_is_not_majority_count_over_capacity :
  (exists self',
      filter_direction "LEFT" (init 0) = Some self'
      /\ history_length self' = 5%nat
      /\ count_occ string_dec (lane_direction_history self') "LEFT" = 1%nat
      /\ (lane_confidence self' == 1)%Q
      /\ ~ (lane_confidence self' == 1 # 5)%Q)
  /\ (speed_limit_history Examples.five_frames_without_sign
      = [false; false; false; false; false]
      /\ (speed_limit_confidence Examples.five_frames_without_sign == 0)%Q
      /\ ~ (speed_limit_confidence Examples.five_frames_without_sign == 5 # 5)%Q).
Proof.
  split.
  - eexists. split; [reflexivity|]. repeat split. discriminate.
  - repeat split. discriminate.
Qed.

(** C5, amended.  The confidence is a count divided by the number of
    observations currently stored, which is the capacity N only once N
    observations have been pushed.  For the lane direction the count is that
    of a most frequent direction of the history; for the speed-limit flag it
    is the number of [True] observations. *)
Theorem confidence_divides_by_stored_observations
  (self : t) (detected_direction : string)
  (signs : sign_filter) (current_detection : bool) :
  (0 < history_length self)%nat ->
  (List.length (lane_direction_history self) <= history_length self)%nat ->
  (exists self' k,
      filter_direction detected_direction self = Some self'
      /\ lane_direction_history self'
         = push_history (history_length self) detected_direction
             (lane_direction_history self)
      /\ List.length (lane_direction_history self')
         = Nat.min (S (List.length (lane_direction_history self))) (history_length self)
      /\ In k (lane_direction_history self')
      /\ (forall k', (count_occ string_dec (lane_direction_history self') k'
                      <= count_occ string_dec (lane_direction_history self') k)%nat)
      /\ lane_confidence self'
         = (inject_Z (Z.of_nat (count_occ string_dec (lane_direction_history self') k))
            / inject_Z (Z.of_nat (List.length (lane_direction_history self'))))%Q
      /\ ((history_length self <= S (List.length (lane_direction_history self)))%nat ->
          lane_confidence self'
          = (inject_Z (Z.of_nat (count_occ string_dec (lane_direction_history self') k))
             / inject_Z (Z.of_nat (history_length self)))%Q))
  /\ speed_limit_confidence
       (detect_speed_limit (history_length self) current_detection signs)
     = (inject_Z
          (Z.of_nat
             (count_occ bool_dec
                (speed_limit_history
                   (detect_speed_limit (history_length self) current_detection signs))
                true))
        / inject_Z
            (Z.of_nat
               (List.length
                  (speed_limit_history
                     (detect_speed_limit (history_length self) current_detection
                        signs)))))%Q.
Proof.
  intros Hpos Hlen. split.
  - unfold filter_direction.
    set (h := push_history (history_length self) detected_direction
                (lane_direction_history self)).
    set (pushed := set_lane_direction_history h self).
    assert (Hne : lane_direction_history pushed <> [])
      by (apply push_history_not_nil; exact Hpos).
    destruct (update_direction_spec pushed Hne) as (k & Hin & Hle & Hupd).
    eexists. exists k. split; [exact Hupd|].
    simpl. pose proof (push_history_length (history_length self) detected_direction
                         (lane_direction_history self) Hlen) as Hl.
    fold h in Hl. repeat split; try assumption.
    intros Hfull. unfold ratio. rewrite Hl. f_equal. f_equal. f_equal. lia.
  - unfold detect_speed_limit.
    pose proof (push_history_not_nil (history_length self) current_detection
                  (speed_limit_history signs) Hpos) as Hne.
    destruct (push_history _ _ _) eqn:E; [congruence|].
    simpl. now rewrite sum_bools_count.
Qed.

Lemma confidence_divides_by_stored_observations_witness :
  (0 < history_length (init 0))%nat
  /\ (List.length (lane_direction_history (init 0)) <= history_length (init 0))%nat
  /\ (exists self' k,
        filter_direction "LEFT" (init 0) = Some self'
        /\ List.length (lane_direction_history self') = 1%nat
        /\ lane_confidence self'
           = (inject_Z (Z.of_nat (count_occ string_dec (lane_direction_history self') k))
              / inject_Z (Z.of_nat (List.length (lane_direction_history self'))))%Q)
  /\ speed_limit_confidence
       (detect_speed_limit 5 true Examples.five_frames_without_sign)
     = (1 # 5)%Q.
Proof.
  assert (Hpos : (0 < history_length (init 0))%nat) by (simpl; lia).
  assert (Hlen : (List.length (lane_direction_history (init 0))
                  <= history_length (init 0))%nat) by (simpl; lia).
  destruct (confidence_divides_by_stored_observations
              (init 0) "LEFT" Examples.five_frames_without_sign true Hpos Hlen)
    as [(self' & k & Hrun & _ & Hl & _ & _ & Hconf & _) Hsigns].
  split; [exact Hpos|]. split; [exact Hlen|]. split.
  - exists self', k. split; [exact Hrun|]. split; [exact Hl | exact Hconf].
  - simpl history_length in Hsigns. rewrite Hsigns. reflexivity.
Defined.

(** C6.  From an empty lane-direction history of capacity 5, the pushes LEFT,
    LEFT, LEFT, RIGHT, RIGHT leave the confidence at 3/5 = 0.6 and the stable
    direction LEFT.  The comparison with 0.6 is inclusive: the last push alone,
    on the history LEFT, LEFT, LEFT, RIGHT, makes LEFT the stable direction
    whatever it was before. *)
Theorem three_of_five_makes_left_stable (self : t) :
  history_length self = 5%nat ->
  (lane_direction_history self = [] ->
   exists self',
     iterate filter_direction ["LEFT"; "LEFT"; "LEFT"; "RIGHT"; "RIGHT"] self
     = Some self'
     /\ lane_direction_history self' = ["LEFT"; "LEFT"; "LEFT"; "RIGHT"; "RIGHT"]
     /\ (lane_confidence self' == 6 # 10)%Q
     /\ current_direction self' = "LEFT")
  /\ (lane_direction_history self = ["LEFT"; "LEFT"; "LEFT"; "RIGHT"] ->
      exists self',
        filter_direction "RIGHT" self = Some self'
        /\ (lane_confidence self' == 6 # 10)%Q
        /\ current_direction self' = "LEFT").
Proof.
  intros Hn. destruct self; cbn [history_length lane_direction_history] in *; subst.
  split; intros ->; vm_compute; eexists; (split; [reflexivity|]); repeat split.
Qed.

Lemma three_of_five_makes_left_stable_witness :
  exists self',
    iterate filter_direction ["LEFT"; "LEFT"; "LEFT"; "RIGHT"; "RIGHT"] (init 0)
    = Some self'
    /\ lane_direction_history self' = ["LEFT"; "LEFT"; "LEFT"; "RIGHT"; "RIGHT"]
    /\ (lane_confidence self' == 6 # 10)%Q
    /\ current_direction self' = "LEFT".
Proof.
  apply (three_of_five_makes_left_stable (init 0)); reflexivity.
Defined.

(** C8.  On a skipped cycle, when the advanced counter is not a multiple of
    [skip_frames], [process_navigation_frame] returns the stored
    [navigation_data] and changes nothing in the object but the counter:
    histories, stable direction, confidences and the obstacle flag are as
    before. *)
Theorem skipped_cycle_changes_only_the_counter
  (self : t) (frame : frame_analysis) (now : Q) :
  skip_frames self <> 0 ->
  (frame_skip_counter self + 1) mod skip_frames self <> 0 ->
  exists self',
    process_navigation_frame self frame now = Some (navigation_data self, self')
    /\ self' = set_frame_skip_counter (frame_skip_counter self + 1) self
    /\ frame_skip_counter self' = frame_skip_counter self + 1
    /\ navigation_data self' = navigation_data self
    /\ lane_direction_history self' = lane_direction_history self
    /\ obstacle_history self' = obstacle_history self
    /\ current_direction self' = current_direction self
    /\ lane_confidence self' = lane_confidence self
    /\ obstacle_confidence self' = obstacle_confidence self
    /\ obstacle_detected self' = obstacle_detected self.
Proof.
  intros Hk Hskip. eexists. split; [|repeat split].
  unfold process_navigation_frame. simpl.
  apply Z.eqb_neq in Hk, Hskip. now rewrite Hk, Hskip.
Qed.

Lemma skipped_cycle_changes_only_the_counter_witness :
  exists self',
    process_navigation_frame (init 0) Examples.frame_centroid_280 0
    = Some (navigation_data (init 0), self')
    /\ frame_skip_counter self' = 1
    /\ lane_direction_history self' = [].
Proof.
  destruct (skipped_cycle_changes_only_the_counter
              (init 0) Examples.frame_centroid_280 0)
    as (self' & Hrun & -> & H); [discriminate | discriminate |].
  exists (set_frame_skip_counter (frame_skip_counter (init 0) + 1) (init 0)).
  split; [exact Hrun|]. split; reflexivity.
Defined.

End NavigationVisionSystemFacts.

(** ** The emergency lockout of the motor controller *)

Module MotorControllerFacts.
Import MotorController.

(** [all_motors_stop(immediate=True)] is the unfolding used inside
    [_smooth_transition]. *)
Lemma all_motors_stop_true (self : t) :
  all_motors_stop true self = all_motors_stop_immediate self.
Proof. reflexivity. Qed.

(** The calls at the head of the log [l] that are not yet in the log [g]. *)
Ltac calls_since l g :=
  match l with
  | g => constr:(@nil gpio_call)
  | ?c :: ?l' => let e := calls_since l' g in constr:(c :: e)
  end.

(** Supplies the new calls in a goal [exists ext, l = ext ++ g /\ _]. *)
Ltac give_new_calls :=
  match goal with
  | |- exists ext, ?l = (ext ++ ?g)%list /\ _ =>
      let e := calls_since l g in exists e
  end.

(** Supplies the new calls in a goal [exists ext, Some (r, s') = Some (r, set_gpio (ext ++ g) s)]. *)
Ltac give_prefix :=
  match goal with
  | |- exists ext, Some (_, ?s') = Some (_, _) =>
      let l := eval cbn [gpio] in (gpio s') in
      match goal with
      | g : list gpio_call |- _ => let e := calls_since l g in exists e; reflexivity
      end
  end.

(** Evaluates the run of an operation, leaving the rest of the goal as it is. *)
Ltac compute_run :=
  match goal with
  | |- context [run ?o ?s] =>
      let v := eval vm_compute in (run o s) in change (run o s) with v
  end.

Ltac compute_lhs :=
  match goal with
  | |- ex (fun _ => ex (fun _ => ?lhs = _ /\ _)) =>
      let v := eval vm_compute in lhs in change lhs with v
  end.

(** Case analysis on the tests over the fields of a command. *)
Ltac split_tests :=
  repeat match goal with
         | |- context [String.eqb ?a ?b] => destruct (String.eqb a b) eqn:?
         | |- context [Py.Qlt_bool ?a ?b] => destruct (Py.Qlt_bool a b) eqn:?
         end.

(** Closes a step once its run is evaluated: the lockout holds, the speed is
    zero, and the new calls do not drive. *)
Ltac finish :=
  do 2 eexists; (split; [reflexivity|]);
  cbn [emergency_stop_active current_speed gpio];
  repeat split; try discriminate;
  give_new_calls; split; reflexivity.

(** A movement operation under lockout returns [False] and changes nothing. *)
Lemma movement_refused (self : t) (o : operation) :
  emergency_stop_active self = true ->
  is_movement o = true ->
  run o self = Some (Returned false, self).
Proof.
  intros Hlock Hmove.
  destruct o; try discriminate;
    cbv [run all_motors_forward all_motors_backward turn_left turn_right
           bind gets ret];
    rewrite Hlock; reflexivity.
Qed.

(** One operation other than the reset and the driving per-motor functions,
    from a locked controller at rest. *)
Lemma locked_step (o : operation) (self : t) :
  emergency_stop_active self = true ->
  current_speed self = 0 ->
  is_reset o = false ->
  is_motor_drive o = false ->
  exists r self',
    run o self = Some (r, self')
    /\ emergency_stop_active self' = true
    /\ current_speed self' = 0
    /\ (is_movement o = true -> r = Returned false)
    /\ exists ext, gpio self' = (ext ++ gpio self)%list /\ existsb drives ext = false.
Proof.
  intros Hlock Hrest Hop Hdirect.
  destruct (is_movement o) eqn:Hmove.
  { rewrite (movement_refused self o Hlock Hmove).
    do 2 eexists. repeat split; try assumption. exists []. split; reflexivity. }
  destruct self; cbn [emergency_stop_active current_speed] in *; subst.
  destruct o; try discriminate; destruct smooth_control0.
  1-8: compute_run; finish.
  1-2: destruct immediate; compute_run; finish.
  1-2: compute_run; finish.
  1-2: destruct command as [[action|] speed duration turn_type [source|]];
      cbv beta iota zeta delta [run execute_android_command cmd_action cmd_speed
                                  cmd_duration cmd_turn_type cmd_source];
      split_tests; compute_lhs; finish.
  1-2: cbv beta iota zeta delta
         [run get_motor_status bind gets ret time_time clock last_command_time
            command_timeout emergency_stop_active motor_state negb];
       rewrite andb_false_r; compute_lhs; finish.
  1-2: destruct default, max_speed', min_speed'; compute_run; finish.
  all: compute_run; finish.
Qed.

(** A driving per-motor function is not held back by the lockout; it leaves
    the flag and [current_speed] as they are. *)
Lemma motor_drive_step (o : operation) (self : t) :
  is_motor_drive o = true ->
  exists ext,
    run o self = Some (ReturnedNone, set_gpio (ext ++ gpio self)%list self).
Proof.
  intros Hdrive. destruct self.
  destruct o; try discriminate; destruct speed;
    compute_run; cbn [gpio set_gpio]; give_prefix.
Qed.

(** One operation other than the reset, from a locked controller at rest. *)
Lemma locked_step_any (o : operation) (self : t) :
  emergency_stop_active self = true ->
  current_speed self = 0 ->
  is_reset o = false ->
  exists r self',
    run o self = Some (r, self')
    /\ emergency_stop_active self' = true
    /\ current_speed self' = 0
    /\ (is_movement o = true -> r = Returned false).
Proof.
  intros Hlock Hrest Hop.
  destruct (is_motor_drive o) eqn:Hdrive.
  - destruct (motor_drive_step o self Hdrive) as (ext & Hrun).
    do 2 eexists. split; [exact Hrun|].
    split; [exact Hlock|]. split; [exact Hrest|].
    destruct o; discriminate.
  - destruct (locked_step o self Hlock Hrest Hop Hdrive)
      as (r & self' & Hrun & Hlock' & Hrest' & Hmove & _).
    exists r, self'. repeat split; assumption.
Qed.

Lemma existsb_drives_app (ext1 ext2 : list gpio_call) :
  existsb drives ext1 = false -> existsb drives ext2 = false ->
  existsb drives (ext2 ++ ext1) = false.
Proof. intros H1 H2. now rewrite existsb_app, H1, H2. Qed.

(** Calls that do not drive leave stopped wheels stopped. *)
Lemma all_stopped_kept (ext g : list gpio_call) :
  Wheels.all_stopped g -> existsb drives ext = false ->
  Wheels.all_stopped (ext ++ g).
Proof.
  induction ext as [|c ext IH]; intros Hg Hext; [exact Hg|].
  cbn [existsb] in Hext. apply orb_false_iff in Hext. destruct Hext as [Hc Hext].
  specialize (IH Hg Hext). destruct IH as [Hpins Hduties].
  unfold Wheels.all_stopped, Wheels.pins, Wheels.duties in *.
  cbn [map repeat app] in *.
  injection Hpins as H1 H2 H3 H4 H5 H6 H7 H8.
  injection Hduties as D1 D2 D3 D4.
  destruct c as [pin [|]|channel duty]; cbn [drives] in Hc; try discriminate.
  - cbn [Wheels.pin_level Wheels.duty_cycle].
    rewrite H1, H2, H3, H4, H5, H6, H7, H8, D1, D2, D3, D4.
    split; [|reflexivity].
    repeat match goal with
           | |- context [if ?b then _ else _] => destruct b
           end; reflexivity.
  - apply negb_false_iff, Z.eqb_eq in Hc. subst duty.
    cbn [Wheels.pin_level Wheels.duty_cycle].
    rewrite H1, H2, H3, H4, H5, H6, H7, H8, D1, D2, D3, D4.
    split; [reflexivity|].
    destruct channel; reflexivity.
Qed.

(** Any run without a reset, from a locked controller at rest: the lockout
    persists across every operation. *)
Lemma locked_run_any (ops : list operation) (self : t) :
  emergency_stop_active self = true ->
  current_speed self = 0 ->
  forallb (fun o => negb (is_reset o)) ops = true ->
  exists rs self',
    run_all ops self = Some (rs, self')
    /\ emergency_stop_active self' = true
    /\ current_speed self' = 0
    /\ Forall (fun r => r = Returned false) (movement_outcomes ops rs).
Proof.
  revert self. induction ops as [|o ops IH]; intros self Hlock Hrest Hops.
  - exists [], self. repeat split; auto.
  - simpl in Hops. apply andb_prop in Hops. destruct Hops as [Ho Hops].
    apply negb_true_iff in Ho.
    destruct (locked_step_any o self Hlock Hrest Ho)
      as (r & self1 & Hrun & Hlock1 & Hrest1 & Hmove).
    destruct (IH self1 Hlock1 Hrest1 Hops)
      as (rs & self2 & Hruns & Hlock2 & Hrest2 & Hall).
    exists (r :: rs), self2.
    split; [|repeat split; try assumption].
    + cbn [run_all]. unfold bind at 1. rewrite Hrun.
      unfold bind at 1. rewrite Hruns. reflexivity.
    + cbn [movement_outcomes]. destruct (is_movement o); [|exact Hall].
      constructor; [now apply Hmove | exact Hall].
Qed.

(** Any run without a reset and without a driving per-motor function, from a
    locked controller at rest. *)
Lemma locked_run (ops : list operation) (self : t) :
  emergency_stop_active self = true ->
  current_speed self = 0 ->
  forallb (fun o => negb (is_reset o) && negb (is_motor_drive o)) ops = true ->
  exists rs self' ext,
    run_all ops self = Some (rs, self')
    /\ emergency_stop_active self' = true
    /\ current_speed self' = 0
    /\ gpio self' = (ext ++ gpio self)%list
    /\ existsb drives ext = false
    /\ Forall (fun r => r = Returned false) (movement_outcomes ops rs).
Proof.
  revert self. induction ops as [|o ops IH]; intros self Hlock Hrest Hops.
  - exists [], self, []. repeat split; auto.
  - simpl in Hops. apply andb_prop in Hops. destruct Hops as [Ho Hops].
    apply andb_prop in Ho. destruct Ho as [Ho Hdirect].
    apply negb_true_iff in Ho, Hdirect.
    destruct (locked_step o self Hlock Hrest Ho Hdirect)
      as (r & self1 & Hrun & Hlock1 & Hrest1 & Hmove & ext1 & Hg1 & Hd1).
    destruct (IH self1 Hlock1 Hrest1 Hops)
      as (rs & self2 & ext2 & Hruns & Hlock2 & Hrest2 & Hg2 & Hd2 & Hall).
    exists (r :: rs), self2, (ext2 ++ ext1)%list.
    split; [|repeat split; try assumption].
    + cbn [run_all]. unfold bind at 1. rewrite Hrun.
      unfold bind at 1. rewrite Hruns. reflexivity.
    + now rewrite Hg2, Hg1, app_assoc.
    + now apply existsb_drives_app.
    + cbn [movement_outcomes]. destruct (is_movement o); [|exact Hall].
      constructor; [now apply Hmove | exact Hall].
Qed.

(** [emergency_stop] returns, engages the lockout with the speed at zero,
    makes stop calls only, and leaves every wheel stopped. *)
Lemma emergency_stop_locks (self : t) :
  exists self' ext,
    emergency_stop self = Some (true, self')
    /\ emergency_stop_active self' = true
    /\ current_speed self' = 0
    /\ gpio self' = (ext ++ gpio self)%list
    /\ existsb drives ext = false
    /\ Wheels.all_stopped (gpio self').
Proof.
  destruct self.
  match goal with
  | |- context [emergency_stop ?s] =>
      let v := eval vm_compute in (emergency_stop s) in
      change (emergency_stop s) with v
  end.
  eexists. cbn [gpio].
  match goal with
  | |- exists ext, Some (_, ?s') = _ /\ _ =>
      let l := eval cbn [gpio] in (gpio s') in
      match goal with
      | g : list gpio_call |- _ => let e := calls_since l g in exists e
      end
  end.
  repeat split.
Qed.

(** C9, as stated, fails: the per-motor functions are not held back by the
    lockout.  After [emergency_stop] on the idle controller, [motor1_forward(50)]
    raises the forward pin of motor 1 and sets its duty cycle to 50 while
    [emergency_stop_active] stays set. *)
Lemma motor1_forward_drives_under_lockout :
  exists self',
    run_all Examples.bypass Examples.idle_controller
    = Some ([Returned true; ReturnedNone], self')
    /\ emergency_stop_active self' = true
    /\ Wheels.pin_level (gpio self') IN1 = Some HIGH
    /\ Wheels.duty_cycle (gpio self') pwm1 = Some 50
    /\ ~ Wheels.all_stopped (gpio self').
Proof.
  eexists. split; [vm_compute; reflexivity|].
  split; [reflexivity|]. split; [reflexivity|]. split; [reflexivity|].
  intros [Hpins _]. discriminate Hpins.
Qed.

(** C9, amended.  While [emergency_stop_active] is set, [all_motors_forward],
    [all_motors_backward], [turn_left] and [turn_right] return [False] and
    leave the object as it is, so no GPIO call is made.  [emergency_stop]
    returns [True] in every state, engages the lockout and leaves every wheel
    stopped: all direction pins low, all duty cycles zero, [current_speed]
    zero.  From a locked controller at rest, every run of public operations
    that does not contain [reset_emergency_stop] returns, keeps the lockout
    engaged and gets [False] from each movement operation.  If the run
    contains none of the eight per-motor functions [motorN_forward] and
    [motorN_backward] either, which carry no test of the lockout, it makes no
    GPIO call that could drive a wheel, and wheels that were stopped are still
    stopped after it; so it is for every such run that follows an
    [emergency_stop], whatever the state it was called in.
    [reset_emergency_stop] releases the lockout. *)
Theorem emergency_lockout :
  (forall (self : t) (speed : option Z) (smooth : option bool) (turn_type : string),
      emergency_stop_active self = true ->
      all_motors_forward speed smooth self = Some (false, self)
      /\ all_motors_backward speed smooth self = Some (false, self)
      /\ turn_left speed turn_type self = Some (false, self)
      /\ turn_right speed turn_type self = Some (false, self))
  /\ (forall self : t,
        exists self',
          emergency_stop self = Some (true, self')
          /\ emergency_stop_active self' = true
          /\ current_speed self' = 0
          /\ Wheels.all_stopped (gpio self'))
  /\ (forall (self : t) (ops : list operation),
        emergency_stop_active self = true ->
        current_speed self = 0 ->
        forallb (fun o => negb (is_reset o)) ops = true ->
        exists rs self',
          run_all ops self = Some (rs, self')
          /\ emergency_stop_active self' = true
          /\ current_speed self' = 0
          /\ Forall (fun r => r = Returned false) (movement_outcomes ops rs))
  /\ (forall (self : t) (ops : list operation),
        emergency_stop_active self = true ->
        current_speed self = 0 ->
        Wheels.all_stopped (gpio self) ->
        forallb (fun o => negb (is_reset o) && negb (is_motor_drive o)) ops = true ->
        exists rs self' ext,
          run_all ops self = Some (rs, self')
          /\ emergency_stop_active self' = true
          /\ current_speed self' = 0
          /\ gpio self' = (ext ++ gpio self)%list
          /\ existsb drives ext = false
          /\ Wheels.all_stopped (gpio self')
          /\ Forall (fun r => r = Returned false) (movement_outcomes ops rs))
  /\ (forall (self : t) (ops : list operation),
        forallb (fun o => negb (is_reset o) && negb (is_motor_drive o)) ops = true ->
        exists rs self' ext,
          run_all (EmergencyStop :: ops) self = Some (Returned true :: rs, self')
          /\ emergency_stop_active self' = true
          /\ current_speed self' = 0
          /\ gpio self' = (ext ++ gpio self)%list
          /\ existsb drives ext = false
          /\ Wheels.all_stopped (gpio self')
          /\ Forall (fun r => r = Returned false) (movement_outcomes ops rs))
  /\ (forall self : t,
        exists self',
          reset_emergency_stop self = Some (true, self')
          /\ emergency_stop_active self' = false).
Proof.
  split; [|split; [|split; [|split; [|split]]]].
  - intros self speed smooth turn_type Hlock.
    cbv [all_motors_forward all_motors_backward turn_left turn_right bind gets ret].
    rewrite Hlock. repeat split.
  - intros self.
    destruct (emergency_stop_locks self) as (self' & _ & H1 & H2 & H3 & _ & _ & H4).
    exists self'. split; [exact H1|]. split; [exact H2|]. split; [exact H3 | exact H4].
  - intros self ops Hlock Hrest Hops.
    exact (locked_run_any ops self Hlock Hrest Hops).
  - intros self ops Hlock Hrest Hstopped Hops.
    destruct (locked_run ops self Hlock Hrest Hops)
      as (rs & self' & ext & H1 & H2 & H3 & H4 & H5 & H6).
    exists rs, self', ext.
    split; [exact H1|]. split; [exact H2|]. split; [exact H3|].
    split; [exact H4|]. split; [exact H5|]. split; [|exact H6].
    rewrite H4. now apply all_stopped_kept.
  - intros self ops Hops.
    destruct (emergency_stop_locks self)
      as (self1 & ext1 & Hstop & Hlock1 & Hrest1 & Hg1 & Hd1 & Hstopped1).
    destruct (locked_run ops self1 Hlock1 Hrest1 Hops)
      as (rs & self2 & ext2 & Hruns & Hlock2 & Hrest2 & Hg2 & Hd2 & Hall).
    exists rs, self2, (ext2 ++ ext1)%list.
    split.
    { cbn [run_all run]. unfold bind at 1. unfold bind at 1. rewrite Hstop.
      cbv beta iota delta [ret]. unfold bind at 1. rewrite Hruns. reflexivity. }
    split; [exact Hlock2|]. split; [exact Hrest2|].
    split; [now rewrite Hg2, Hg1, app_assoc|].
    split; [now apply existsb_drives_app|].
    split; [|exact Hall].
    rewrite Hg2. now apply all_stopped_kept.
  - intros self. eexists. split; reflexivity.
Qed.

Lemma emergency_lockout_witness :
  exists rs self' ext,
    run_all Examples.attempts Examples.locked_controller = Some (rs, self')
    /\ emergency_stop_active self' = true
    /\ current_speed self' = 0
    /\ gpio self' = (ext ++ gpio Examples.locked_controller)%list
    /\ existsb drives ext = false
    /\ Wheels.all_stopped (gpio self')
    /\ Forall (fun r => r = Returned false)
         (movement_outcomes Examples.attempts rs).
Proof.
  apply (proj1 (proj2 (proj2 (proj2 emergency_lockout))));
    [reflexivity | reflexivity | split; reflexivity | reflexivity].
Defined.

End MotorControllerFacts.

(** ** More on the decision engine: defaults, consensus and bookkeeping *)

Module NavigationProcessFacts.
Import NavigationAI NavigationProcess.

(** Two different values cannot both fill more than the list. *)
Lemma count_occ_two (h : list string) (a b : string) :
  a <> b ->
  (count_occ string_dec h a + count_occ string_dec h b <= List.length h)%nat.
Proof.
  intros Hab. induction h as [|x h IH]; simpl; [lia|].
  destruct (string_dec x a), (string_dec x b); subst; try congruence; lia.
Qed.

(** The consensus test [count >= len * 0.6] in whole numbers. *)
Lemma consensus_test (n c : nat) :
  Qle_bool (inject_Z (Z.of_nat n) * (6 # 10)) (inject_Z (Z.of_nat c)) = true
  <-> (3 * n <= 5 * c)%nat.
Proof.
  rewrite Qle_bool_iff. unfold Qle. simpl. lia.
Qed.

(** A value with at least 60% of the entries occurs strictly more often than
    every other value. *)
Lemma consensus_is_unique (h : list string) (k a : string) :
  In k h ->
  (3 * List.length h <= 5 * count_occ string_dec h k)%nat ->
  a <> k ->
  (count_occ string_dec h a < count_occ string_dec h k)%nat.
Proof.
  intros Hin Hk Hak.
  pose proof (count_occ_two h a k Hak).
  apply (count_occ_In string_dec) in Hin. lia.
Qed.

(** What [apply_temporal_filtering] returns, in terms of the updated
    history. *)
Lemma apply_temporal_filtering_spec (self : t) (d : decision) :
  exists k,
    let h := Py.deque_append 5 (action d) (decision_history self) in
    In k h
    /\ (forall a, (count_occ string_dec h a <= count_occ string_dec h k)%nat)
    /\ apply_temporal_filtering self d
       = Some ({| action :=
                    if (3 * List.length h <=? 5 * count_occ string_dec h k)%nat
                    then k else action d;
                  speed := speed d;
                  reason := reason d;
                  filtered :=
                    Some (3 * List.length h <=? 5 * count_occ string_dec h k)%nat |},
               set_decision_history h self).
Proof.
  destruct (PyFacts.most_common_spec
              (Py.deque_append 5 (action d) (decision_history self))
              (PyFacts.deque_append_not_nil _ _)) as (k & Hmax & Hget & Hin & Hle).
  exists k. cbv zeta. split; [exact Hin|]. split; [exact Hle|].
  unfold apply_temporal_filtering. rewrite Hmax, Hget.
  destruct (Nat.leb_spec
              (3 * List.length (Py.deque_append 5 (action d) (decision_history self)))
              (5 * count_occ string_dec
                     (Py.deque_append 5 (action d) (decision_history self)) k))
    as [Hyes|Hno].
  - apply consensus_test in Hyes. now rewrite Hyes.
  - destruct (Qle_bool _ _) eqn:E; [|reflexivity].
    apply consensus_test in E. lia.
Qed.

(** The value just appended is in the deque. *)
Lemma deque_append_In {A : Type} (x : A) (l : list A) :
  In x (Py.deque_append 5 x l).
Proof.
  unfold Py.deque_append.
  destruct (Nat.ltb_spec 5 (List.length (l ++ [x]))) as [Hlt|Hge].
  - destruct l as [|y r]; simpl in *; [lia|].
    apply in_or_app. right. now left.
  - apply in_or_app. right. now left.
Qed.

(** One cycle of the filter when some action has the consensus. *)
Lemma filtering_with_consensus (self : t) (d : decision) (m : string) :
  (3 * List.length (Py.deque_append 5 (action d) (decision_history self))
   <= 5 * count_occ string_dec
            (Py.deque_append 5 (action d) (decision_history self)) m)%nat ->
  apply_temporal_filtering self d
  = Some ({| action := m; speed := speed d; reason := reason d;
             filtered := Some true |},
          set_decision_history
            (Py.deque_append 5 (action d) (decision_history self)) self).
Proof.
  intros Hm.
  destruct (apply_temporal_filtering_spec self d) as (k & Hin & Hle & Hrun).
  cbv zeta in *.
  set (h := Py.deque_append 5 (action d) (decision_history self)) in *.
  assert (Hk : k = m).
  { destruct (string_dec k m) as [|Hne]; [assumption|exfalso].
    pose proof (count_occ_two h k m Hne). specialize (Hle m).
    apply (count_occ_In string_dec) in Hin. lia. }
  subst k. rewrite Hrun.
  destruct (Nat.leb_spec (3 * List.length h) (5 * count_occ string_dec h m));
    [reflexivity|lia].
Qed.

(** X1.  The temporal filter returns for every decision; the action it reports
    occurs in the updated history.  The decision is marked filtered exactly
    when some action holds at least 60% of the updated history; that action is
    then reported, and it occurs strictly more often than any other, so the
    order in which [max] visits tied actions never shows.  Otherwise the raw
    action is passed on and no action reaches 60%. *)
Theorem consensus_decides_the_filter (self : t) (d : decision) :
  exists d' self',
    apply_temporal_filtering self d = Some (d', self')
    /\ decision_history self' = Py.deque_append 5 (action d) (decision_history self)
    /\ In (action d') (decision_history self')
    /\ (filtered d' = Some true ->
        (3 * List.length (decision_history self')
         <= 5 * count_occ string_dec (decision_history self') (action d'))%nat
        /\ forall a, a <> action d' ->
             (count_occ string_dec (decision_history self') a
              < count_occ string_dec (decision_history self') (action d'))%nat)
    /\ (filtered d' = Some false ->
        action d' = action d
        /\ forall a,
             (5 * count_occ string_dec (decision_history self') a
              < 3 * List.length (decision_history self'))%nat)
    /\ (forall a,
          (3 * List.length (decision_history self')
           <= 5 * count_occ string_dec (decision_history self') a)%nat ->
          action d' = a /\ filtered d' = Some true).
Proof.
  destruct (apply_temporal_filtering_spec self d) as (k & Hin & Hle & Hrun).
  cbv zeta in *.
  set (h := Py.deque_append 5 (action d) (decision_history self)) in *.
  eexists. eexists. split; [exact Hrun|]. cbn [decision_history set_decision_history
                                                 action filtered].
  assert (Hraw : In (action d) h) by apply deque_append_In.
  destruct (Nat.leb_spec (3 * List.length h) (5 * count_occ string_dec h k))
    as [Hyes|Hno].
  - split; [reflexivity|]. split; [exact Hin|]. split; [|split].
    + intros _. split; [exact Hyes|]. intros a Ha.
      now apply consensus_is_unique.
    + discriminate.
    + intros a Ha. split; [|reflexivity].
      destruct (string_dec k a) as [|Hne]; [assumption|exfalso].
      pose proof (count_occ_two h k a Hne).
      apply (count_occ_In string_dec) in Hin. lia.
  - split; [reflexivity|]. split; [exact Hraw|]. split; [|split].
    + discriminate.
    + intros _. split; [reflexivity|]. intros a. specialize (Hle a). lia.
    + intros a Ha. specialize (Hle a). lia.
Qed.

(** Counting in a short list of two known values. *)
Ltac count_two a r :=
  simpl;
  repeat match goal with
         | |- context [string_dec ?x ?y] => destruct (string_dec x y)
         end;
  try congruence; try reflexivity; try lia.

(** X2.  Once the history holds five times the same action, a different raw
    action is held back twice: the first two cycles still report the old
    action (with the speed of the new raw decision), the third reports the new
    one.  This holds for every pair of actions, EMERGENCY_STOP included. *)
Theorem new_action_needs_three_cycles (self : t) (a : string) (d1 d2 d3 : decision) :
  decision_history self = repeat a 5 ->
  action d1 <> a ->
  action d2 = action d1 ->
  action d3 = action d1 ->
  exists self',
    filter_all self [d1; d2; d3]
    = Some ([ {| action := a; speed := speed d1; reason := reason d1;
                 filtered := Some true |};
              {| action := a; speed := speed d2; reason := reason d2;
                 filtered := Some true |};
              {| action := action d1; speed := speed d3; reason := reason d3;
                 filtered := Some true |} ],
            self')
    /\ decision_history self' = [a; a; action d1; action d1; action d1].
Proof.
  intros Hh Hne H2 H3.
  destruct d1 as [r v1 w1 f1], d2 as [r2 v2 w2 f2], d3 as [r3 v3 w3 f3].
  cbn [action speed reason] in *. subst r2 r3.
  pose proof filtering_with_consensus as Hstep.
  cbn [filter_all].
  rewrite (Hstep self _ a); cbn [action decision_history set_decision_history];
    [|rewrite Hh; count_two a r].
  cbn [speed reason].
  rewrite (Hstep _ _ a); cbn [action decision_history set_decision_history];
    [|rewrite Hh; count_two a r].
  cbn [speed reason].
  rewrite (Hstep _ _ r); cbn [action decision_history set_decision_history];
    [|rewrite Hh; count_two a r].
  eexists. split; [reflexivity|]. now rewrite Hh.
Qed.

Lemma new_action_needs_three_cycles_witness :
  exists self',
    filter_all MoreExamples.cruising
      [MoreExamples.obstacle_ahead; MoreExamples.obstacle_ahead;
       MoreExamples.obstacle_ahead]
    = Some ([ {| action := "MOVE_FORWARD"; speed := 0;
                 reason := reason MoreExamples.obstacle_ahead;
                 filtered := Some true |};
              {| action := "MOVE_FORWARD"; speed := 0;
                 reason := reason MoreExamples.obstacle_ahead;
                 filtered := Some true |};
              {| action := "EMERGENCY_STOP"; speed := 0;
                 reason := reason MoreExamples.obstacle_ahead;
                 filtered := Some true |} ],
            self')
    /\ decision_history self'
       = ["MOVE_FORWARD"; "MOVE_FORWARD";
          "EMERGENCY_STOP"; "EMERGENCY_STOP"; "EMERGENCY_STOP"].
Proof.
  apply (new_action_needs_three_cycles MoreExamples.cruising "MOVE_FORWARD"
           MoreExamples.obstacle_ahead MoreExamples.obstacle_ahead
           MoreExamples.obstacle_ahead);
    try reflexivity; discriminate.
Defined.

(** The length of a deque after an append. *)
Lemma deque_append_length {A : Type} (n : nat) (x : A) (l : list A) :
  (List.length l <= n)%nat ->
  List.length (Py.deque_append n x l) = Nat.min (S (List.length l)) n.
Proof.
  intros Hle. unfold Py.deque_append.
  assert (Hlen : List.length (l ++ [x]) = S (List.length l))
    by (rewrite length_app; simpl; lia).
  destruct (Nat.ltb_spec n (List.length (l ++ [x]))) as [Hlt|Hge].
  - destruct (l ++ [x])%list; cbn [tl List.length] in *; lia.
  - lia.
Qed.

(** The newest entry of a deque is the value just appended. *)
Lemma deque_append_last {A : Type} (n : nat) (x d : A) (l : list A) :
  (0 < n)%nat -> last (Py.deque_append n x l) d = x.
Proof.
  intros Hn. unfold Py.deque_append.
  destruct (Nat.ltb_spec n (List.length (l ++ [x]))) as [Hlt|Hge].
  - destruct l as [|y r]; [simpl in Hlt; lia|].
    cbn [app tl]. apply last_last.
  - apply last_last.
Qed.

(** X3.  [process_navigation] returns for every input.  The action it reports
    becomes [current_state] and the newest entry of [previous_actions]; it is
    one of the raw actions kept in [decision_history]; the two deques never
    grow beyond 5 and 10 entries; the thresholds and speeds of the navigator
    are left as they are. *)
Theorem process_navigation_bookkeeping
  (self : t) (vision : vision_data) (sensor : sensor_data) :
  (List.length (decision_history self) <= 5)%nat ->
  (List.length (previous_actions self) <= 10)%nat ->
  exists d self',
    process_navigation self vision sensor = Some (d, self')
    /\ current_state self' = action d
    /\ last (previous_actions self') "" = action d
    /\ In (action d) (decision_history self')
    /\ List.length (decision_history self')
       = Nat.min (S (List.length (decision_history self))) 5
    /\ List.length (previous_actions self')
       = Nat.min (S (List.length (previous_actions self))) 10
    /\ obstacle_stop_distance self' = obstacle_stop_distance self
    /\ safe_distance self' = safe_distance self
    /\ default_speed self' = default_speed self
    /\ reduced_speed self' = reduced_speed self.
Proof.
  intros H5 H10. unfold process_navigation.
  set (raw := make_navigation_decision self (analyze_environment vision sensor)).
  destruct (apply_temporal_filtering_spec self raw) as (k & Hin & Hle & Hrun).
  cbv zeta in *. rewrite Hrun.
  set (h := Py.deque_append 5 (action raw) (decision_history self)) in *.
  eexists. eexists. split; [reflexivity|].
  cbn [current_state previous_actions decision_history record_action
         set_decision_history action obstacle_stop_distance safe_distance
         default_speed reduced_speed].
  repeat split.
  - apply deque_append_last. lia.
  - destruct (_ <=? _)%nat; [exact Hin | apply deque_append_In].
  - now apply deque_append_length.
  - now apply deque_append_length.
Qed.

Lemma process_navigation_bookkeeping_witness :
  exists d self',
    process_navigation init no_vision_data no_sensor_data = Some (d, self')
    /\ current_state self' = action d
    /\ action d = "MOVE_FORWARD".
Proof.
  destruct (process_navigation_bookkeeping init no_vision_data no_sensor_data)
    as (d & self' & Hrun & Hstate & _); [simpl; lia | simpl; lia |].
  exists d, self'. split; [exact Hrun|]. split; [exact Hstate|].
  vm_compute in Hrun. now injection Hrun as <- _.
Defined.

(** X4.  Every raw decision is one of seven actions.  The four stopping
    actions come with speed 0; TURN_LEFT, TURN_RIGHT and MOVE_FORWARD come
    with the reduced or the default speed, and with the reduced speed whenever
    a speed-limit sign is reported.  SHARP_LEFT and SHARP_RIGHT are never
    decided, and the raw decision carries no [filtered] entry. *)
Theorem decision_vocabulary (self : t) (env : environment) :
  (((action (make_navigation_decision self env) = "EMERGENCY_STOP"
     \/ action (make_navigation_decision self env) = "TRAFFIC_STOP"
     \/ action (make_navigation_decision self env) = "STOP_SIGN_STOP"
     \/ action (make_navigation_decision self env) = "STOP")
    /\ speed (make_navigation_decision self env) = 0)
   \/ ((action (make_navigation_decision self env) = "TURN_LEFT"
        \/ action (make_navigation_decision self env) = "TURN_RIGHT"
        \/ action (make_navigation_decision self env) = "MOVE_FORWARD")
       /\ (speed (make_navigation_decision self env) = reduced_speed self
           \/ speed (make_navigation_decision self env) = default_speed self)
       /\ (speed_limit_detected env = true ->
           speed (make_navigation_decision self env) = reduced_speed self)))
  /\ action (make_navigation_decision self env) <> "SHARP_LEFT"
  /\ action (make_navigation_decision self env) <> "SHARP_RIGHT"
  /\ filtered (make_navigation_decision self env) = None.
Proof.
  unfold make_navigation_decision.
  repeat match goal with
         | |- context [if ?b then _ else _] => destruct b eqn:?
         end;
    cbn [action speed filtered mk_decision];
    (split; [|repeat split; discriminate]);
    try (left; split; [|reflexivity]; tauto);
    right; (split; [tauto|]); split; try tauto; try discriminate; auto.
Qed.

(** X5.  In the main loop the navigator is fed the vision system's
    [navigation_data] and the reading of the ultrasonic sensor.  With both
    thresholds at their value 20, the raw decision is EMERGENCY_STOP exactly
    when the measured distance is below 20, in particular never on the
    timeout reading 400.  As [navigation_data] has no traffic-light or sign
    key, the decision is never TRAFFIC_STOP or STOP_SIGN_STOP and a turn is
    always taken at the default speed. *)
Theorem main_loop_raw_decision
  (self : t) (data : NavigationVisionSystem.NavigationData.t) (measured : Q) :
  (obstacle_stop_distance self == 20)%Q ->
  (action
     (make_navigation_decision self
        (analyze_environment (vision_data_of data)
           (SensorManager.sensor_data_of
              (SensorManager.read_sensor_data SensorManager.init measured))))
   = "EMERGENCY_STOP" <-> (measured < 20)%Q)
  /\ action
       (make_navigation_decision self
          (analyze_environment (vision_data_of data)
             (SensorManager.sensor_data_of
                (SensorManager.read_sensor_data SensorManager.init measured))))
     <> "TRAFFIC_STOP"
  /\ action
       (make_navigation_decision self
          (analyze_environment (vision_data_of data)
             (SensorManager.sensor_data_of
                (SensorManager.read_sensor_data SensorManager.init measured))))
     <> "STOP_SIGN_STOP"
  /\ (forall turn,
        turn = "TURN_LEFT" \/ turn = "TURN_RIGHT" ->
        action
          (make_navigation_decision self
             (analyze_environment (vision_data_of data)
                (SensorManager.sensor_data_of
                   (SensorManager.read_sensor_data SensorManager.init measured))))
        = turn ->
        speed
          (make_navigation_decision self
             (analyze_environment (vision_data_of data)
                (SensorManager.sensor_data_of
                   (SensorManager.read_sensor_data SensorManager.init measured))))
        = default_speed self).
Proof.
  intros Hstop.
  unfold make_navigation_decision, analyze_environment, vision_data_of,
    SensorManager.sensor_data_of, SensorManager.read_sensor_data, get.
  cbn [lane_direction traffic_light traffic_light_confidence speed_limit_detected
         stop_sign_detected obstacle_distance obstacle_detected
         vd_lane_direction vd_traffic_light_status vd_traffic_light_confidence
         vd_speed_limit_detected vd_stop_sign_detected sd_distance
         sd_obstacle_detected SensorManager.distance SensorManager.obstacle_detected
         SensorManager.obstacle_threshold SensorManager.init].
  change (String.eqb "UNKNOWN" "RED") with false. cbn [andb].
  destruct (Py.Qlt_bool measured 20) eqn:Hnear; cbn [andb].
  - assert (Hlt : (measured < 20)%Q) by now apply PyFacts.Qlt_bool_true.
    assert (Hrule : Py.Qlt_bool measured (obstacle_stop_distance self) = true).
    { apply PyFacts.Qlt_bool_true. now rewrite Hstop. }
    rewrite Hrule. cbn [action speed mk_decision].
    repeat split; try discriminate; auto.
    intros turn [-> | ->]; discriminate.
  - assert (Hge : (20 <= measured)%Q) by now apply PyFacts.Qlt_bool_false.
    repeat match goal with
           | |- context [if ?b then _ else _] => destruct b eqn:?
           end;
      cbn [action speed mk_decision];
      repeat split; try discriminate;
      try (intros Hlt; exfalso; exact (Qlt_not_le _ _ Hlt Hge));
      try (intros turn [-> | ->]; try discriminate; reflexivity).
Qed.

Lemma main_loop_raw_decision_witness :
  action
    (make_navigation_decision init
       (analyze_environment
          (vision_data_of
             (NavigationVisionSystem.navigation_data (NavigationVisionSystem.init 0)))
          (SensorManager.sensor_data_of
             (SensorManager.read_sensor_data SensorManager.init 400))))
  <> "TRAFFIC_STOP".
Proof.
  apply (main_loop_raw_decision init
           (NavigationVisionSystem.navigation_data (NavigationVisionSystem.init 0))
           400).
  reflexivity.
Defined.

End NavigationProcessFacts.

(** ** More on the temporal filters of the vision system *)

Module VisionFiltersFacts.
Import NavigationVisionSystem SignsAndLights VisionInvariants.

(** A push keeps the most recent [n] observations. *)
Lemma push_history_skipn {A : Type} (n : nat) (x : A) (h : list A) :
  (List.length h <= n)%nat ->
  push_history n x h = skipn (List.length h + 1 - n) (h ++ [x]).
Proof.
  intros Hle. unfold push_history.
  rewrite length_app. cbn [List.length].
  destruct (Nat.ltb_spec n (List.length h + 1)) as [Hlt|Hge].
  - replace (List.length h + 1 - n)%nat with 1%nat by lia.
    destruct (h ++ [x])%list; reflexivity.
  - replace (List.length h + 1 - n)%nat with 0%nat by lia. reflexivity.
Qed.

Lemma pushes_skipn {A : Type} (n : nat) (xs h : list A) :
  (List.length h <= n)%nat ->
  fold_left (fun h x => push_history n x h) xs h
  = skipn (List.length h + List.length xs - n) (h ++ xs).
Proof.
  revert h. induction xs as [|x xs IH]; intros h Hle.
  - cbn [fold_left List.length]. rewrite app_nil_r.
    replace (List.length h + 0 - n)%nat with 0%nat by lia. reflexivity.
  - cbn [fold_left].
    rewrite IH by (rewrite (NavigationVisionSystemFacts.push_history_length n x h Hle); lia).
    unfold push_history. rewrite length_app. cbn [List.length].
    destruct (Nat.ltb_spec n (List.length h + 1)) as [Hlt|Hge].
    + assert (Hn : List.length h = n) by lia.
      destruct h as [|y r].
      * cbn [List.length] in Hn. subst n. cbn [app tl List.length].
        rewrite !Nat.add_0_l, !Nat.sub_0_r. reflexivity.
      * cbn [app tl List.length] in *. rewrite length_app. cbn [List.length].
        rewrite <- app_assoc. cbn [app].
        replace (S (List.length r) + S (List.length xs) - n)%nat
          with (S (List.length r + 1 + List.length xs - n))%nat by lia.
        reflexivity.
    + rewrite length_app. cbn [List.length].
      rewrite <- app_assoc. cbn [app]. f_equal. lia.
Qed.

(** After any number of pushes the history holds the most recent
    observations, at most [n] of them. *)
Lemma pushes_length {A : Type} (n : nat) (xs h : list A) :
  (List.length h <= n)%nat ->
  List.length (fold_left (fun h x => push_history n x h) xs h)
  = Nat.min (List.length h + List.length xs) n.
Proof.
  intros Hle. rewrite (pushes_skipn n xs h Hle), length_skipn, length_app. lia.
Qed.

(** Comparisons of [count / len(history)] with the thresholds, in whole
    numbers. *)
Section Ratio.
Context {A : Type}.
Variables (c : nat) (h : list A).
Hypothesis Hne : h <> [].

Lemma ratio_unfold :
  exists p : positive,
    Z.pos p = Z.of_nat (List.length h) /\ ratio c h = (Z.of_nat c # p)%Q.
Proof.
  unfold ratio. destruct h as [|x r]; [congruence|]. cbn [List.length].
  exists (Pos.of_succ_nat (List.length r)). split; [lia|].
  unfold Qdiv, Qinv, Qmult, inject_Z. cbn. f_equal; lia.
Qed.

Lemma ratio_at_least_06 :
  Qle_bool (6 # 10) (ratio c h) = true <-> (3 * List.length h <= 5 * c)%nat.
Proof.
  destruct ratio_unfold as (p & Hp & ->).
  rewrite Qle_bool_iff. unfold Qle. cbn. lia.
Qed.

Lemma ratio_above_06 :
  Py.Qlt_bool (6 # 10) (ratio c h) = true <-> (3 * List.length h < 5 * c)%nat.
Proof.
  destruct ratio_unfold as (p & Hp & ->).
  rewrite PyFacts.Qlt_bool_true. unfold Qlt. cbn. lia.
Qed.

Lemma ratio_above_04 :
  Py.Qlt_bool (4 # 10) (ratio c h) = true <-> (2 * List.length h < 5 * c)%nat.
Proof.
  destruct ratio_unfold as (p & Hp & ->).
  rewrite PyFacts.Qlt_bool_true. unfold Qlt. cbn. lia.
Qed.

Lemma ratio_bounds :
  (c <= List.length h)%nat -> (0 <= ratio c h <= 1)%Q.
Proof.
  intros Hc. destruct ratio_unfold as (p & Hp & ->).
  unfold Qle. cbn. lia.
Qed.

Lemma ratio_one :
  c = List.length h -> (ratio c h == 1)%Q.
Proof.
  intros Hc. destruct ratio_unfold as (p & Hp & ->).
  unfold Qeq. cbn. lia.
Qed.

Lemma ratio_zero :
  c = 0%nat -> (ratio c h == 0)%Q.
Proof.
  intros Hc. destruct ratio_unfold as (p & Hp & ->).
  unfold Qeq. cbn. lia.
Qed.

End Ratio.

(** One step of the lane filter. *)
Lemma filter_direction_step (self : t) (x : string) :
  (0 < history_length self)%nat ->
  exists k,
    In k (push_history (history_length self) x (lane_direction_history self))
    /\ (forall a,
          (count_occ string_dec
             (push_history (history_length self) x (lane_direction_history self)) a
           <= count_occ string_dec
                (push_history (history_length self) x (lane_direction_history self))
                k)%nat)
    /\ filter_direction x self
       = Some (set_lane
                 (ratio
                    (count_occ string_dec
                       (push_history (history_length self) x
                          (lane_direction_history self)) k)
                    (push_history (history_length self) x
                       (lane_direction_history self)))
                 (if Qle_bool (6 # 10)
                       (ratio
                          (count_occ string_dec
                             (push_history (history_length self) x
                                (lane_direction_history self)) k)
                          (push_history (history_length self) x
                             (lane_direction_history self)))
                  then k else current_direction self)
                 (set_lane_direction_history
                    (push_history (history_length self) x
                       (lane_direction_history self))
                    self)).
Proof.
  intros Hpos. unfold filter_direction.
  set (h := push_history (history_length self) x (lane_direction_history self)).
  assert (Hne : lane_direction_history (set_lane_direction_history h self) <> [])
    by (apply NavigationVisionSystemFacts.push_history_not_nil; exact Hpos).
  destruct (NavigationVisionSystemFacts.update_direction_spec _ Hne)
    as (k & Hin & Hle & Hupd).
  exists k. split; [exact Hin|]. split; [exact Hle|]. exact Hupd.
Qed.

(** X6.  One step of the lane filter always returns.  The stable direction
    changes only to a direction that holds at least 60% of the stored
    history, and such a direction occurs strictly more often than any other,
    so a tie between directions never decides anything; when no direction
    reaches 60% the previous stable direction is kept. *)
Theorem stable_direction_needs_consensus (self : t) (x : string) :
  (0 < history_length self)%nat ->
  exists self',
    filter_direction x self = Some self'
    /\ lane_direction_history self'
       = push_history (history_length self) x (lane_direction_history self)
    /\ ((In (current_direction self') (lane_direction_history self')
         /\ (3 * List.length (lane_direction_history self')
             <= 5 * count_occ string_dec (lane_direction_history self')
                      (current_direction self'))%nat
         /\ forall a, a <> current_direction self' ->
              (count_occ string_dec (lane_direction_history self') a
               < count_occ string_dec (lane_direction_history self')
                   (current_direction self'))%nat)
        \/ (current_direction self' = current_direction self
            /\ forall a,
                 (5 * count_occ string_dec (lane_direction_history self') a
                  < 3 * List.length (lane_direction_history self'))%nat))
    /\ (forall a,
          (3 * List.length (lane_direction_history self')
           <= 5 * count_occ string_dec (lane_direction_history self') a)%nat ->
          current_direction self' = a).
Proof.
  intros Hpos.
  destruct (filter_direction_step self x Hpos) as (k & Hin & Hle & Hrun).
  set (h := push_history (history_length self) x (lane_direction_history self)) in *.
  assert (Hne : h <> [])
    by (apply NavigationVisionSystemFacts.push_history_not_nil; exact Hpos).
  eexists. split; [exact Hrun|].
  cbn [lane_direction_history current_direction set_lane set_lane_direction_history].
  split; [reflexivity|].
  destruct (Qle_bool (6 # 10) (ratio (count_occ string_dec h k) h)) eqn:E.
  - apply (ratio_at_least_06 _ h Hne) in E. split.
    + left. split; [exact Hin|]. split; [exact E|].
      intros a Ha. now apply NavigationProcessFacts.consensus_is_unique.
    + intros a Ha. destruct (string_dec k a) as [|Hne']; [assumption|exfalso].
      pose proof (NavigationProcessFacts.count_occ_two h k a Hne').
      apply (count_occ_In string_dec) in Hin. lia.
  - assert (Hno : ~ (3 * List.length h <= 5 * count_occ string_dec h k)%nat).
    { intros H. apply (ratio_at_least_06 _ h Hne) in H. congruence. }
    split.
    + right. split; [reflexivity|]. intros a. specialize (Hle a). lia.
    + intros a Ha. specialize (Hle a). lia.
Qed.

Lemma stable_direction_needs_consensus_witness :
  exists self',
    filter_direction "LEFT" (init 0) = Some self'
    /\ lane_direction_history self' = ["LEFT"]
    /\ current_direction self' = "LEFT".
Proof.
  destruct (stable_direction_needs_consensus (init 0) "LEFT")
    as (self' & Hrun & Hh & _ & Hyes); [simpl; lia|].
  exists self'. split; [exact Hrun|]. split; [exact Hh|].
  apply Hyes. rewrite Hh. simpl. lia.
Defined.

Lemma skipn_repeat {A : Type} (d : A) (k n : nat) :
  skipn k (repeat d n) = repeat d (n - k).
Proof.
  revert k. induction n as [|n IH]; intros [|k]; simpl; auto.
Qed.

(** Pushing the same value until the capacity is reached leaves nothing
    else. *)
Lemma pushes_repeat_full {A : Type} (N n : nat) (d : A) (h : list A) :
  (List.length h <= N)%nat ->
  (N <= S n)%nat ->
  push_history N d (fold_left (fun h x => push_history N x h) (repeat d n) h)
  = repeat d N.
Proof.
  intros Hlen Hn.
  assert (H : fold_left (fun h x => push_history N x h) (repeat d n ++ [d]) h
              = push_history N d
                  (fold_left (fun h x => push_history N x h) (repeat d n) h))
    by (rewrite fold_left_app; reflexivity).
  rewrite <- H, (pushes_skipn N _ h Hlen), length_app, repeat_length.
  cbn [List.length]. rewrite skipn_app, skipn_all2 by lia. cbn [app].
  rewrite <- (repeat_cons n d). change (d :: repeat d n) with (repeat d (S n)).
  rewrite skipn_repeat. f_equal. lia.
Qed.

(** The lane filter over a sequence of raw directions: it returns, and the
    history is what the pushes make of it. *)
Lemma iterate_filter_direction (xs : list string) (self : t) :
  (0 < history_length self)%nat ->
  exists self',
    iterate filter_direction xs self = Some self'
    /\ history_length self' = history_length self
    /\ lane_direction_history self'
       = fold_left (fun h x => push_history (history_length self) x h) xs
           (lane_direction_history self)
    /\ (xs = [] -> self' = self).
Proof.
  revert self. induction xs as [|x xs IH]; intros self Hpos.
  - exists self. repeat split.
  - destruct (filter_direction_step self x Hpos) as (k & _ & _ & Hrun).
    cbn [iterate]. rewrite Hrun.
    match goal with
    | |- context [iterate _ _ ?s1] =>
        destruct (IH s1) as (self' & Hit & Hn & Hh & _); [exact Hpos|]
    end.
    exists self'. split; [exact Hit|]. split; [exact Hn|].
    split; [exact Hh | discriminate].
Qed.

Lemma iterate_app {X S : Type} (step : X -> S -> option S) (xs ys : list X) (s : S) :
  iterate step (xs ++ ys) s
  = match iterate step xs s with
    | None => None
    | Some s' => iterate step ys s'
    end.
Proof.
  revert s. induction xs as [|x xs IH]; intros s; cbn [app iterate]; [reflexivity|].
  destruct (step x s); [apply IH | reflexivity].
Qed.

(** X7.  Feeding the lane filter the same raw direction at least as many
    times as the history holds entries fills the history with it, brings the
    confidence to 1 and makes it the stable direction, whatever the state
    before. *)
Theorem repeated_direction_becomes_stable (self : t) (d : string) (n : nat) :
  (0 < history_length self)%nat ->
  (List.length (lane_direction_history self) <= history_length self)%nat ->
  (history_length self <= n)%nat ->
  exists self',
    iterate filter_direction (repeat d n) self = Some self'
    /\ lane_direction_history self' = repeat d (history_length self)
    /\ (lane_confidence self' == 1)%Q
    /\ current_direction self' = d.
Proof.
  intros Hpos Hlen Hn.
  destruct n as [|n]; [lia|].
  replace (repeat d (S n)) with (repeat d n ++ [d])%list
    by (symmetry; apply (repeat_cons n d)).
  rewrite iterate_app.
  destruct (iterate_filter_direction (repeat d n) self Hpos)
    as (s1 & Hit & HN & Hh & _).
  rewrite Hit. cbn [iterate].
  assert (Hpos1 : (0 < history_length s1)%nat) by lia.
  destruct (filter_direction_step s1 d Hpos1) as (k & Hin & Hle & Hrun).
  rewrite Hrun.
  assert (Hfinal : push_history (history_length s1) d (lane_direction_history s1)
                   = repeat d (history_length self)).
  { rewrite HN, Hh. apply pushes_repeat_full; assumption. }
  rewrite Hfinal in *.
  assert (Hk : k = d) by (apply repeat_spec in Hin; exact Hin).
  subst k.
  assert (Hcount : count_occ string_dec (repeat d (history_length self)) d
                   = history_length self)
    by (apply count_occ_repeat_eq; reflexivity).
  rewrite Hcount.
  assert (Hne : repeat d (history_length self) <> [])
    by (destruct (history_length self); [lia | discriminate]).
  assert (Hyes : Qle_bool (6 # 10)
                   (ratio (history_length self) (repeat d (history_length self)))
                 = true).
  { apply (ratio_at_least_06 _ _ Hne). rewrite repeat_length. lia. }
  rewrite Hyes.
  eexists. split; [reflexivity|].
  cbn [lane_direction_history lane_confidence current_direction set_lane
         set_lane_direction_history].
  split; [reflexivity|]. split; [|reflexivity].
  apply (ratio_one _ _ Hne). now rewrite repeat_length.
Qed.

Lemma repeated_direction_becomes_stable_witness :
  exists self',
    iterate filter_direction (repeat "RIGHT" 7) (init 0) = Some self'
    /\ lane_direction_history self' = repeat "RIGHT" 5
    /\ (lane_confidence self' == 1)%Q
    /\ current_direction self' = "RIGHT".
Proof.
  apply (repeated_direction_becomes_stable (init 0) "RIGHT" 7); simpl; lia.
Defined.

(** The history of the stop-sign filter over a sequence of frames. *)
Lemma stop_sign_history (n : nat) (bs : list bool) (f : stop_filter) :
  stop_detection_history (fold_left (fun f b => detect_stop_sign n b f) bs f)
  = fold_left (fun h b => push_history n b h) bs (stop_detection_history f).
Proof.
  revert f. induction bs as [|b bs IH]; intros f; cbn [fold_left]; [reflexivity|].
  rewrite IH. f_equal. unfold detect_stop_sign.
  destruct (push_history n b (stop_detection_history f)); reflexivity.
Qed.

Lemma count_true_repeat (b : bool) (n : nat) :
  count_occ bool_dec (repeat b n) true = if b then n else 0%nat.
Proof.
  induction n as [|n IH]; [now destruct b|].
  cbn [repeat count_occ]. destruct b; destruct (bool_dec _ _); try congruence; lia.
Qed.

(** X8.  The stop-sign filter reports a sign exactly when strictly more than
    60% of the stored frames show one (with five stored frames: at least
    four; three of five are not enough, unlike for the lane direction).  Fed
    the same outcome at least as many times as the history holds entries, it
    ends with that outcome as its verdict, at confidence 1 for a sign seen and
    0 for none. *)
Theorem stop_sign_filter_verdict
  (n : nat) (current_detection : bool) (self : stop_filter) (m : nat) :
  (0 < n)%nat ->
  (List.length (stop_detection_history self) <= n)%nat ->
  (n <= m)%nat ->
  (stop_sign_detected (detect_stop_sign n current_detection self) = true
   <-> (3 * List.length
              (stop_detection_history (detect_stop_sign n current_detection self))
        < 5 * count_occ bool_dec
                (stop_detection_history (detect_stop_sign n current_detection self))
                true)%nat)
  /\ stop_detection_history
       (fold_left (fun f b => detect_stop_sign n b f) (repeat current_detection m) self)
     = repeat current_detection n
  /\ stop_sign_detected
       (fold_left (fun f b => detect_stop_sign n b f) (repeat current_detection m) self)
     = current_detection
  /\ (stop_detection_confidence
        (fold_left (fun f b => detect_stop_sign n b f) (repeat current_detection m)
           self)
      == if current_detection then 1 else 0)%Q.
Proof.
  intros Hpos Hlen Hm. split.
  - unfold detect_stop_sign.
    pose proof (NavigationVisionSystemFacts.push_history_not_nil n current_detection
                  (stop_detection_history self) Hpos) as Hne.
    destruct (push_history n current_detection (stop_detection_history self))
      as [|x r] eqn:E; [congruence|].
    cbn [stop_sign_detected stop_detection_history].
    rewrite NavigationVisionSystemFacts.sum_bools_count.
    apply ratio_above_06. discriminate.
  - destruct m as [|m]; [lia|].
    replace (repeat current_detection (S m))
      with (repeat current_detection m ++ [current_detection])%list
      by (symmetry; apply (repeat_cons m current_detection)).
    rewrite fold_left_app. cbn [fold_left].
    set (f1 := fold_left (fun f b => detect_stop_sign n b f)
                 (repeat current_detection m) self).
    assert (Hh : push_history n current_detection (stop_detection_history f1)
                 = repeat current_detection n).
    { unfold f1. rewrite stop_sign_history. now apply pushes_repeat_full. }
    unfold detect_stop_sign. rewrite Hh.
    destruct n as [|n']; [lia|].
    cbn [repeat stop_sign_detected stop_detection_history stop_detection_confidence].
    change (current_detection :: repeat current_detection n')
      with (repeat current_detection (S n')).
    assert (Hne : repeat current_detection (S n') <> []) by discriminate.
    rewrite NavigationVisionSystemFacts.sum_bools_count, count_true_repeat.
    split; [reflexivity|].
    destruct current_detection.
    + split.
      * apply (ratio_above_06 _ _ Hne). rewrite repeat_length. lia.
      * apply (ratio_one _ _ Hne). now rewrite repeat_length.
    + split.
      * destruct (Py.Qlt_bool _ _) eqn:Q; [|reflexivity].
        apply (ratio_above_06 _ _ Hne) in Q. lia.
      * now apply (ratio_zero _ _ Hne).
Qed.

Lemma stop_sign_filter_verdict_witness :
  stop_sign_detected
    (fold_left (fun f b => detect_stop_sign 5 b f) (repeat true 6)
       MoreExamples.no_stop_sign_yet)
  = true.
Proof.
  apply (stop_sign_filter_verdict 5 true MoreExamples.no_stop_sign_yet 6);
    simpl; lia.
Defined.

(** X9.  With the capacity 5 of [__init__], three processed frames in a row
    that agree on whether the path is clear decide the obstacle flag, whatever
    the history held before: three blocked frames set it, three clear frames
    clear it.  The flag is recomputed at every frame and never merely kept. *)
Theorem three_equal_frames_decide_the_obstacle_flag
  (self : t) (path_clear : bool) (d1 d2 d3 : Z) (t1 t2 t3 : Q) :
  history_length self = 5%nat ->
  (List.length (obstacle_history self) <= 5)%nat ->
  obstacle_detected
    (_update_navigation_data path_clear d3 t3
       (_update_navigation_data path_clear d2 t2
          (_update_navigation_data path_clear d1 t1 self)))
  = negb path_clear.
Proof.
  intros Hn Hlen.
  unfold _update_navigation_data.
  cbn [obstacle_detected obstacle_history history_length]. rewrite Hn.
  remember (obstacle_history self) as h eqn:Hh. clear Hh.
  destruct h as [|a [|b [|c [|d [|e [|f r]]]]]];
    [ | | | | | | cbn [List.length] in Hlen; lia ];
    repeat match goal with x : bool |- _ => destruct x end;
    vm_compute; reflexivity.
Qed.

Lemma three_equal_frames_decide_the_obstacle_flag_witness :
  obstacle_detected
    (_update_navigation_data false 120 3
       (_update_navigation_data false 130 2
          (_update_navigation_data false 140 1 (init 0))))
  = true.
Proof.
  apply (three_equal_frames_decide_the_obstacle_flag
           (init 0) false 140 130 120 1 2 3); simpl; lia.
Defined.

End VisionFiltersFacts.

(** ** The vision system over a sequence of frames *)

Module VisionFramesFacts.
Import NavigationVisionSystem SignsAndLights VisionInvariants.

Lemma half_of_odd (k : nat) :
  (Z.of_nat k + 1) mod 2 <> 0 -> (S k / 2 = k / 2)%nat.
Proof.
  intros H.
  pose proof (Nat.div_mod_eq (S k) 2). pose proof (Nat.div_mod_eq k 2).
  pose proof (Nat.mod_upper_bound (S k) 2). pose proof (Nat.mod_upper_bound k 2).
  assert (Z.of_nat k + 1 = 2 * ((Z.of_nat k + 1) / 2) + (Z.of_nat k + 1) mod 2)
    by (apply Z.div_mod; lia).
  pose proof (Z.mod_pos_bound (Z.of_nat k + 1) 2).
  lia.
Qed.

Lemma half_of_even (k : nat) :
  (Z.of_nat k + 1) mod 2 = 0 -> (S k / 2 = S (k / 2))%nat.
Proof.
  intros H.
  pose proof (Nat.div_mod_eq (S k) 2). pose proof (Nat.div_mod_eq k 2).
  pose proof (Nat.mod_upper_bound (S k) 2). pose proof (Nat.mod_upper_bound k 2).
  assert (Z.of_nat k + 1 = 2 * ((Z.of_nat k + 1) / 2) + (Z.of_nat k + 1) mod 2)
    by (apply Z.div_mod; lia).
  lia.
Qed.

(** [get_navigation_direction] returns one of five directions. *)
Lemma get_navigation_direction_is_direction (cx c threshold : Z) :
  is_direction (get_navigation_direction cx c threshold) = true.
Proof.
  unfold get_navigation_direction.
  repeat match goal with
         | |- context [if ?b then _ else _] => destruct b
         end; reflexivity.
Qed.

Lemma forallb_push_history {A : Type} (p : A -> bool) (n : nat) (x : A) (h : list A) :
  forallb p h = true -> p x = true -> forallb p (push_history n x h) = true.
Proof.
  intros Hh Hx. unfold push_history.
  assert (Hall : forallb p (h ++ [x]) = true)
    by (rewrite forallb_app, Hh; cbn; now rewrite Hx).
  destruct (_ <? _)%nat; [|exact Hall].
  destruct (h ++ [x])%list as [|y r]; [reflexivity|].
  cbn in Hall. apply andb_prop in Hall. exact (proj2 Hall).
Qed.

Lemma sum_bools_le (h : list bool) : (sum_bools h <= List.length h)%nat.
Proof. unfold sum_bools. apply filter_length_le. Qed.

(** A processed frame, seen from the state in which the counter has been
    advanced. *)
Lemma processed_frame
  (self : t) (detected_direction : string) (path_clear : bool)
  (obstacle_distance : Z) (now : Q) (L : nat) :
  history_length self = 5%nat ->
  List.length (lane_direction_history self) = Nat.min L 5 ->
  List.length (obstacle_history self) = Nat.min L 5 ->
  is_direction (current_direction self) = true ->
  forallb is_direction (lane_direction_history self) = true ->
  is_direction detected_direction = true ->
  exists filtered,
    filter_direction detected_direction self = Some filtered
    /\ skip_frames (_update_navigation_data path_clear obstacle_distance now filtered)
       = skip_frames self
    /\ history_length (_update_navigation_data path_clear obstacle_distance now filtered)
       = 5%nat
    /\ frame_skip_counter
         (_update_navigation_data path_clear obstacle_distance now filtered)
       = frame_skip_counter self
    /\ List.length
         (lane_direction_history
            (_update_navigation_data path_clear obstacle_distance now filtered))
       = Nat.min (S L) 5
    /\ List.length
         (obstacle_history
            (_update_navigation_data path_clear obstacle_distance now filtered))
       = Nat.min (S L) 5
    /\ (0 <= lane_confidence
               (_update_navigation_data path_clear obstacle_distance now filtered)
        <= 1)%Q
    /\ (0 <= obstacle_confidence
               (_update_navigation_data path_clear obstacle_distance now filtered)
        <= 1)%Q
    /\ is_direction
         (current_direction
            (_update_navigation_data path_clear obstacle_distance now filtered))
       = true
    /\ forallb is_direction
         (lane_direction_history
            (_update_navigation_data path_clear obstacle_distance now filtered))
       = true
    /\ is_direction
         (NavigationData.lane_direction
            (navigation_data
               (_update_navigation_data path_clear obstacle_distance now filtered)))
       = true.
Proof.
  intros Hcap Hl Ho Hcd Hall Hdd.
  assert (Hpos : (0 < history_length self)%nat) by lia.
  destruct (VisionFiltersFacts.filter_direction_step self detected_direction Hpos)
    as (k & Hin & Hcount & Hrun).
  eexists. split; [exact Hrun|].
  rewrite Hcap in *.
  set (h := push_history 5 detected_direction (lane_direction_history self)) in *.
  assert (Hh : forallb is_direction h = true) by now apply forallb_push_history.
  assert (Hk : is_direction k = true)
    by (rewrite forallb_forall in Hh; now apply Hh).
  assert (Hne : h <> [])
    by (apply NavigationVisionSystemFacts.push_history_not_nil; lia).
  assert (Hlh : List.length h = Nat.min (S L) 5).
  { unfold h. rewrite NavigationVisionSystemFacts.push_history_length; lia. }
  unfold _update_navigation_data.
  cbn [skip_frames history_length frame_skip_counter lane_direction_history
         obstacle_history lane_confidence obstacle_confidence current_direction
         navigation_data NavigationData.lane_direction set_lane
         set_lane_direction_history].
  rewrite Hcap.
  set (o := push_history 5 (negb path_clear) (obstacle_history self)).
  assert (Hlo : List.length o = Nat.min (S L) 5).
  { unfold o. rewrite NavigationVisionSystemFacts.push_history_length; lia. }
  assert (Hdir : is_direction
                   (if Qle_bool (6 # 10) (ratio (count_occ string_dec h k) h)
                    then k else current_direction self) = true)
    by (destruct (Qle_bool _ _); assumption).
  repeat split; try assumption; try reflexivity.
  - apply (VisionFiltersFacts.ratio_bounds _ h Hne). apply count_occ_bound.
  - apply (VisionFiltersFacts.ratio_bounds _ h Hne). apply count_occ_bound.
  - clear Hlo. destruct o as [|b r]; [apply Qle_refl|].
    apply VisionFiltersFacts.ratio_bounds; [discriminate | apply sum_bools_le].
  - clear Hlo. destruct o as [|b r]; [discriminate|].
    apply VisionFiltersFacts.ratio_bounds; [discriminate | apply sum_bools_le].
Qed.

(** One call of [process_navigation_frame]. *)
Lemma after_calls_step (k : nat) (self : t) (frame : frame_analysis) (now : Q) :
  after_calls k self ->
  exists data self',
    process_navigation_frame self frame now = Some (data, self')
    /\ data = navigation_data self'
    /\ after_calls (S k) self'.
Proof.
  intros (Hskip & Hcap & Hcnt & Hl & Ho & Hlc & Hoc & Hcd & Hall & Hnd).
  unfold process_navigation_frame.
  cbn [skip_frames frame_skip_counter set_frame_skip_counter].
  rewrite Hskip, Hcnt. change (2 =? 0) with false. cbv iota.
  destruct (Z.eqb_spec ((Z.of_nat k + 1) mod 2) 0) as [Heven|Hodd]; cbn [negb].
  - (* a processed frame *)
    set (counted := set_frame_skip_counter (Z.of_nat k + 1) self).
    assert (Hstep : forall dd pc od,
               is_direction dd = true ->
               exists filtered,
                 filter_direction dd counted = Some filtered
                 /\ after_calls (S k) (_update_navigation_data pc od now filtered)).
    { intros dd pc od Hdd.
      destruct (processed_frame counted dd pc od now (k / 2))
        as (filtered & Hrun & H1 & H2 & H3 & H4 & H5 & H6 & H7 & H8 & H9 & H10);
        try assumption.
      exists filtered. split; [exact Hrun|].
      unfold after_calls. rewrite (half_of_even k Heven).
      refine (conj _ (conj H2 (conj _ (conj H4 (conj H5 (conj H6 (conj H7
                (conj H8 (conj H9 H10))))))))).
      - rewrite H1. exact Hskip.
      - rewrite H3. unfold counted. cbn [frame_skip_counter set_frame_skip_counter].
        lia. }
    destruct (navigation_path frame) as [[[cx cy]|]|].
    + destruct (Hstep (get_navigation_direction cx (frame_width frame / 2) 40)
                  (path_obstacle_pixels frame =? 0) (path_obstacle_pixels frame)
                  (get_navigation_direction_is_direction _ _ _))
        as (filtered & -> & Hinv).
      eexists. eexists. split; [reflexivity|]. split; [reflexivity | exact Hinv].
    + destruct (Hstep "STRAIGHT" true 0 eq_refl) as (filtered & -> & Hinv).
      eexists. eexists. split; [reflexivity|]. split; [reflexivity | exact Hinv].
    + destruct (Hstep "STRAIGHT" true 0 eq_refl) as (filtered & -> & Hinv).
      eexists. eexists. split; [reflexivity|]. split; [reflexivity | exact Hinv].
  - (* a skipped frame *)
    eexists. eexists. split; [reflexivity|]. split; [reflexivity|].
    unfold after_calls. rewrite (half_of_odd k Hodd).
    cbn [skip_frames history_length frame_skip_counter lane_direction_history
           obstacle_history lane_confidence obstacle_confidence current_direction
           navigation_data set_frame_skip_counter].
    refine (conj Hskip (conj Hcap (conj _ (conj Hl (conj Ho (conj Hlc (conj Hoc
              (conj Hcd (conj Hall Hnd))))))))).
    lia.
Qed.

Lemma after_calls_init (now : Q) : after_calls 0 (init now).
Proof.
  unfold after_calls. cbn. repeat split; try reflexivity; discriminate.
Qed.

(** Any number of calls, from a state reached after [k] calls. *)
Lemma after_calls_run (frames : list (frame_analysis * Q)) (k : nat) (self : t) :
  after_calls k self ->
  exists out self',
    process_frames self frames = Some (out, self')
    /\ List.length out = List.length frames
    /\ after_calls (k + List.length frames) self'
    /\ Forall (fun data => is_direction (NavigationData.lane_direction data) = true)
         out.
Proof.
  revert k self. induction frames as [|[frame now] frames IH]; intros k self Hinv.
  - exists [], self. cbn [process_frames List.length]. rewrite Nat.add_0_r.
    split; [reflexivity|]. split; [reflexivity|]. split; [exact Hinv | constructor].
  - destruct (after_calls_step k self frame now Hinv) as (data & s1 & Hrun & Hd & H1).
    destruct (IH (S k) s1 H1) as (out & s2 & Hruns & Hlen & H2 & Hall).
    exists (data :: out), s2. cbn [process_frames]. rewrite Hrun, Hruns.
    cbn [List.length]. rewrite Nat.add_succ_r.
    split; [reflexivity|]. split; [now rewrite Hlen|]. split; [exact H2|].
    constructor; [|exact Hall].
    subst data. apply H1.
Qed.

(** X10.  A vision system made by [__init__] never raises in
    [process_navigation_frame], whatever the frames.  After [m] calls the
    counter stands at [m] and exactly every second call has been processed:
    the lane-direction and the obstacle history each hold [min(m // 2, 5)]
    entries, so neither ever exceeds the capacity 5. *)
Theorem every_second_frame_is_processed
  (now : Q) (frames : list (frame_analysis * Q)) :
  exists out self',
    process_frames (init now) frames = Some (out, self')
    /\ List.length out = List.length frames
    /\ frame_skip_counter self' = Z.of_nat (List.length frames)
    /\ List.length (lane_direction_history self')
       = Nat.min (List.length frames / 2) 5
    /\ List.length (obstacle_history self')
       = Nat.min (List.length frames / 2) 5.
Proof.
  destruct (after_calls_run frames 0 (init now) (after_calls_init now))
    as (out & self' & Hrun & Hlen & Hinv & _).
  exists out, self'. cbn [Nat.add] in Hinv.
  destruct Hinv as (_ & _ & Hcnt & Hl & Ho & _).
  repeat split; assumption.
Qed.

(** X11.  Whatever the frames, a vision system made by [__init__] reports a
    lane direction among STRAIGHT, LEFT, RIGHT, SHARP_LEFT and SHARP_RIGHT in
    every [navigation_data] it returns, never UNKNOWN, and its lane and
    obstacle confidences stay between 0 and 1. *)
Theorem reported_direction_is_never_unknown
  (now : Q) (frames : list (frame_analysis * Q)) :
  exists out self',
    process_frames (init now) frames = Some (out, self')
    /\ Forall (fun data => is_direction (NavigationData.lane_direction data) = true
                          /\ NavigationData.lane_direction data <> "UNKNOWN")
         out
    /\ is_direction (current_direction self') = true
    /\ (0 <= lane_confidence self' <= 1)%Q
    /\ (0 <= obstacle_confidence self' <= 1)%Q.
Proof.
  destruct (after_calls_run frames 0 (init now) (after_calls_init now))
    as (out & self' & Hrun & Hlen & Hinv & Hall).
  exists out, self'.
  destruct Hinv as (_ & _ & _ & _ & _ & Hlc & Hoc & Hcd & _).
  repeat split; try assumption; try apply Hlc; try apply Hoc.
  eapply Forall_impl; [|exact Hall].
  intros data Hd. cbv beta in Hd. split; [exact Hd|].
  intros Hu. rewrite Hu in Hd. discriminate.
Qed.

End VisionFramesFacts.

(** ** Geometry of the lane direction and tracking of traffic lights *)

Module VisionGeometryFacts.
Import NavigationVisionSystem SignsAndLights VisionInvariants.

(** X12.  For a non-negative threshold and a centroid whose distance from the
    image centre is not exactly the threshold, [get_navigation_direction] is
    mirror symmetric: the centroid [o] pixels left of the centre gets the
    mirror image of the direction given to the centroid [o] pixels right of
    it. *)
Theorem direction_is_mirror_symmetric_off_the_boundary (c o threshold : Z) :
  0 <= threshold ->
  Z.abs o <> threshold ->
  get_navigation_direction (c - o) c threshold
  = mirror (get_navigation_direction (c + o) c threshold).
Proof.
  intros Ht Ho. unfold get_navigation_direction.
  replace (c - o - c) with (- o) by lia.
  replace (c + o - c) with o by lia.
  rewrite Z.abs_opp.
  destruct (Z.ltb_spec (Z.abs o) threshold); [reflexivity|].
  destruct (Z.ltb_spec (- o) (- threshold)), (Z.ltb_spec o (- threshold));
    try lia;
    destruct (Py.Qlt_bool _ _); reflexivity.
Qed.

Lemma direction_is_mirror_symmetric_off_the_boundary_witness :
  get_navigation_direction (320 - 100) 320 40
  = mirror (get_navigation_direction (320 + 100) 320 40).
Proof.
  apply (direction_is_mirror_symmetric_off_the_boundary 320 100 40); lia.
Defined.

End VisionGeometryFacts.

(** ** Tracking of traffic lights *)

Module LightTrackingFacts.
Import SignsAndLights VisionInvariants.

(** The index chosen by the inner loop is a fresh index of [new_lights]. *)
Lemma best_match_fresh
  (prev : light) (new_lights : list light) (used_new : list nat) (max_distance : Z)
  (i : nat) :
  best_match prev new_lights used_new max_distance = Some i ->
  (i < List.length new_lights)%nat /\ ~ In i used_new.
Proof.
  unfold best_match.
  assert (Hentries : Forall (fun e : nat * light =>
                               (fst e < List.length new_lights)%nat)
                       (enumerate new_lights)).
  { unfold enumerate. apply Forall_forall. intros [j l] Hin.
    apply in_combine_l in Hin. apply in_seq in Hin. cbn. lia. }
  revert Hentries.
  generalize (enumerate new_lights) as entries.
  assert (Hstart : forall j, snd (@None Z, @None nat) = Some j ->
                     (j < List.length new_lights)%nat /\ ~ In j used_new)
    by discriminate.
  revert Hstart. generalize (@None Z, @None nat) as state.
  intros state Hstate entries. revert state Hstate.
  induction entries as [|[j l] entries IH]; intros state Hstate Hall Hres.
  - cbn in Hres. now apply Hstate.
  - cbn [fold_left] in Hres. inversion Hall as [|? ? Hj Hrest]; subst.
    eapply IH; [|exact Hrest|exact Hres].
    destruct state as [min_dist best].
    destruct (existsb (Nat.eqb j) used_new) eqn:Hused; [exact Hstate|].
    destruct (_ && _ && _); [|exact Hstate].
    intros j' Hj'. cbn in Hj'. injection Hj' as <-. split; [exact Hj|].
    intros Hin. assert (existsb (Nat.eqb j) used_new = true); [|congruence].
    apply existsb_exists. exists j. split; [exact Hin | apply Nat.eqb_refl].
Qed.

(** The entries of [enumerate] pair each index with its element. *)
Lemma enumerate_nth (new_lights suffix : list light) (s : nat) :
  (forall j, nth_error new_lights (s + j) = nth_error suffix j) ->
  forall i l,
    In (i, l) (combine (seq s (List.length suffix)) suffix) ->
    nth_error new_lights i = Some l.
Proof.
  revert s. induction suffix as [|x suffix IH]; intros s Hnth i l Hin; [destruct Hin|].
  cbn [List.length seq combine] in Hin. destruct Hin as [Heq | Hin].
  - injection Heq as <- <-. specialize (Hnth 0%nat).
    now rewrite Nat.add_0_r in Hnth.
  - apply (IH (S s)); [|exact Hin].
    intros j. specialize (Hnth (S j)). cbn in Hnth.
    now rewrite Nat.add_succ_r in Hnth.
Qed.

(** The light chosen by the inner loop has the colour of [prev] and is less
    than [max_distance] away from it. *)
Lemma best_match_sound
  (prev : light) (new_lights : list light) (used_new : list nat) (max_distance : Z)
  (i : nat) :
  best_match prev new_lights used_new max_distance = Some i ->
  exists l,
    nth_error new_lights i = Some l
    /\ color prev = color l
    /\ 0 < max_distance
    /\ squared_distance (center prev) (center l) < max_distance * max_distance.
Proof.
  unfold best_match.
  assert (Hentries : forall j l, In (j, l) (enumerate new_lights) ->
                                 nth_error new_lights j = Some l).
  { apply (enumerate_nth new_lights new_lights 0). reflexivity. }
  revert Hentries.
  generalize (enumerate new_lights) as entries.
  assert (Hstart : forall j, snd (@None Z, @None nat) = Some j ->
            exists l,
              nth_error new_lights j = Some l
              /\ color prev = color l
              /\ 0 < max_distance
              /\ squared_distance (center prev) (center l)
                 < max_distance * max_distance)
    by discriminate.
  revert Hstart. generalize (@None Z, @None nat) as state.
  intros state Hstate entries. revert state Hstate.
  induction entries as [|[j l] entries IH]; intros state Hstate Hall Hres.
  - cbn in Hres. now apply Hstate.
  - cbn [fold_left] in Hres.
    eapply IH; [| |exact Hres].
    + destruct state as [min_dist best].
      destruct (existsb (Nat.eqb j) used_new); [exact Hstate|].
      destruct (match min_dist with None => true | Some m => _ end) eqn:Hmin;
        cbn [andb]; [|exact Hstate].
      destruct (0 <? max_distance) eqn:Hpos; cbn [andb]; [|exact Hstate].
      destruct (squared_distance (center prev) (center l)
                <? max_distance * max_distance) eqn:Hdist;
        cbn [andb]; [|exact Hstate].
      destruct (String.eqb (color prev) (color l)) eqn:Hcolor; [|exact Hstate].
      intros j' Hj'. cbn in Hj'. injection Hj' as <-.
      exists l. split; [apply Hall; now left|].
      split; [now apply String.eqb_eq|].
      split; [now apply Z.ltb_lt | now apply Z.ltb_lt].
    + intros j' l' Hin. apply Hall. now right.
Qed.

(** The first loop returns; it tracks the lights at the indices it has used,
    each of them once and each matching a previous light, at most one for
    each previous light. *)
Lemma match_previous_spec
  (all_prev prev_lights new_lights : list light) (max_distance : Z)
  (tracked : list light) (used : list nat) :
  incl prev_lights all_prev ->
  NoDup used ->
  (forall i, In i used -> (i < List.length new_lights)%nat) ->
  tracked = picked new_lights used ->
  Forall (matches all_prev max_distance) tracked ->
  exists used',
    match_previous prev_lights new_lights max_distance tracked used
    = Some (picked new_lights used', used')
    /\ NoDup used'
    /\ (forall i, In i used' -> (i < List.length new_lights)%nat)
    /\ Forall (matches all_prev max_distance) (picked new_lights used')
    /\ (List.length used' <= List.length used + List.length prev_lights)%nat.
Proof.
  revert tracked used.
  induction prev_lights as [|prev rest IH]; intros tracked used Hincl Hnd Hin Htr Hm.
  - exists used. subst tracked. cbn [match_previous List.length].
    repeat split; try assumption. lia.
  - assert (Hrest : incl rest all_prev)
      by (intros x Hx; apply Hincl; now right).
    cbn [match_previous].
    destruct (best_match prev new_lights used max_distance) as [i|] eqn:Hbest.
    + destruct (best_match_fresh _ _ _ _ _ Hbest) as [Hi Hfresh].
      destruct (best_match_sound _ _ _ _ _ Hbest)
        as (l & Hnth & Hcolor & Hpos & Hdist).
      rewrite Hnth.
      assert (Hpick : (tracked ++ [l])%list = picked new_lights (used ++ [i])).
      { unfold picked. rewrite flat_map_app. fold (picked new_lights used).
        rewrite <- Htr. cbn [flat_map]. unfold light_at. now rewrite Hnth. }
      destruct (IH (tracked ++ [l])%list (used ++ [i])%list Hrest)
        as (used' & Hrun & Hnd' & Hin' & Hm' & Hlen).
      * apply NoDup_app; [exact Hnd | repeat constructor; intros [] |].
        intros a Ha [<-|[]]. exact (Hfresh Ha).
      * intros a Ha. apply in_app_or in Ha. destruct Ha as [Ha|[<-|[]]]; auto.
      * exact Hpick.
      * apply Forall_app. split; [exact Hm|]. constructor; [|constructor].
        exists prev. split; [apply Hincl; now left|].
        split; [exact Hcolor|]. split; [exact Hpos | exact Hdist].
      * exists used'. split; [exact Hrun|]. split; [exact Hnd'|].
        split; [exact Hin'|]. split; [exact Hm'|].
        rewrite length_app in Hlen. cbn [List.length] in *. lia.
    + destruct (IH tracked used Hrest Hnd Hin Htr Hm)
        as (used' & Hrun & Hnd' & Hin' & Hm' & Hlen).
      exists used'. split; [exact Hrun|]. split; [exact Hnd'|].
      split; [exact Hin'|]. split; [exact Hm'|]. cbn [List.length]. lia.
Qed.

(** The lights of a list, picked index by index. *)
Lemma pick_by_index (new_lights suffix : list light) (s : nat) (p : nat -> bool) :
  (forall j, nth_error new_lights (s + j) = nth_error suffix j) ->
  map snd (filter (fun e : nat * light => p (fst e))
             (combine (seq s (List.length suffix)) suffix))
  = flat_map (light_at new_lights) (filter p (seq s (List.length suffix))).
Proof.
  revert s. induction suffix as [|l suffix IH]; intros s Hnth; [reflexivity|].
  cbn [List.length seq combine filter fst].
  assert (Hrest : forall j, nth_error new_lights (S s + j) = nth_error suffix j).
  { intros j. specialize (Hnth (S j)). cbn in Hnth.
    now rewrite Nat.add_succ_r in Hnth. }
  specialize (IH (S s) Hrest).
  destruct (p s).
  - cbn [map snd flat_map]. rewrite IH.
    replace (light_at new_lights s) with [l]; [reflexivity|].
    unfold light_at. specialize (Hnth 0%nat). rewrite Nat.add_0_r in Hnth.
    now rewrite Hnth.
  - exact IH.
Qed.

Lemma all_by_index (new_lights suffix : list light) (s : nat) :
  (forall j, nth_error new_lights (s + j) = nth_error suffix j) ->
  suffix = flat_map (light_at new_lights) (seq s (List.length suffix)).
Proof.
  revert s. induction suffix as [|l suffix IH]; intros s Hnth; [reflexivity|].
  cbn [List.length seq flat_map].
  replace (light_at new_lights s) with [l].
  - cbn [app]. f_equal. apply IH. intros j. specialize (Hnth (S j)).
    cbn in Hnth. now rewrite Nat.add_succ_r in Hnth.
  - unfold light_at. specialize (Hnth 0%nat). rewrite Nat.add_0_r in Hnth.
    now rewrite Hnth.
Qed.

(** Without a used index, every light is unmatched. *)
Lemma unmatched_nil (new_lights : list light) : unmatched new_lights [] = new_lights.
Proof.
  unfold unmatched, picked. cbn [existsb negb].
  assert (Hfilter : forall l : list nat, filter (fun _ => true) l = l).
  { induction l as [|x l IH]; [reflexivity|]. cbn [filter]. now rewrite IH. }
  rewrite Hfilter. symmetry.
  apply (all_by_index new_lights new_lights 0). reflexivity.
Qed.

(** X13.  [track_lights] never raises and never drops, repeats or invents a
    light.  The tracked lights are the matched new lights followed by the
    unmatched ones: first the lights at the indices [used], no index twice
    and at most one for each previous light, each of them of the colour of a
    previous light and less than [max_distance] away from it; then the
    remaining new lights in their order in [new_lights].  Together they are a
    rearrangement of [new_lights], and the second result is [new_lights]
    itself.  Without previous lights nothing is matched and the tracked
    lights are [new_lights] in their order. *)
Theorem track_lights_rearranges_the_new_lights
  (prev_lights new_lights : list light) (max_distance : Z) :
  exists tracked_lights used,
    track_lights prev_lights new_lights max_distance
    = Some (tracked_lights, new_lights)
    /\ tracked_lights
       = (picked new_lights used ++ unmatched new_lights used)%list
    /\ NoDup used
    /\ (forall i, In i used -> (i < List.length new_lights)%nat)
    /\ (List.length used <= List.length prev_lights)%nat
    /\ Forall (matches prev_lights max_distance) (picked new_lights used)
    /\ Permutation tracked_lights new_lights
    /\ (prev_lights = [] -> used = [] /\ tracked_lights = new_lights).
Proof.
  unfold track_lights.
  destruct prev_lights as [|prev rest].
  { exists new_lights, []. rewrite unmatched_nil.
    split; [reflexivity|]. split; [reflexivity|]. split; [constructor|].
    split; [intros i []|]. split; [apply Nat.le_refl|]. split; [constructor|].
    split; [apply Permutation_refl|]. intros _. split; reflexivity. }
  destruct (match_previous_spec (prev :: rest) (prev :: rest) new_lights
              max_distance [] [])
    as (used & Hrun & Hnd & Hin & Hm & Hlen);
    [apply incl_refl | constructor | intros i [] | reflexivity | constructor |].
  rewrite Hrun.
  assert (Htail :
    map snd (filter (fun entry : nat * light =>
                       negb (existsb (Nat.eqb (fst entry)) used))
               (enumerate new_lights))
    = unmatched new_lights used).
  { unfold enumerate, unmatched, picked.
    exact (pick_by_index new_lights new_lights 0
             (fun i => negb (existsb (Nat.eqb i) used)) (fun _ => eq_refl)). }
  rewrite Htail.
  eexists. exists used. split; [reflexivity|]. split; [reflexivity|].
  split; [exact Hnd|]. split; [exact Hin|]. split; [exact Hlen|].
  split; [exact Hm|]. split; [|discriminate].
  unfold unmatched, picked. rewrite <- flat_map_app.
  assert (Hall : new_lights
                 = flat_map (light_at new_lights) (seq 0 (List.length new_lights)))
    by (apply (all_by_index new_lights new_lights 0); reflexivity).
  rewrite Hall at 3.
  apply Permutation_flat_map.
  apply NoDup_Permutation.
  - apply NoDup_app; [exact Hnd | apply NoDup_filter, seq_NoDup |].
    intros i Hi Hf. apply filter_In in Hf. destruct Hf as [_ Hf].
    apply negb_true_iff in Hf.
    assert (existsb (Nat.eqb i) used = true); [|congruence].
    apply existsb_exists. exists i. split; [exact Hi | apply Nat.eqb_refl].
  - apply seq_NoDup.
  - intros i. rewrite in_app_iff, filter_In, in_seq. split.
    + intros [Hi | [Hi _]]; [specialize (Hin i Hi)|]; lia.
    + intros Hi. destruct (existsb (Nat.eqb i) used) eqn:E.
      * left. apply existsb_exists in E. destruct E as (j & Hj & Hij).
        apply Nat.eqb_eq in Hij. now subst.
      * right. split; [lia | reflexivity].
Qed.

End LightTrackingFacts.

(** ** More on the motor controller: speed limits, smooth transitions, the
    watchdog *)

Module MotorMotionFacts.
Import MotorController Wheels.

Local Open Scope method_scope.

(** One round of the loop of [_smooth_transition] towards a forward target. *)
Lemma approach_forward_round (fuel : nat) (target : Z) (self : t) :
  approach (S fuel) "forward" target self
  = if Z.abs (current_speed self - target) >? acceleration_step self then
      approach fuel "forward" target
        (set_clock (clock self + acceleration_delay self)%Q
           (set_gpio
              (forward_calls
                 (if current_speed self <? target
                  then Z.min target (current_speed self + acceleration_step self)
                  else Z.max target (current_speed self - acceleration_step self))
               ++ gpio self)%list
              (set_current_speed
                 (if current_speed self <? target
                  then Z.min target (current_speed self + acceleration_step self)
                  else Z.max target (current_speed self - acceleration_step self))
                 self)))
    else Some (tt, self).
Proof.
  destruct self. cbn [approach current_speed acceleration_step].
  destruct (_ >? _); reflexivity.
Qed.

(** One round of the deceleration loop. *)
Lemma decelerate_round (fuel : nat) (self : t) :
  decelerate (S fuel) self
  = if current_speed self >? 0 then
      decelerate fuel
        (set_clock (clock self + acceleration_delay self)%Q
           (set_gpio
              (forward_calls (Z.max 0 (current_speed self - acceleration_step self))
               ++ gpio self)%list
              (set_current_speed
                 (Z.max 0 (current_speed self - acceleration_step self)) self)))
    else Some (tt, self).
Proof.
  destruct self. cbn [decelerate current_speed].
  destruct (_ >? _); reflexivity.
Qed.

(** Setting the speed, the log and the clock again overrides what was set. *)
Lemma moved_twice (c c' : Z) (g g' : list gpio_call) (t' t'' : Q) (self : t) :
  set_clock t'' (set_gpio g' (set_current_speed c'
    (set_clock t' (set_gpio g (set_current_speed c self)))))
  = set_clock t'' (set_gpio g' (set_current_speed c' self)).
Proof. destruct self. reflexivity. Qed.

Lemma moved_nowhere (self : t) :
  self = set_clock (clock self) (set_gpio (gpio self)
           (set_current_speed (current_speed self) self)).
Proof. destruct self. reflexivity. Qed.

(** The loop towards a forward target ends when [acceleration_step] is
    positive and the fuel covers the gap: only the speed, the log and the
    clock have changed, the speed has come within one step of the target
    without leaving the interval between the start and the target, and the
    last calls, if any were made, drive all motors forward at that speed. *)
Lemma approach_forward_ends (fuel : nat) (target : Z) (self : t) :
  0 < acceleration_step self ->
  Z.abs (current_speed self - target) <= Z.of_nat fuel ->
  exists c g t',
    approach fuel "forward" target self
    = Some (tt, set_clock t' (set_gpio g (set_current_speed c self)))
    /\ Z.abs (c - target) <= acceleration_step self
    /\ Z.min (current_speed self) target <= c <= Z.max (current_speed self) target
    /\ ((g = gpio self /\ c = current_speed self)
        \/ exists rest, g = (forward_calls c ++ rest)%list).
Proof.
  revert self. induction fuel as [|fuel IH]; intros self Hstep Hgap.
  - exists (current_speed self), (gpio self), (clock self).
    cbn [approach].
    destruct (Z.gtb_spec (Z.abs (current_speed self - target))
                (acceleration_step self)) as [Hgt|Hle]; [lia|].
    rewrite <- moved_nowhere. repeat split; try lia. now left.
  - rewrite approach_forward_round.
    destruct (Z.gtb_spec (Z.abs (current_speed self - target))
                (acceleration_step self)) as [Hgt|Hle].
    + set (c1 := if current_speed self <? target
                 then Z.min target (current_speed self + acceleration_step self)
                 else Z.max target (current_speed self - acceleration_step self)).
      assert (Hc1 : Z.abs (c1 - target) <= Z.of_nat fuel
                    /\ Z.min (current_speed self) target <= c1
                       <= Z.max (current_speed self) target).
      { unfold c1. destruct (Z.ltb_spec (current_speed self) target); lia. }
      match goal with
      | |- context [approach fuel _ _ ?s1] =>
          destruct (IH s1) as (c & g & t' & Hrun & Hnear & Hbetween & Hcalls)
      end.
      * destruct self; exact Hstep.
      * destruct self; cbn [current_speed set_clock set_gpio set_current_speed].
        exact (proj1 Hc1).
      * exists c, g, t'. rewrite Hrun, moved_twice.
        replace (acceleration_step _) with (acceleration_step self) in Hnear
          by (destruct self; reflexivity).
        replace (current_speed (set_clock _ _)) with c1 in Hbetween, Hcalls
          by (destruct self; reflexivity).
        replace (gpio (set_clock _ _)) with (forward_calls c1 ++ gpio self)%list
          in Hcalls by (destruct self; reflexivity).
        repeat split; try lia; try assumption.
        right. destruct Hcalls as [[-> ->]|Hrest]; [now exists (gpio self) | exact Hrest].
    + exists (current_speed self), (gpio self), (clock self).
      rewrite <- moved_nowhere. repeat split; try lia. now left.
Qed.

(** The deceleration loop ends under the same condition, at speed zero or
    below. *)
Lemma decelerate_ends (fuel : nat) (self : t) :
  0 < acceleration_step self ->
  current_speed self <= Z.of_nat fuel ->
  exists c g t',
    decelerate fuel self
    = Some (tt, set_clock t' (set_gpio g (set_current_speed c self)))
    /\ c <= 0.
Proof.
  revert self. induction fuel as [|fuel IH]; intros self Hstep Hgap.
  - exists (current_speed self), (gpio self), (clock self).
    cbn [decelerate].
    destruct (Z.gtb_spec (current_speed self) 0) as [Hgt|Hle]; [lia|].
    rewrite <- moved_nowhere. split; [reflexivity | lia].
  - rewrite decelerate_round.
    destruct (Z.gtb_spec (current_speed self) 0) as [Hgt|Hle].
    + match goal with
      | |- context [decelerate fuel ?s1] =>
          destruct (IH s1) as (c & g & t' & Hrun & Hc)
      end.
      * destruct self; exact Hstep.
      * destruct self; cbn [current_speed set_clock set_gpio set_current_speed
                              acceleration_step] in *. lia.
      * exists c, g, t'. rewrite Hrun, moved_twice. split; [reflexivity | exact Hc].
    + exists (current_speed self), (gpio self), (clock self).
      rewrite <- moved_nowhere. split; [reflexivity | lia].
Qed.

(** X14.  [set_speed_parameters] keeps the speed limits in order: if
    [0 <= min_speed <= max_speed <= 100] holds before, it holds after,
    whatever values are passed, and a default speed that is passed is clamped
    into 0..100.  No motor is commanded. *)
Theorem speed_limits_stay_ordered (default max_speed' min_speed' : option Z) (self : t) :
  0 <= min_speed self ->
  min_speed self <= max_speed self ->
  max_speed self <= 100 ->
  exists self',
    set_speed_parameters default max_speed' min_speed' self = Some (true, self')
    /\ 0 <= min_speed self' <= max_speed self'
    /\ max_speed self' <= 100
    /\ default_speed self'
       = match default with
         | Some v => Z.max 0 (Z.min 100 v)
         | None => default_speed self
         end
    /\ 0 <= match default with
            | Some _ => default_speed self'
            | None => 0
            end <= 100
    /\ gpio self' = gpio self
    /\ current_speed self' = current_speed self
    /\ emergency_stop_active self' = emergency_stop_active self.
Proof.
  intros H0 H1 H2. destruct self.
  cbn [min_speed max_speed] in H0, H1, H2.
  destruct default, max_speed', min_speed'; eexists;
    (split; [reflexivity|]);
    cbn [min_speed max_speed default_speed gpio current_speed emergency_stop_active
           set_min_speed set_max_speed set_default_speed];
    repeat split; lia.
Qed.

Lemma speed_limits_stay_ordered_witness :
  exists self',
    set_speed_parameters (Some 250) (Some 10) (Some 500) Examples.idle_controller
    = Some (true, self')
    /\ 0 <= min_speed self' <= max_speed self'
    /\ max_speed self' <= 100.
Proof.
  destruct (speed_limits_stay_ordered (Some 250) (Some 10) (Some 500)
              Examples.idle_controller)
    as (self' & Hrun & Hmin & Hmax & _); [cbn; lia | cbn; lia | cbn; lia |].
  exists self'. split; [exact Hrun|]. split; [exact Hmin | exact Hmax].
Defined.

(** What a smoothed [all_motors_forward] leaves behind. *)
Lemma all_motors_forward_smooth_spec
  (self : t) (speed : Z) (smooth : option bool) :
  emergency_stop_active self = false ->
  match smooth with Some b => b | None => smooth_control self end = true ->
  0 < acceleration_step self ->
  exists c g t',
    all_motors_forward (Some speed) smooth self
    = Some (true, set_clock t' (set_gpio g (set_current_speed speed self)))
    /\ Z.abs (c - speed) <= acceleration_step self
    /\ Z.min (current_speed self) speed <= c <= Z.max (current_speed self) speed
    /\ ((g = gpio self /\ c = current_speed self)
        \/ (exists rest, g = (forward_calls c ++ rest)%list)
           /\ all_forward g /\ duties g = repeat (Some c) 4).
Proof.
  intros Hfree Hsmooth Hstep.
  destruct (approach_forward_ends
              (Z.to_nat (Z.abs (current_speed self - speed))) speed self Hstep)
    as (c & g & t' & Hrun & Hnear & Hbetween & Hcalls); [lia|].
  exists c, g, t'.
  cbv beta iota zeta delta [all_motors_forward bind gets or_default_speed ret].
  rewrite Hfree, Hsmooth.
  cbv beta iota zeta delta [_smooth_transition bind gets modify ret].
  change (String.eqb "forward" "stop") with false. cbv beta iota.
  rewrite Hrun.
  split; [destruct self; reflexivity|].
  split; [exact Hnear|]. split; [exact Hbetween|].
  destruct Hcalls as [Hnone|[rest ->]]; [now left | right].
  split; [now exists rest|]. split; reflexivity.
Qed.



(** What [all_motors_stop] leaves behind. *)
Lemma all_motors_stop_spec (self : t) (immediate : bool) :
  0 < acceleration_step self ->
  exists self',
    all_motors_stop immediate self = Some (true, self')
    /\ current_speed self' = 0
    /\ all_stopped (gpio self')
    /\ MotorState.current_action (motor_state self') = "stopped"
    /\ MotorState.front_left (motor_state self') = set_motor "stop" 0
    /\ MotorState.front_right (motor_state self') = set_motor "stop" 0
    /\ MotorState.rear_left (motor_state self') = set_motor "stop" 0
    /\ MotorState.rear_right (motor_state self') = set_motor "stop" 0
    /\ emergency_stop_active self' = emergency_stop_active self
    /\ RuntimeStats.total_commands (runtime_stats self')
       = RuntimeStats.total_commands (runtime_stats self)
         + (if immediate || negb (smooth_control self) then 1 else 2).
Proof.
  intros Hstep.
  destruct (immediate || negb (smooth_control self)) eqn:Hnow.
  - cbv beta iota zeta delta [all_motors_stop bind gets]. rewrite Hnow.
    destruct self. eexists. split; [vm_compute; reflexivity|].
    repeat split.
  - destruct (decelerate_ends (Z.to_nat (current_speed self)) self Hstep)
      as (c & g & t' & Hrun & Hc); [lia|].
    cbv beta iota zeta delta [all_motors_stop bind gets]. rewrite Hnow.
    cbv beta iota zeta delta [_smooth_transition bind gets].
    change (String.eqb "stop" "stop") with true. cbv beta iota.
    rewrite Hrun.
    destruct self as [? ? ? ? ? ? ? ? ? ? ? ? ? ? []].
    eexists. split; [cbv -[Z.add]; reflexivity|].
    cbn [current_speed gpio motor_state emergency_stop_active runtime_stats
           MotorState.current_action MotorState.front_left MotorState.front_right
           MotorState.rear_left MotorState.rear_right RuntimeStats.total_commands].
    repeat split. lia.
Qed.

(** X16.  With a positive [acceleration_step], [all_motors_stop] returns
    [True] in every state, smooth or immediate: afterwards [current_speed] is
    0, every direction pin is low and every duty cycle is 0, the motor state
    says stopped, and the lockout flag is as before.  A smooth stop counts as
    two commands, an immediate one as one. *)
Theorem all_motors_stop_stops (self : t) (immediate : bool) :
  0 < acceleration_step self ->
  exists self',
    all_motors_stop immediate self = Some (true, self')
    /\ current_speed self' = 0
    /\ all_stopped (gpio self')
    /\ MotorState.current_action (motor_state self') = "stopped"
    /\ MotorState.front_left (motor_state self') = set_motor "stop" 0
    /\ MotorState.front_right (motor_state self') = set_motor "stop" 0
    /\ MotorState.rear_left (motor_state self') = set_motor "stop" 0
    /\ MotorState.rear_right (motor_state self') = set_motor "stop" 0
    /\ emergency_stop_active self' = emergency_stop_active self
    /\ RuntimeStats.total_commands (runtime_stats self')
       = RuntimeStats.total_commands (runtime_stats self)
         + (if immediate || negb (smooth_control self) then 1 else 2).
Proof. exact (all_motors_stop_spec self immediate). Qed.

Lemma all_motors_stop_stops_witness :
  exists self',
    all_motors_stop false Examples.idle_controller = Some (true, self')
    /\ current_speed self' = 0
    /\ all_stopped (gpio self').
Proof.
  destruct (all_motors_stop_stops Examples.idle_controller false)
    as (self' & Hrun & Hspeed & Hstopped & _); [cbn; lia|].
  exists self'. split; [exact Hrun|]. split; [exact Hspeed | exact Hstopped].
Defined.

(** [get_motor_status], with its watchdog test spelled out. *)
Lemma get_motor_status_unfold (self : t) :
  get_motor_status self
  = if Py.Qlt_bool (command_timeout self) (clock self - last_command_time self)
       && negb (emergency_stop_active self)
       && negb (String.eqb (MotorState.current_action (motor_state self)) "stopped")
    then
      match all_motors_stop false self with
      | None => None
      | Some (_, self') =>
          Some (status_of (clock self - last_command_time self)%Q self', self')
      end
    else Some (status_of (clock self - last_command_time self)%Q self, self).
Proof.
  destruct self.
  cbv beta iota zeta delta [get_motor_status bind gets ret time_time clock
                              last_command_time command_timeout
                              emergency_stop_active motor_state].
  destruct (Py.Qlt_bool _ _); [|reflexivity].
  destruct emergency_stop_active0; [reflexivity|].
  destruct (String.eqb _ _); [reflexivity|].
  cbn [andb negb]. cbv beta iota.
  destruct (all_motors_stop false _) as [[b s']|]; reflexivity.
Qed.

(** X17.  [get_motor_status] acts as a watchdog exactly when more than
    [command_timeout] has passed since the last command, the lockout is not
    engaged and the recorded action is not 'stopped': then (given a positive
    [acceleration_step]) it stops all motors before reporting.  In every other
    case it reports and changes nothing. *)
Theorem status_request_is_a_watchdog (self : t) :
  0 < acceleration_step self ->
  exists st self',
    get_motor_status self = Some (st, self')
    /\ st = status_of (clock self - last_command_time self)%Q self'
    /\ ((Py.Qlt_bool (command_timeout self) (clock self - last_command_time self)
         && negb (emergency_stop_active self)
         && negb (String.eqb (MotorState.current_action (motor_state self)) "stopped")
         = true
         /\ all_stopped (gpio self') /\ current_speed self' = 0
         /\ MotorState.current_action (motor_state self') = "stopped")
        \/ (Py.Qlt_bool (command_timeout self) (clock self - last_command_time self)
            && negb (emergency_stop_active self)
            && negb (String.eqb (MotorState.current_action (motor_state self))
                       "stopped")
            = false
            /\ self' = self)).
Proof.
  intros Hstep. rewrite get_motor_status_unfold.
  destruct (_ && _ && _).
  - destruct (all_motors_stop_spec self false Hstep)
      as (self' & -> & Hspeed & Hstopped & Haction & _).
    eexists. exists self'. split; [reflexivity|]. split; [reflexivity|].
    left. repeat split; try reflexivity; try assumption; apply Hstopped.
  - eexists. exists self. split; [reflexivity|]. split; [reflexivity|].
    right. split; reflexivity.
Qed.

Lemma status_request_is_a_watchdog_witness :
  exists st self',
    get_motor_status Examples.idle_controller = Some (st, self')
    /\ st = status_of (clock Examples.idle_controller
                        - last_command_time Examples.idle_controller)%Q self'.
Proof.
  destruct (status_request_is_a_watchdog Examples.idle_controller)
    as (st & self' & Hrun & Hst & _); [cbn; lia|].
  exists st, self'. split; [exact Hrun | exact Hst].
Defined.

(** X18.  A forward run started with smoothing escapes the watchdog.  From a
    controller whose recorded action is 'stopped', [all_motors_forward] with
    smoothing brings the speed to the target but leaves the recorded action
    at 'stopped'; however long one waits afterwards, [get_motor_status] then
    makes no GPIO call and the speed stays at the target. *)
Theorem smoothed_run_escapes_the_watchdog (self : t) (speed : Z) (seconds : Q) :
  emergency_stop_active self = false ->
  smooth_control self = true ->
  0 < acceleration_step self ->
  MotorState.current_action (motor_state self) = "stopped" ->
  exists self1 st self2,
    all_motors_forward (Some speed) None self = Some (true, self1)
    /\ current_speed self1 = speed
    /\ (time_sleep seconds ;; get_motor_status) self1 = Some (st, self2)
    /\ gpio self2 = gpio self1
    /\ current_speed self2 = speed.
Proof.
  intros Hfree Hsmooth Hstep Hidle.
  destruct (approach_forward_ends
              (Z.to_nat (Z.abs (current_speed self - speed))) speed self Hstep)
    as (c & g & t' & Hrun & _); [lia|].
  exists (set_clock t' (set_gpio g (set_current_speed speed self))).
  eexists. eexists. split.
  { cbv beta iota zeta delta [all_motors_forward bind gets or_default_speed ret].
    rewrite Hfree, Hsmooth.
    cbv beta iota zeta delta [_smooth_transition bind gets modify ret].
    change (String.eqb "forward" "stop") with false. cbv beta iota.
    rewrite Hrun. destruct self; reflexivity. }
  split; [destruct self; reflexivity|].
  cbv beta iota zeta delta [bind time_sleep modify].
  rewrite get_motor_status_unfold.
  replace (MotorState.current_action (motor_state _)) with "stopped"
    by (destruct self; cbn in *; congruence).
  change (String.eqb "stopped" "stopped") with true.
  cbn [negb]. rewrite andb_false_r.
  split; [reflexivity|]. split; destruct self; reflexivity.
Qed.

Lemma smoothed_run_escapes_the_watchdog_witness :
  exists self1 st self2,
    all_motors_forward (Some 75) None Examples.idle_controller = Some (true, self1)
    /\ current_speed self1 = 75
    /\ (time_sleep 60 ;; get_motor_status) self1 = Some (st, self2)
    /\ gpio self2 = gpio self1
    /\ current_speed self2 = 75.
Proof.
  apply (smoothed_run_escapes_the_watchdog Examples.idle_controller 75 60);
    reflexivity.
Defined.

End MotorMotionFacts.

(** ** Commands from the app and from the navigator *)

Module CommandFacts.
Import MotorController Wheels.

Local Open Scope method_scope.

(** Case analysis on the string tests over the fields of a command. *)
Ltac split_string_tests :=
  repeat match goal with
         | |- context [String.eqb ?a ?b] =>
             is_var a; destruct (String.eqb a b) eqn:?
         end.

(** [_update_motor_state] returns, and writes nothing but the motor state and
    the time of the last command. *)
Lemma update_motor_state_frame (action : string) (speed : Z) (self : t) :
  exists state,
    _update_motor_state action speed self
    = Some (tt, set_motor_state state (set_last_command_time (clock self) self)).
Proof.
  destruct self.
  cbv beta iota zeta delta [_update_motor_state bind gets modify time_time ret
                              clock current_speed].
  repeat match goal with
         | |- context [if ?b then _ else _] => destruct b
         end;
    eexists; reflexivity.
Qed.

(** Replaces the call of [_update_motor_state] in the goal by its result. *)
Ltac update_motor_state :=
  match goal with
  | |- context [_update_motor_state ?a ?v ?s] =>
      let state := fresh "state" in
      let H := fresh "H" in
      destruct (update_motor_state_frame a v s) as (state & H);
      rewrite H; clear H
  end.

(** Evaluates the command in a goal
    [exists self' a b c d, command self = _ /\ _] up to the call of
    [_update_motor_state]. *)
Ltac compute_command :=
  match goal with
  | |- ex (fun _ => ex (fun _ => ex (fun _ => ex (fun _ => ex (fun _ =>
         ?lhs = _ /\ _))))) =>
      let v := eval cbv -[_update_motor_state Z.add Z.sub Z.max Z.min] in lhs in
      change lhs with v
  end.

(** X19.  A left or right command without duration, on a controller that is
    not locked and whose limits satisfy [min_speed <= max_speed], returns
    [True] and leaves every PWM at a duty between [min_speed] and
    [max_speed], whatever speed and turn type were requested: the requested
    speed is clamped first.  The wheels on the inner side of the turn are
    never driven faster than those on the outer side, and [current_speed] is
    not touched. *)
Theorem turn_commands_respect_the_speed_limits
  (self : t) (command : command_data) (side : string) :
  emergency_stop_active self = false ->
  min_speed self <= max_speed self ->
  side = "left" \/ side = "right" ->
  cmd_action command = Some side ->
  cmd_duration command = None ->
  exists self' front_left front_right rear_left rear_right,
    execute_android_command command self = Some (true, self')
    /\ duties (gpio self')
       = [Some front_left; Some front_right; Some rear_left; Some rear_right]
    /\ min_speed self <= front_left <= max_speed self
    /\ min_speed self <= front_right <= max_speed self
    /\ rear_left = front_left
    /\ rear_right = front_right
    /\ (side = "left" -> front_left <= front_right)
    /\ (side = "right" -> front_right <= front_left)
    /\ current_speed self' = current_speed self.
Proof.
  intros Hfree Hlimits Hside Haction Hduration.
  destruct command as [action speed duration turn_type source].
  cbn [cmd_action cmd_duration] in Haction, Hduration. subst action duration.
  destruct self as [? ? ? ? ? ? ? ? ? ? ? ? ? ? []].
  cbn [emergency_stop_active min_speed max_speed] in Hfree, Hlimits.
  subst.
  cbv beta iota zeta delta [execute_android_command cmd_action cmd_speed
                              cmd_duration cmd_turn_type cmd_source
                              turn_left turn_right].
  destruct Hside as [-> | ->];
    destruct speed as [speed|], turn_type as [turn_type|], source as [source|];
    split_string_tests;
    compute_command; update_motor_state;
    (eexists; do 4 eexists);
    (split; [cbv -[Z.add Z.sub Z.max Z.min]; reflexivity|]);
    (cbn [current_speed gpio min_speed max_speed];
     split; [reflexivity|];
     split; [lia|]; split; [lia|];
     split; [reflexivity|]; split; [reflexivity|];
     split; [intros; try discriminate; lia|];
     split; [intros; try discriminate; lia | reflexivity]).
Qed.

Lemma turn_commands_respect_the_speed_limits_witness :
  exists self',
    execute_android_command
      {| cmd_action := Some "left"; cmd_speed := Some 150; cmd_duration := None;
         cmd_turn_type := Some "pivot"; cmd_source := Some "manual" |}
      Examples.idle_controller
    = Some (true, self')
    /\ duties (gpio self') = repeat (Some 100) 4.
Proof.
  destruct (turn_commands_respect_the_speed_limits
              Examples.idle_controller
              {| cmd_action := Some "left"; cmd_speed := Some 150;
                 cmd_duration := None; cmd_turn_type := Some "pivot";
                 cmd_source := Some "manual" |}
              "left")
    as (self' & fl & fr & rl & rr & Hrun & _);
    [reflexivity | cbn; lia | left; reflexivity | reflexivity | reflexivity |].
  exists self'. split; [exact Hrun|].
  vm_compute in Hrun. injection Hrun as <-. reflexivity.
Defined.

End CommandFacts.

(** ** main.py: what reaches the motors *)

Module SmartVehicleFacts.
Import SmartVehicle VehicleInvariants.

(** *** The navigator's decisions as motor commands *)

Lemma deque_append_incl {A : Type} (n : nat) (x y : A) (l : list A) :
  In y (Py.deque_append n x l) -> y = x \/ In y l.
Proof.
  unfold Py.deque_append. intros Hin.
  assert (Hall : In y (l ++ [x])%list).
  { destruct (_ <? _)%nat; [|exact Hin].
    destruct l as [|z r]; cbn [app tl] in *; [contradiction | now right]. }
  apply in_app_or in Hall. destruct Hall as [Hl | [-> | []]]; auto.
Qed.

Lemma raw_action_decided (nav : NavigationAI.t) (env : NavigationAI.environment) :
  decided (NavigationAI.action (NavigationAI.make_navigation_decision nav env)).
Proof.
  unfold NavigationAI.make_navigation_decision, decided, decided_actions.
  repeat match goal with
         | |- context [if ?b then _ else _] => destruct b
         end;
    cbn [NavigationAI.action NavigationAI.mk_decision In]; tauto.
Qed.

Lemma raw_speed (nav : NavigationAI.t) (env : NavigationAI.environment) :
  In (NavigationAI.speed (NavigationAI.make_navigation_decision nav env))
     [0; NavigationAI.reduced_speed nav; NavigationAI.default_speed nav].
Proof.
  unfold NavigationAI.make_navigation_decision.
  repeat match goal with
         | |- context [if ?b then _ else _] => destruct b
         end;
    cbn [NavigationAI.speed NavigationAI.mk_decision In]; tauto.
Qed.

Lemma decided_turn_type (a : string) :
  decided a -> _determine_turn_type a = "normal".
Proof.
  unfold decided, decided_actions. cbn [In].
  intros H. repeat (destruct H as [<- | H]; [reflexivity|]). contradiction.
Qed.

(** One cycle of the navigator keeps the history within the decided
    actions. *)
Lemma process_navigation_decided
  (nav : NavigationAI.t) (vision : NavigationProcess.vision_data)
  (sensor : NavigationProcess.sensor_data) :
  Forall decided (NavigationAI.decision_history nav) ->
  exists d nav',
    NavigationProcess.process_navigation nav vision sensor = Some (d, nav')
    /\ decided (NavigationAI.action d)
    /\ In (NavigationAI.speed d)
          [0; NavigationAI.reduced_speed nav; NavigationAI.default_speed nav]
    /\ Forall decided (NavigationAI.decision_history nav')
    /\ NavigationAI.reduced_speed nav' = NavigationAI.reduced_speed nav
    /\ NavigationAI.default_speed nav' = NavigationAI.default_speed nav.
Proof.
  intros Hhist. unfold NavigationProcess.process_navigation.
  set (raw := NavigationAI.make_navigation_decision nav
                (NavigationProcess.analyze_environment vision sensor)).
  destruct (NavigationProcessFacts.apply_temporal_filtering_spec nav raw)
    as (k & Hin & _ & Hrun).
  cbv zeta in *. rewrite Hrun.
  set (h := Py.deque_append 5 (NavigationAI.action raw)
              (NavigationAI.decision_history nav)) in *.
  assert (Hh : Forall decided h).
  { apply Forall_forall. intros y Hy.
    apply deque_append_incl in Hy. destruct Hy as [-> | Hy].
    - apply raw_action_decided.
    - exact (proj1 (Forall_forall _ _) Hhist y Hy). }
  eexists. eexists. split; [reflexivity|].
  cbn [NavigationAI.action NavigationAI.speed NavigationAI.decision_history
         NavigationAI.reduced_speed NavigationAI.default_speed
         NavigationProcess.record_action NavigationAI.set_decision_history].
  split; [|split; [apply raw_speed|split; [exact Hh|split; reflexivity]]].
  destruct (_ <=? _)%nat; [|apply raw_action_decided].
  exact (proj1 (Forall_forall _ _) Hh k Hin).
Qed.

(** X20.  From a history that holds only actions the navigator can decide,
    as the empty one of [__init__] does, [process_navigation] returns for
    every sequence of inputs, and every decision it reports, filtered or not,
    has one of the seven decided actions and the speed 0, [reduced_speed] or
    [default_speed].  So the command that [_execute_navigation_decision]
    prepares always has the turn type [normal]: the sharp and pivot turns of
    the motor controller are never used in autonomous driving. *)
Theorem autonomous_turns_are_never_sharp
  (nav : NavigationAI.t)
  (inputs : list (NavigationProcess.vision_data * NavigationProcess.sensor_data)) :
  Forall decided (NavigationAI.decision_history nav) ->
  exists ds nav',
    navigate nav inputs = Some (ds, nav')
    /\ List.length ds = List.length inputs
    /\ Forall
         (fun d =>
            decided (NavigationAI.action d)
            /\ In (NavigationAI.speed d)
                  [0; NavigationAI.reduced_speed nav; NavigationAI.default_speed nav]
            /\ MotorController.cmd_turn_type (navigation_command d) = Some "normal")
         ds.
Proof.
  revert nav. induction inputs as [|[vision sensor] inputs IH]; intros nav Hhist.
  - exists [], nav. split; [reflexivity|]. split; [reflexivity|]. constructor.
  - destruct (process_navigation_decided nav vision sensor Hhist)
      as (d & nav1 & Hrun & Hd & Hspeed & Hhist1 & Hreduced & Hdefault).
    destruct (IH nav1 Hhist1) as (ds & nav2 & Hruns & Hlen & Hall).
    exists (d :: ds), nav2. cbn [navigate]. rewrite Hrun, Hruns.
    split; [reflexivity|]. split; [cbn [List.length]; now rewrite Hlen|].
    rewrite Hreduced, Hdefault in Hall.
    constructor; [|exact Hall].
    split; [exact Hd|]. split; [exact Hspeed|].
    cbn [navigation_command MotorController.cmd_turn_type].
    now rewrite (decided_turn_type _ Hd).
Qed.

Lemma autonomous_turns_are_never_sharp_witness :
  exists ds nav',
    navigate NavigationAI.init
      [(NavigationProcess.no_vision_data, NavigationProcess.no_sensor_data);
       (NavigationProcess.no_vision_data, NavigationProcess.no_sensor_data)]
    = Some (ds, nav')
    /\ List.length ds = 2%nat.
Proof.
  destruct (autonomous_turns_are_never_sharp NavigationAI.init
              [(NavigationProcess.no_vision_data, NavigationProcess.no_sensor_data);
               (NavigationProcess.no_vision_data, NavigationProcess.no_sensor_data)])
    as (ds & nav' & Hrun & Hlen & _); [constructor|].
  exists ds, nav'. split; [exact Hrun | exact Hlen].
Defined.

(** *** The lockout of the controller, seen from the vehicle *)

Lemma stays_locked_refl (motors : MotorController.t) :
  MotorController.emergency_stop_active motors = true ->
  MotorController.current_speed motors = 0 ->
  stays_locked motors motors.
Proof.
  intros Hlock Hrest. split; [exact Hlock|]. split; [exact Hrest|].
  exists []. split; reflexivity.
Qed.

Lemma stays_locked_trans (a b c : MotorController.t) :
  stays_locked a b -> stays_locked b c -> stays_locked a c.
Proof.
  intros (_ & _ & ext1 & Hg1 & Hd1) (Hlock & Hrest & ext2 & Hg2 & Hd2).
  split; [exact Hlock|]. split; [exact Hrest|].
  exists (ext2 ++ ext1)%list. split.
  - now rewrite Hg2, Hg1, app_assoc.
  - now apply MotorControllerFacts.existsb_drives_app.
Qed.

(** A method of the controller other than the reset, called by the vehicle
    on a locked controller at rest. *)
Lemma locked_call {A : Type}
  (call : MotorController.M A) (o : MotorController.operation)
  (wrap : A -> MotorController.outcome) (self : t) :
  (forall motors,
     MotorController.run o motors
     = MotorController.bind call (fun a => MotorController.ret (wrap a)) motors) ->
  MotorController.is_reset o = false ->
  MotorController.is_motor_drive o = false ->
  MotorController.emergency_stop_active (motor_controller self) = true ->
  MotorController.current_speed (motor_controller self) = 0 ->
  exists a motors,
    on_motors call self = Some (a, set_motor_controller motors self)
    /\ stays_locked (motor_controller self) motors.
Proof.
  intros Hrun Hop Hdirect Hlock Hrest.
  destruct (MotorControllerFacts.locked_step o (motor_controller self) Hlock Hrest
              Hop Hdirect)
    as (r & motors & Hstep & Hlock' & Hrest' & _ & Hcalls).
  rewrite Hrun in Hstep. unfold MotorController.bind in Hstep.
  unfold on_motors.
  destruct (call (motor_controller self)) as [[a motors']|]; [|discriminate].
  unfold MotorController.ret in Hstep. injection Hstep as _ ->.
  exists a, motors. split; [reflexivity|].
  split; [exact Hlock'|]. split; [exact Hrest' | exact Hcalls].
Qed.

Ltac locked_call_of o wrap Hlock Hrest :=
  let a := fresh "a" in
  let motors := fresh "motors" in
  let Hcall := fresh "Hcall" in
  let Hquiet := fresh "Hquiet" in
  destruct (locked_call _ o wrap _ (fun _ => eq_refl) eq_refl eq_refl Hlock Hrest)
    as (a & motors & Hcall & Hquiet);
  rewrite Hcall; eexists; (split; [reflexivity|]); exact Hquiet.

Lemma flags_keep_locked (update : t -> t) :
  (forall self, motor_controller (update self) = motor_controller self) ->
  keeps_locked (fun self => Some (update self)).
Proof.
  intros Hsame self Hlock Hrest. eexists. split; [reflexivity|].
  rewrite Hsame. now apply stays_locked_refl.
Qed.

Lemma handle_emergency_stop_keeps_locked : keeps_locked _handle_emergency_stop.
Proof.
  intros self Hlock Hrest. unfold _handle_emergency_stop.
  destruct (emergency_stop self).
  - eexists. split; [reflexivity|]. now apply stays_locked_refl.
  - change (motor_controller self)
      with (motor_controller (set_emergency_stop true self)) in Hlock, Hrest |- *.
    locked_call_of (MotorController.AllMotorsStop false)
                   MotorController.Returned Hlock Hrest.
Qed.

Lemma execute_navigation_decision_keeps_locked (d : NavigationAI.decision) :
  keeps_locked (fun self =>
                  match _execute_navigation_decision d self with
                  | Some (_, self') => Some self'
                  | None => None
                  end).
Proof.
  intros self Hlock Hrest. unfold _execute_navigation_decision.
  destruct (emergency_stop self).
  - eexists. split; [reflexivity|]. now apply stays_locked_refl.
  - destruct (locked_call _ (MotorController.ExecuteAndroidCommand
                               (navigation_command d))
                MotorController.Returned _ (fun _ => eq_refl) eq_refl eq_refl Hlock Hrest)
      as (a & motors & Hcall & Hquiet).
    rewrite Hcall. eexists. split; [reflexivity | exact Hquiet].
Qed.

Lemma handle_manual_control_keeps_locked (p : payload) :
  keeps_locked (_handle_manual_control p).
Proof.
  intros self Hlock Hrest. unfold _handle_manual_control.
  destruct (negb (manual_override self) || emergency_stop self).
  - eexists. split; [reflexivity|]. now apply stays_locked_refl.
  - locked_call_of (MotorController.ExecuteAndroidCommand (manual_command p))
                   MotorController.Returned Hlock Hrest.
Qed.

Lemma send_system_status_keeps_locked : keeps_locked _send_system_status.
Proof.
  intros self Hlock Hrest. unfold _send_system_status.
  locked_call_of MotorController.GetMotorStatus MotorController.Status Hlock Hrest.
Qed.

Lemma handle_app_command_keeps_locked (m : message) :
  keeps_locked (_handle_app_command m).
Proof.
  destruct m as [enabled|enabled| | |p| |confirmed|]; cbn [_handle_app_command].
  - now apply (flags_keep_locked (set_auto_mode enabled)).
  - intros self Hlock Hrest. cbn [_handle_app_command]. cbv beta zeta.
    change (manual_override (set_manual_override enabled self)) with enabled.
    destruct enabled.
    + change (motor_controller self)
        with (motor_controller (set_manual_override true self))
        in Hlock, Hrest |- *.
      locked_call_of (MotorController.AllMotorsStop false)
                     MotorController.Returned Hlock Hrest.
    + eexists. split; [reflexivity|]. now apply stays_locked_refl.
  - apply handle_emergency_stop_keeps_locked.
  - now apply (flags_keep_locked (set_emergency_stop false)).
  - intros self Hlock Hrest. cbn [_handle_app_command].
    destruct (manual_override self).
    + now apply handle_manual_control_keeps_locked.
    + eexists. split; [reflexivity|]. now apply stays_locked_refl.
  - apply send_system_status_keeps_locked.
  - destruct confirmed.
    + apply send_system_status_keeps_locked.
    + now apply (flags_keep_locked (fun self => self)).
  - now apply (flags_keep_locked (fun self => self)).
Qed.

Lemma loop_pass_keeps_locked (p : pass) : keeps_locked (loop_pass p).
Proof.
  intros self Hlock Hrest. unfold loop_pass.
  destruct (locked_call _ (MotorController.Wait (elapsed p))
              (fun _ => MotorController.Elapsed) _ (fun _ => eq_refl) eq_refl eq_refl
              Hlock Hrest) as ([] & motors1 & Hcall1 & Hquiet1).
  rewrite Hcall1.
  set (self1 := set_motor_controller motors1 self) in *.
  assert (Hlock1 : MotorController.emergency_stop_active (motor_controller self1)
                   = true) by apply Hquiet1.
  assert (Hrest1 : MotorController.current_speed (motor_controller self1) = 0)
    by apply Hquiet1.
  destruct (frame_read p); cbn [negb].
  2:{ eexists. split; [reflexivity | exact Hquiet1]. }
  destruct (emergency_condition p).
  { destruct (handle_emergency_stop_keeps_locked self1 Hlock1 Hrest1)
      as (self2 & Hrun2 & Hquiet2).
    exists self2. split; [exact Hrun2|].
    exact (stays_locked_trans _ _ _ Hquiet1 Hquiet2). }
  assert (Hdrive :
    exists r self2,
      (if auto_mode self1 && negb (manual_override self1)
       then _execute_navigation_decision (decision p) self1
       else Some (None, self1)) = Some (r, self2)
      /\ stays_locked (motor_controller self1) (motor_controller self2)).
  { destruct (auto_mode self1 && negb (manual_override self1)).
    - destruct (execute_navigation_decision_keeps_locked (decision p) self1
                  Hlock1 Hrest1) as (self2 & Hrun2 & Hquiet2).
      destruct (_execute_navigation_decision (decision p) self1)
        as [[r self2']|]; [|discriminate].
      injection Hrun2 as ->. exists r, self2. split; [reflexivity | exact Hquiet2].
    - exists None, self1. split; [reflexivity|]. now apply stays_locked_refl. }
  destruct Hdrive as (r & self2 & Hrun2 & Hquiet2). rewrite Hrun2.
  assert (Hlock2 : MotorController.emergency_stop_active (motor_controller self2)
                   = true) by apply Hquiet2.
  assert (Hrest2 : MotorController.current_speed (motor_controller self2) = 0)
    by apply Hquiet2.
  destruct (locked_call _ MotorController.GetMotorStatus MotorController.Status
              _ (fun _ => eq_refl) eq_refl eq_refl Hlock2 Hrest2)
    as (st & motors3 & Hcall3 & Hquiet3).
  rewrite Hcall3.
  set (self3 := set_motor_controller motors3 self2) in *.
  assert (Hquiet13 : stays_locked (motor_controller self) (motor_controller self3)).
  { exact (stays_locked_trans _ _ _ Hquiet1
             (stays_locked_trans _ _ _ Hquiet2 Hquiet3)). }
  destruct (received p) as [m|].
  - destruct (handle_app_command_keeps_locked m self3) as (self4 & Hrun4 & Hquiet4);
      [apply Hquiet3 | apply Hquiet3 |].
    exists self4. split; [exact Hrun4|].
    exact (stays_locked_trans _ _ _ Hquiet13 Hquiet4).
  - exists self3. split; [reflexivity | exact Hquiet13].
Qed.

Lemma main_loop_keeps_locked (passes : list pass) : keeps_locked (main_loop passes).
Proof.
  induction passes as [|p passes IH]; intros self Hlock Hrest; cbn [main_loop].
  - exists self. split; [reflexivity|]. now apply stays_locked_refl.
  - destruct (loop_pass_keeps_locked p self Hlock Hrest) as (self1 & Hrun1 & Hquiet1).
    rewrite Hrun1.
    destruct (IH self1) as (self2 & Hrun2 & Hquiet2);
      [apply Hquiet1 | apply Hquiet1 |].
    exists self2. split; [exact Hrun2|].
    exact (stays_locked_trans _ _ _ Hquiet1 Hquiet2).
Qed.

(** An emergency-stop command of the navigator engages the lockout. *)
Lemma emergency_command_locks (speed : Z) (turn_type : string) (self : MotorController.t) :
  exists self',
    MotorController.execute_android_command
      {| MotorController.cmd_action := Some "emergency_stop";
         MotorController.cmd_speed := Some speed;
         MotorController.cmd_duration := None;
         MotorController.cmd_turn_type := Some turn_type;
         MotorController.cmd_source := Some "autonomous" |} self
    = Some (true, self')
    /\ MotorController.emergency_stop_active self' = true
    /\ MotorController.current_speed self' = 0.
Proof.
  destruct self as [? ? ? ? ? ? ? ? ? ? ? ? ? ? []].
  match goal with
  | |- exists _, ?lhs = _ /\ _ =>
      let v := eval vm_compute in lhs in change lhs with v
  end.
  eexists. split; [reflexivity|]. split; reflexivity.
Qed.

(** X21.  When the vehicle executes a decision EMERGENCY_STOP of the
    navigator, the motor controller's own lockout is engaged while the
    vehicle's flag [emergency_stop] stays clear.  Nothing in main.py releases
    that lockout: whatever passes of the main loop follow, with whatever
    decisions and app messages, RESET_EMERGENCY, MANUAL_OVERRIDE and
    MANUAL_CONTROL included, every pass returns, the controller stays locked
    at speed zero, and no GPIO call made afterwards drives a wheel. *)
Theorem navigator_emergency_stop_outlives_reset
  (self : t) (d : NavigationAI.decision) (passes : list pass) :
  emergency_stop self = false ->
  NavigationAI.action d = "EMERGENCY_STOP" ->
  exists stopped final,
    _execute_navigation_decision d self = Some (Some true, stopped)
    /\ emergency_stop stopped = false
    /\ main_loop passes stopped = Some final
    /\ stays_locked (motor_controller stopped) (motor_controller final).
Proof.
  intros Hflag Haction.
  unfold _execute_navigation_decision, on_motors, navigation_command.
  rewrite Hflag, Haction.
  change (_map_navigation_to_motor_action "EMERGENCY_STOP") with "emergency_stop".
  destruct (emergency_command_locks (NavigationAI.speed d)
              (_determine_turn_type "EMERGENCY_STOP") (motor_controller self))
    as (motors & Hrun & Hlock & Hrest).
  rewrite Hrun.
  destruct (main_loop_keeps_locked passes (set_motor_controller motors self)
              Hlock Hrest) as (final & Hloop & Hquiet).
  exists (set_motor_controller motors self), final.
  split; [reflexivity|]. split; [exact Hflag|]. split; [exact Hloop | exact Hquiet].
Qed.

Lemma navigator_emergency_stop_outlives_reset_witness :
  exists stopped final,
    _execute_navigation_decision MoreExamples.obstacle_ahead
      MoreExamples.autonomous_vehicle
    = Some (Some true, stopped)
    /\ main_loop MoreExamples.reset_then_drive stopped = Some final
    /\ emergency_stop final = false
    /\ MotorController.emergency_stop_active (motor_controller final) = true.
Proof.
  destruct (navigator_emergency_stop_outlives_reset
              MoreExamples.autonomous_vehicle MoreExamples.obstacle_ahead
              MoreExamples.reset_then_drive)
    as (stopped & final & Hrun & _ & Hloop & Hlock & _);
    [reflexivity | reflexivity |].
  exists stopped, final.
  split; [exact Hrun|]. split; [exact Hloop|]. split; [|exact Hlock].
  vm_compute in Hrun. injection Hrun as <-.
  vm_compute in Hloop. injection Hloop as <-. reflexivity.
Defined.

(** *** An emergency that the filter holds back *)

(** The raw decision on a reading below 20 cm. *)
Lemma near_obstacle_decides_emergency
  (nav : NavigationAI.t) (data : NavigationVisionSystem.NavigationData.t)
  (measured : Q) :
  (NavigationAI.obstacle_stop_distance nav == 20)%Q ->
  (measured < 20)%Q ->
  NavigationAI.make_navigation_decision nav
    (NavigationProcess.analyze_environment
       (NavigationProcess.vision_data_of data)
       (SensorManager.sensor_data_of
          (SensorManager.read_sensor_data SensorManager.init measured)))
  = NavigationAI.mk_decision "EMERGENCY_STOP" 0
      [NavigationAI.Text "Obstacle at "; NavigationAI.Num measured;
       NavigationAI.Text "cm"].
Proof.
  intros Hstop Hnear.
  unfold NavigationAI.make_navigation_decision,
    NavigationProcess.analyze_environment, NavigationProcess.vision_data_of,
    SensorManager.sensor_data_of, SensorManager.read_sensor_data,
    NavigationProcess.get.
  cbn [NavigationAI.obstacle_distance NavigationAI.obstacle_detected
         NavigationProcess.sd_distance NavigationProcess.sd_obstacle_detected
         SensorManager.distance SensorManager.obstacle_detected
         SensorManager.obstacle_threshold SensorManager.init].
  assert (H20 : Py.Qlt_bool measured 20 = true).
  { destruct (Py.Qlt_bool measured 20) eqn:E; [reflexivity|].
    apply PyFacts.Qlt_bool_false in E. exfalso. exact (Qlt_not_le _ _ Hnear E). }
  assert (Hrule : Py.Qlt_bool measured (NavigationAI.obstacle_stop_distance nav)
                  = true).
  { destruct (Py.Qlt_bool measured (NavigationAI.obstacle_stop_distance nav)) eqn:E;
      [reflexivity|].
    apply PyFacts.Qlt_bool_false in E. rewrite Hstop in E.
    exfalso. exact (Qlt_not_le _ _ Hnear E). }
  rewrite H20, Hrule. reflexivity.
Qed.

(** A forward command of the navigator on a controller that smooths. *)
Lemma forward_command_smooth
  (self : MotorController.t) (speed : Z) (turn_type : string) :
  MotorController.emergency_stop_active self = false ->
  MotorController.smooth_control self = true ->
  0 < MotorController.acceleration_step self ->
  exists self' c,
    MotorController.execute_android_command
      {| MotorController.cmd_action := Some "forward";
         MotorController.cmd_speed := Some speed;
         MotorController.cmd_duration := None;
         MotorController.cmd_turn_type := Some turn_type;
         MotorController.cmd_source := Some "autonomous" |} self
    = Some (true, self')
    /\ MotorController.current_speed self'
       = Z.max (MotorController.min_speed self)
               (Z.min (MotorController.max_speed self) speed)
    /\ MotorController.emergency_stop_active self' = false
    /\ Z.abs (c - MotorController.current_speed self')
       <= MotorController.acceleration_step self
    /\ ((MotorController.gpio self' = MotorController.gpio self
         /\ c = MotorController.current_speed self)
        \/ (Wheels.all_forward (MotorController.gpio self')
            /\ Wheels.duties (MotorController.gpio self') = repeat (Some c) 4)).
Proof.
  intros Hfree Hsmooth Hstep.
  destruct self as [? ? ? ? ? ? ? ? ? ? ? ? ? ? []].
  cbn [MotorController.emergency_stop_active MotorController.smooth_control
         MotorController.acceleration_step] in Hfree, Hsmooth, Hstep.
  subst.
  match goal with
  | |- ex (fun _ => ex (fun _ => ?lhs = _ /\ _)) =>
      let v := eval cbv -[MotorController.all_motors_forward Z.add Z.max Z.min] in lhs in
      change lhs with v
  end.
  match goal with
  | |- context [MotorController.all_motors_forward (Some ?v) None ?s] =>
      destruct (MotorMotionFacts.all_motors_forward_smooth_spec s v None
                  eq_refl eq_refl Hstep)
        as (c & g & t' & Hrun & Hnear & _ & Hcalls);
      rewrite Hrun
  end.
  eexists. exists c. split; [reflexivity|].
  cbn [MotorController.current_speed MotorController.emergency_stop_active
         MotorController.gpio MotorController.set_clock MotorController.set_gpio
         MotorController.set_current_speed MotorController.min_speed
         MotorController.max_speed MotorController.acceleration_step] in *.
  split; [reflexivity|]. split; [reflexivity|]. split; [exact Hnear|].
  destruct Hcalls as [[-> ->] | (_ & Hforward & Hduties)];
    [left; split; reflexivity | right; split; assumption].
Qed.

(** X22.  A reading of at least 15 and below 20 cm does not trip the obstacle
    test of [_check_emergency_conditions], and the navigator decides
    EMERGENCY_STOP on it.  If MOVE_FORWARD still has the consensus of the
    decision history, [process_navigation] reports MOVE_FORWARD with the
    speed 0 of the emergency stop, and [_execute_navigation_decision] turns
    that into a forward command whose speed is raised to [min_speed]: on a
    controller that smooths, with [0 <= min_speed <= max_speed], the command
    succeeds and leaves [current_speed] at [min_speed], the motors being
    driven forward within one step of it unless the speed was that close
    already. *)
Theorem held_back_emergency_drives_on
  (nav : NavigationAI.t) (data : NavigationVisionSystem.NavigationData.t)
  (measured : Q) (self : t) :
  (NavigationAI.obstacle_stop_distance nav == 20)%Q ->
  (15 <= measured)%Q ->
  (measured < 20)%Q ->
  (3 * List.length (Py.deque_append 5 "EMERGENCY_STOP"
                      (NavigationAI.decision_history nav))
   <= 5 * count_occ string_dec
            (Py.deque_append 5 "EMERGENCY_STOP" (NavigationAI.decision_history nav))
            "MOVE_FORWARD")%nat ->
  emergency_stop self = false ->
  MotorController.emergency_stop_active (motor_controller self) = false ->
  MotorController.smooth_control (motor_controller self) = true ->
  0 < MotorController.acceleration_step (motor_controller self) ->
  0 <= MotorController.min_speed (motor_controller self)
    <= MotorController.max_speed (motor_controller self) ->
  obstacle_too_close (SensorManager.read_sensor_data SensorManager.init measured)
  = false
  /\ exists d nav' self' c,
       NavigationProcess.process_navigation nav
         (NavigationProcess.vision_data_of data)
         (SensorManager.sensor_data_of
            (SensorManager.read_sensor_data SensorManager.init measured))
       = Some (d, nav')
       /\ NavigationAI.action d = "MOVE_FORWARD"
       /\ NavigationAI.speed d = 0
       /\ NavigationAI.filtered d = Some true
       /\ _execute_navigation_decision d self = Some (Some true, self')
       /\ MotorController.emergency_stop_active (motor_controller self') = false
       /\ MotorController.current_speed (motor_controller self')
          = MotorController.min_speed (motor_controller self)
       /\ Z.abs (c - MotorController.min_speed (motor_controller self))
          <= MotorController.acceleration_step (motor_controller self)
       /\ ((MotorController.gpio (motor_controller self')
            = MotorController.gpio (motor_controller self)
            /\ c = MotorController.current_speed (motor_controller self))
           \/ (Wheels.all_forward (MotorController.gpio (motor_controller self'))
               /\ Wheels.duties (MotorController.gpio (motor_controller self'))
                  = repeat (Some c) 4)).
Proof.
  intros Hstop Hfar Hnear Hconsensus Hflag Hfree Hsmooth Hstep Hlimits.
  split.
  { unfold obstacle_too_close, SensorManager.read_sensor_data.
    cbn [SensorManager.obstacle_detected SensorManager.distance].
    destruct (Py.Qlt_bool measured 15) eqn:E; [|apply andb_false_r].
    apply PyFacts.Qlt_bool_true in E. exfalso. exact (Qlt_not_le _ _ E Hfar). }
  unfold NavigationProcess.process_navigation.
  rewrite (near_obstacle_decides_emergency nav data measured Hstop Hnear).
  rewrite (NavigationProcessFacts.filtering_with_consensus nav
             (NavigationAI.mk_decision "EMERGENCY_STOP" 0
                [NavigationAI.Text "Obstacle at "; NavigationAI.Num measured;
                 NavigationAI.Text "cm"])
             "MOVE_FORWARD" Hconsensus).
  destruct (forward_command_smooth (motor_controller self) 0
              (_determine_turn_type "MOVE_FORWARD") Hfree Hsmooth Hstep)
    as (motors & c & Hrun & Hspeed & Hfree' & Hnear' & Hcalls).
  replace (Z.max (MotorController.min_speed (motor_controller self))
             (Z.min (MotorController.max_speed (motor_controller self)) 0))
    with (MotorController.min_speed (motor_controller self)) in Hspeed by lia.
  rewrite Hspeed in Hnear'.
  eexists. eexists. exists (set_motor_controller motors self), c.
  split; [reflexivity|].
  cbn [NavigationAI.action NavigationAI.speed NavigationAI.filtered
         NavigationAI.mk_decision].
  split; [reflexivity|]. split; [reflexivity|]. split; [reflexivity|].
  split.
  { unfold _execute_navigation_decision, on_motors, navigation_command.
    rewrite Hflag.
    cbn [NavigationAI.action NavigationAI.speed NavigationAI.mk_decision].
    change (_map_navigation_to_motor_action "MOVE_FORWARD") with "forward".
    rewrite Hrun. reflexivity. }
  cbn [motor_controller set_motor_controller].
  split; [exact Hfree'|]. split; [exact Hspeed|]. split; [exact Hnear' | exact Hcalls].
Qed.

Lemma held_back_emergency_drives_on_witness :
  exists d nav' self',
    NavigationProcess.process_navigation MoreExamples.cruising
      (NavigationProcess.vision_data_of
         (NavigationVisionSystem.navigation_data (NavigationVisionSystem.init 0)))
      (SensorManager.sensor_data_of
         (SensorManager.read_sensor_data SensorManager.init 17))
    = Some (d, nav')
    /\ NavigationAI.action d = "MOVE_FORWARD"
    /\ _execute_navigation_decision d MoreExamples.autonomous_vehicle
       = Some (Some true, self')
    /\ MotorController.current_speed (motor_controller self') = 20.
Proof.
  destruct (held_back_emergency_drives_on MoreExamples.cruising
              (NavigationVisionSystem.navigation_data (NavigationVisionSystem.init 0))
              17 MoreExamples.autonomous_vehicle)
    as (_ & d & nav' & self' & c & Hrun & Haction & _ & _ & Hexec & _ & Hspeed & _);
    [reflexivity | vm_compute; discriminate | reflexivity | vm_compute; lia
     | reflexivity | reflexivity | reflexivity | reflexivity | vm_compute; split; discriminate |].
  exists d, nav', self'.
  split; [exact Hrun|]. split; [exact Haction|]. split; [exact Hexec | exact Hspeed].
Defined.

End SmartVehicleFacts.
